(** * Spreadsheet normalisation pipeline of the Excel data viewer

  A shallow embedding of the two upload handlers of the repository (the
  serverless function and the Express route) together with the part of
  the JavaScript runtime they rely on, and the theorems that settle the
  claims of the specification against them.

  Conventions of the embedding:
  - a JavaScript string is a [string], the bytes of its UTF-8 encoding;
    white space and upper case are those of ECMAScript on the characters
    these bytes encode, the searches of the code are for ASCII words and
    are made on the bytes;
  - a JavaScript number is an IEEE 754 binary64 value, [spec_float] with
    precision 53 and maximal exponent 1024, computed with the operations
    of [SpecFloat];
  - a plain object used as a record is a [gmap string value];
  - an exception is an explicit [Thrown] outcome. *)

From Stdlib Require Import ZArith List Bool Lia Ascii String DecimalString.
From Stdlib Require Import Sorting.Sorted Sorting.Permutation.
From Stdlib Require Import Floats.SpecFloat.
From stdpp Require Import gmap strings.

(** ** JavaScript strings *)

Module JsString.

Definition code (c : ascii) : N := N_of_ascii c.

Definition byte (n : N) : ascii := ascii_of_N n.

(** *** Characters

  The bytes of a string are read as UTF-8.  A lead byte announces how many
  bytes its character takes; a byte that is no lead byte, and a sequence cut
  short by the end of the string, are kept as characters of their own, so
  that every sequence of bytes splits into characters. *)

Definition width (c : ascii) : nat :=
  if (code c <? 0xC0)%N then 1
  else if (code c <? 0xE0)%N then 2
  else if (code c <? 0xF0)%N then 3
  else if (code c <? 0xF8)%N then 4
  else 1.

Fixpoint chars (s : string) : list string :=
  match s with
  | EmptyString => []
  | String c1 s1 =>
      match width c1, s1 with
      | 4, String c2 (String c3 (String c4 s4)) =>
          String c1 (String c2 (String c3 (String c4 EmptyString))) :: chars s4
      | 4, _ => [s]
      | 3, String c2 (String c3 s3) =>
          String c1 (String c2 (String c3 EmptyString)) :: chars s3
      | 3, _ => [s]
      | 2, String c2 s2 => String c1 (String c2 EmptyString) :: chars s2
      | 2, _ => [s]
      | _, _ => String c1 EmptyString :: chars s1
      end
  end.

Fixpoint join (l : list string) : string :=
  match l with
  | [] => EmptyString
  | s :: l' => s +:+ join l'
  end.

(** A character that has all the bytes its lead byte announces. *)
Definition isFull (ch : string) : bool :=
  match ch with
  | EmptyString => false
  | String c _ => (String.length ch =? width c)%nat
  end.

(** A character: full, or cut short. *)
Definition isChar (ch : string) : bool :=
  match ch with
  | EmptyString => false
  | String c _ => (String.length ch <=? width c)%nat
  end.

(** The lists that [chars] gives: characters, full but for the last. *)
Fixpoint areChars (l : list string) : bool :=
  match l with
  | [] => true
  | ch :: l' =>
      isChar ch && (isFull ch || match l' with [] => true | _ => false end)
      && areChars l'
  end.

(** The UTF-8 encoding of a code point. *)
Definition encode (n : N) : string :=
  (if n <? 0x80 then String (byte n) EmptyString
   else if n <? 0x800 then
     String (byte (0xC0 + n / 64)) (String (byte (0x80 + n mod 64)) EmptyString)
   else if n <? 0x10000 then
     String (byte (0xE0 + n / 4096))
       (String (byte (0x80 + (n / 64) mod 64))
          (String (byte (0x80 + n mod 64)) EmptyString))
   else
     String (byte (0xF0 + (n / 262144) mod 8))
       (String (byte (0x80 + (n / 4096) mod 64))
          (String (byte (0x80 + (n / 64) mod 64))
             (String (byte (0x80 + n mod 64)) EmptyString))))%N.

(** The code point of a character: of one that is the encoding of a code
    point, and of no other sequence of bytes. *)
Definition decode (ch : string) : option N :=
  let n :=
    (match ch with
     | String a EmptyString => code a
     | String a (String b EmptyString) => code a mod 32 * 64 + code b mod 64
     | String a (String b (String c EmptyString)) =>
         code a mod 16 * 4096 + code b mod 64 * 64 + code c mod 64
     | String a (String b (String c (String d EmptyString))) =>
         code a mod 8 * 262144 + code b mod 64 * 4096 + code c mod 64 * 64
         + code d mod 64
     | _ => 0
     end)%N in
  if String.eqb (encode n) ch then Some n else None.

(** WhiteSpace and LineTerminator code points of ECMAScript: TAB, LF, VT,
    FF, CR, SPACE, NO-BREAK SPACE, the other space separators of Unicode,
    LINE SEPARATOR, PARAGRAPH SEPARATOR and ZERO WIDTH NO-BREAK SPACE. *)
Definition whiteSpaces : list N :=
  [0x0009; 0x000A; 0x000B; 0x000C; 0x000D; 0x0020; 0x00A0; 0x1680;
   0x2000; 0x2001; 0x2002; 0x2003; 0x2004; 0x2005; 0x2006; 0x2007;
   0x2008; 0x2009; 0x200A; 0x2028; 0x2029; 0x202F; 0x205F; 0x3000;
   0xFEFF]%N.

Definition isWhiteSpace (ch : string) : bool :=
  match decode ch with
  | Some n => existsb (N.eqb n) whiteSpaces
  | None => false
  end.

Definition isDigit (c : ascii) : bool :=
  ((48 <=? code c) && (code c <=? 57))%N.

Definition isUpper (c : ascii) : bool :=
  ((65 <=? code c) && (code c <=? 90))%N.

Definition isLower (c : ascii) : bool :=
  ((97 <=? code c) && (code c <=? 122))%N.

Definition isAlpha (c : ascii) : bool := isUpper c || isLower c.

(** *** Letter case

  [String.prototype.toUpperCase] maps every character by the full case
  mapping of the Unicode Character Database (UnicodeData.txt and the
  unconditional entries of SpecialCasing.txt, version 14.0.0); upper case
  needs no context.  [upperRanges] lists the characters with an upper case
  of one character: [(first, last, step, image)] maps [first + k * step],
  up to [last], to [image + k * step].  [upperSpecial] lists those whose
  upper case has several characters. *)

Definition upperRanges : list (N * N * N * N) :=
  [(0x0061, 0x007A, 1, 0x0041); (0x00B5, 0x00B5, 1, 0x039C);
   (0x00E0, 0x00F6, 1, 0x00C0); (0x00F8, 0x00FE, 1, 0x00D8);
   (0x00FF, 0x00FF, 1, 0x0178); (0x0101, 0x012F, 2, 0x0100);
   (0x0131, 0x0131, 1, 0x0049); (0x0133, 0x0137, 2, 0x0132);
   (0x013A, 0x0148, 2, 0x0139); (0x014B, 0x0177, 2, 0x014A);
   (0x017A, 0x017E, 2, 0x0179); (0x017F, 0x017F, 1, 0x0053);
   (0x0180, 0x0180, 1, 0x0243); (0x0183, 0x0185, 2, 0x0182);
   (0x0188, 0x0188, 1, 0x0187); (0x018C, 0x018C, 1, 0x018B);
   (0x0192, 0x0192, 1, 0x0191); (0x0195, 0x0195, 1, 0x01F6);
   (0x0199, 0x0199, 1, 0x0198); (0x019A, 0x019A, 1, 0x023D);
   (0x019E, 0x019E, 1, 0x0220); (0x01A1, 0x01A5, 2, 0x01A0);
   (0x01A8, 0x01A8, 1, 0x01A7); (0x01AD, 0x01AD, 1, 0x01AC);
   (0x01B0, 0x01B0, 1, 0x01AF); (0x01B4, 0x01B6, 2, 0x01B3);
   (0x01B9, 0x01B9, 1, 0x01B8); (0x01BD, 0x01BD, 1, 0x01BC);
   (0x01BF, 0x01BF, 1, 0x01F7); (0x01C5, 0x01C5, 1, 0x01C4);
   (0x01C6, 0x01C6, 1, 0x01C4); (0x01C8, 0x01C8, 1, 0x01C7);
   (0x01C9, 0x01C9, 1, 0x01C7); (0x01CB, 0x01CB, 1, 0x01CA);
   (0x01CC, 0x01CC, 1, 0x01CA); (0x01CE, 0x01DC, 2, 0x01CD);
   (0x01DD, 0x01DD, 1, 0x018E); (0x01DF, 0x01EF, 2, 0x01DE);
   (0x01F2, 0x01F2, 1, 0x01F1); (0x01F3, 0x01F3, 1, 0x01F1);
   (0x01F5, 0x01F5, 1, 0x01F4); (0x01F9, 0x021F, 2, 0x01F8);
   (0x0223, 0x0233, 2, 0x0222); (0x023C, 0x023C, 1, 0x023B);
   (0x023F, 0x0240, 1, 0x2C7E); (0x0242, 0x0242, 1, 0x0241);
   (0x0247, 0x024F, 2, 0x0246); (0x0250, 0x0250, 1, 0x2C6F);
   (0x0251, 0x0251, 1, 0x2C6D); (0x0252, 0x0252, 1, 0x2C70);
   (0x0253, 0x0253, 1, 0x0181); (0x0254, 0x0254, 1, 0x0186);
   (0x0256, 0x0257, 1, 0x0189); (0x0259, 0x0259, 1, 0x018F);
   (0x025B, 0x025B, 1, 0x0190); (0x025C, 0x025C, 1, 0xA7AB);
   (0x0260, 0x0260, 1, 0x0193); (0x0261, 0x0261, 1, 0xA7AC);
   (0x0263, 0x0263, 1, 0x0194); (0x0265, 0x0265, 1, 0xA78D);
   (0x0266, 0x0266, 1, 0xA7AA); (0x0268, 0x0268, 1, 0x0197);
   (0x0269, 0x0269, 1, 0x0196); (0x026A, 0x026A, 1, 0xA7AE);
   (0x026B, 0x026B, 1, 0x2C62); (0x026C, 0x026C, 1, 0xA7AD);
   (0x026F, 0x026F, 1, 0x019C); (0x0271, 0x0271, 1, 0x2C6E);
   (0x0272, 0x0272, 1, 0x019D); (0x0275, 0x0275, 1, 0x019F);
   (0x027D, 0x027D, 1, 0x2C64); (0x0280, 0x0280, 1, 0x01A6);
   (0x0282, 0x0282, 1, 0xA7C5); (0x0283, 0x0283, 1, 0x01A9);
   (0x0287, 0x0287, 1, 0xA7B1); (0x0288, 0x0288, 1, 0x01AE);
   (0x0289, 0x0289, 1, 0x0244); (0x028A, 0x028B, 1, 0x01B1);
   (0x028C, 0x028C, 1, 0x0245); (0x0292, 0x0292, 1, 0x01B7);
   (0x029D, 0x029D, 1, 0xA7B2); (0x029E, 0x029E, 1, 0xA7B0);
   (0x0345, 0x0345, 1, 0x0399); (0x0371, 0x0373, 2, 0x0370);
   (0x0377, 0x0377, 1, 0x0376); (0x037B, 0x037D, 1, 0x03FD);
   (0x03AC, 0x03AC, 1, 0x0386); (0x03AD, 0x03AF, 1, 0x0388);
   (0x03B1, 0x03C1, 1, 0x0391); (0x03C2, 0x03C2, 1, 0x03A3);
   (0x03C3, 0x03CB, 1, 0x03A3); (0x03CC, 0x03CC, 1, 0x038C);
   (0x03CD, 0x03CE, 1, 0x038E); (0x03D0, 0x03D0, 1, 0x0392);
   (0x03D1, 0x03D1, 1, 0x0398); (0x03D5, 0x03D5, 1, 0x03A6);
   (0x03D6, 0x03D6, 1, 0x03A0); (0x03D7, 0x03D7, 1, 0x03CF);
   (0x03D9, 0x03EF, 2, 0x03D8); (0x03F0, 0x03F0, 1, 0x039A);
   (0x03F1, 0x03F1, 1, 0x03A1); (0x03F2, 0x03F2, 1, 0x03F9);
   (0x03F3, 0x03F3, 1, 0x037F); (0x03F5, 0x03F5, 1, 0x0395);
   (0x03F8, 0x03F8, 1, 0x03F7); (0x03FB, 0x03FB, 1, 0x03FA);
   (0x0430, 0x044F, 1, 0x0410); (0x0450, 0x045F, 1, 0x0400);
   (0x0461, 0x0481, 2, 0x0460); (0x048B, 0x04BF, 2, 0x048A);
   (0x04C2, 0x04CE, 2, 0x04C1); (0x04CF, 0x04CF, 1, 0x04C0);
   (0x04D1, 0x052F, 2, 0x04D0); (0x0561, 0x0586, 1, 0x0531);
   (0x10D0, 0x10FA, 1, 0x1C90); (0x10FD, 0x10FF, 1, 0x1CBD);
   (0x13F8, 0x13FD, 1, 0x13F0); (0x1C80, 0x1C80, 1, 0x0412);
   (0x1C81, 0x1C81, 1, 0x0414); (0x1C82, 0x1C82, 1, 0x041E);
   (0x1C83, 0x1C84, 1, 0x0421); (0x1C85, 0x1C85, 1, 0x0422);
   (0x1C86, 0x1C86, 1, 0x042A); (0x1C87, 0x1C87, 1, 0x0462);
   (0x1C88, 0x1C88, 1, 0xA64A); (0x1D79, 0x1D79, 1, 0xA77D);
   (0x1D7D, 0x1D7D, 1, 0x2C63); (0x1D8E, 0x1D8E, 1, 0xA7C6);
   (0x1E01, 0x1E95, 2, 0x1E00); (0x1E9B, 0x1E9B, 1, 0x1E60);
   (0x1EA1, 0x1EFF, 2, 0x1EA0); (0x1F00, 0x1F07, 1, 0x1F08);
   (0x1F10, 0x1F15, 1, 0x1F18); (0x1F20, 0x1F27, 1, 0x1F28);
   (0x1F30, 0x1F37, 1, 0x1F38); (0x1F40, 0x1F45, 1, 0x1F48);
   (0x1F51, 0x1F57, 2, 0x1F59); (0x1F60, 0x1F67, 1, 0x1F68);
   (0x1F70, 0x1F71, 1, 0x1FBA); (0x1F72, 0x1F75, 1, 0x1FC8);
   (0x1F76, 0x1F77, 1, 0x1FDA); (0x1F78, 0x1F79, 1, 0x1FF8);
   (0x1F7A, 0x1F7B, 1, 0x1FEA); (0x1F7C, 0x1F7D, 1, 0x1FFA);
   (0x1FB0, 0x1FB1, 1, 0x1FB8); (0x1FBE, 0x1FBE, 1, 0x0399);
   (0x1FD0, 0x1FD1, 1, 0x1FD8); (0x1FE0, 0x1FE1, 1, 0x1FE8);
   (0x1FE5, 0x1FE5, 1, 0x1FEC); (0x214E, 0x214E, 1, 0x2132);
   (0x2170, 0x217F, 1, 0x2160); (0x2184, 0x2184, 1, 0x2183);
   (0x24D0, 0x24E9, 1, 0x24B6); (0x2C30, 0x2C5F, 1, 0x2C00);
   (0x2C61, 0x2C61, 1, 0x2C60); (0x2C65, 0x2C65, 1, 0x023A);
   (0x2C66, 0x2C66, 1, 0x023E); (0x2C68, 0x2C6C, 2, 0x2C67);
   (0x2C73, 0x2C73, 1, 0x2C72); (0x2C76, 0x2C76, 1, 0x2C75);
   (0x2C81, 0x2CE3, 2, 0x2C80); (0x2CEC, 0x2CEE, 2, 0x2CEB);
   (0x2CF3, 0x2CF3, 1, 0x2CF2); (0x2D00, 0x2D25, 1, 0x10A0);
   (0x2D27, 0x2D27, 1, 0x10C7); (0x2D2D, 0x2D2D, 1, 0x10CD);
   (0xA641, 0xA66D, 2, 0xA640); (0xA681, 0xA69B, 2, 0xA680);
   (0xA723, 0xA72F, 2, 0xA722); (0xA733, 0xA76F, 2, 0xA732);
   (0xA77A, 0xA77C, 2, 0xA779); (0xA77F, 0xA787, 2, 0xA77E);
   (0xA78C, 0xA78C, 1, 0xA78B); (0xA791, 0xA793, 2, 0xA790);
   (0xA794, 0xA794, 1, 0xA7C4); (0xA797, 0xA7A9, 2, 0xA796);
   (0xA7B5, 0xA7C3, 2, 0xA7B4); (0xA7C8, 0xA7CA, 2, 0xA7C7);
   (0xA7D1, 0xA7D1, 1, 0xA7D0); (0xA7D7, 0xA7D9, 2, 0xA7D6);
   (0xA7F6, 0xA7F6, 1, 0xA7F5); (0xAB53, 0xAB53, 1, 0xA7B3);
   (0xAB70, 0xABBF, 1, 0x13A0); (0xFF41, 0xFF5A, 1, 0xFF21);
   (0x10428, 0x1044F, 1, 0x10400); (0x104D8, 0x104FB, 1, 0x104B0);
   (0x10597, 0x105A1, 1, 0x10570); (0x105A3, 0x105B1, 1, 0x1057C);
   (0x105B3, 0x105B9, 1, 0x1058C); (0x105BB, 0x105BC, 1, 0x10594);
   (0x10CC0, 0x10CF2, 1, 0x10C80); (0x118C0, 0x118DF, 1, 0x118A0);
   (0x16E60, 0x16E7F, 1, 0x16E40); (0x1E922, 0x1E943, 1, 0x1E900)]%N.

Definition upperSpecial : list (N * list N) :=
  [(0x00DF, [0x0053; 0x0053]); (0x0149, [0x02BC; 0x004E]);
   (0x01F0, [0x004A; 0x030C]); (0x0390, [0x0399; 0x0308; 0x0301]);
   (0x03B0, [0x03A5; 0x0308; 0x0301]); (0x0587, [0x0535; 0x0552]);
   (0x1E96, [0x0048; 0x0331]); (0x1E97, [0x0054; 0x0308]);
   (0x1E98, [0x0057; 0x030A]); (0x1E99, [0x0059; 0x030A]);
   (0x1E9A, [0x0041; 0x02BE]); (0x1F50, [0x03A5; 0x0313]);
   (0x1F52, [0x03A5; 0x0313; 0x0300]); (0x1F54, [0x03A5; 0x0313; 0x0301]);
   (0x1F56, [0x03A5; 0x0313; 0x0342]); (0x1F80, [0x1F08; 0x0399]);
   (0x1F81, [0x1F09; 0x0399]); (0x1F82, [0x1F0A; 0x0399]);
   (0x1F83, [0x1F0B; 0x0399]); (0x1F84, [0x1F0C; 0x0399]);
   (0x1F85, [0x1F0D; 0x0399]); (0x1F86, [0x1F0E; 0x0399]);
   (0x1F87, [0x1F0F; 0x0399]); (0x1F88, [0x1F08; 0x0399]);
   (0x1F89, [0x1F09; 0x0399]); (0x1F8A, [0x1F0A; 0x0399]);
   (0x1F8B, [0x1F0B; 0x0399]); (0x1F8C, [0x1F0C; 0x0399]);
   (0x1F8D, [0x1F0D; 0x0399]); (0x1F8E, [0x1F0E; 0x0399]);
   (0x1F8F, [0x1F0F; 0x0399]); (0x1F90, [0x1F28; 0x0399]);
   (0x1F91, [0x1F29; 0x0399]); (0x1F92, [0x1F2A; 0x0399]);
   (0x1F93, [0x1F2B; 0x0399]); (0x1F94, [0x1F2C; 0x0399]);
   (0x1F95, [0x1F2D; 0x0399]); (0x1F96, [0x1F2E; 0x0399]);
   (0x1F97, [0x1F2F; 0x0399]); (0x1F98, [0x1F28; 0x0399]);
   (0x1F99, [0x1F29; 0x0399]); (0x1F9A, [0x1F2A; 0x0399]);
   (0x1F9B, [0x1F2B; 0x0399]); (0x1F9C, [0x1F2C; 0x0399]);
   (0x1F9D, [0x1F2D; 0x0399]); (0x1F9E, [0x1F2E; 0x0399]);
   (0x1F9F, [0x1F2F; 0x0399]); (0x1FA0, [0x1F68; 0x0399]);
   (0x1FA1, [0x1F69; 0x0399]); (0x1FA2, [0x1F6A; 0x0399]);
   (0x1FA3, [0x1F6B; 0x0399]); (0x1FA4, [0x1F6C; 0x0399]);
   (0x1FA5, [0x1F6D; 0x0399]); (0x1FA6, [0x1F6E; 0x0399]);
   (0x1FA7, [0x1F6F; 0x0399]); (0x1FA8, [0x1F68; 0x0399]);
   (0x1FA9, [0x1F69; 0x0399]); (0x1FAA, [0x1F6A; 0x0399]);
   (0x1FAB, [0x1F6B; 0x0399]); (0x1FAC, [0x1F6C; 0x0399]);
   (0x1FAD, [0x1F6D; 0x0399]); (0x1FAE, [0x1F6E; 0x0399]);
   (0x1FAF, [0x1F6F; 0x0399]); (0x1FB2, [0x1FBA; 0x0399]);
   (0x1FB3, [0x0391; 0x0399]); (0x1FB4, [0x0386; 0x0399]);
   (0x1FB6, [0x0391; 0x0342]); (0x1FB7, [0x0391; 0x0342; 0x0399]);
   (0x1FBC, [0x0391; 0x0399]); (0x1FC2, [0x1FCA; 0x0399]);
   (0x1FC3, [0x0397; 0x0399]); (0x1FC4, [0x0389; 0x0399]);
   (0x1FC6, [0x0397; 0x0342]); (0x1FC7, [0x0397; 0x0342; 0x0399]);
   (0x1FCC, [0x0397; 0x0399]); (0x1FD2, [0x0399; 0x0308; 0x0300]);
   (0x1FD3, [0x0399; 0x0308; 0x0301]); (0x1FD6, [0x0399; 0x0342]);
   (0x1FD7, [0x0399; 0x0308; 0x0342]); (0x1FE2, [0x03A5; 0x0308; 0x0300]);
   (0x1FE3, [0x03A5; 0x0308; 0x0301]); (0x1FE4, [0x03A1; 0x0313]);
   (0x1FE6, [0x03A5; 0x0342]); (0x1FE7, [0x03A5; 0x0308; 0x0342]);
   (0x1FF2, [0x1FFA; 0x0399]); (0x1FF3, [0x03A9; 0x0399]);
   (0x1FF4, [0x038F; 0x0399]); (0x1FF6, [0x03A9; 0x0342]);
   (0x1FF7, [0x03A9; 0x0342; 0x0399]); (0x1FFC, [0x03A9; 0x0399]);
   (0xFB00, [0x0046; 0x0046]); (0xFB01, [0x0046; 0x0049]);
   (0xFB02, [0x0046; 0x004C]); (0xFB03, [0x0046; 0x0046; 0x0049]);
   (0xFB04, [0x0046; 0x0046; 0x004C]); (0xFB05, [0x0053; 0x0054]);
   (0xFB06, [0x0053; 0x0054]); (0xFB13, [0x0544; 0x0546]);
   (0xFB14, [0x0544; 0x0535]); (0xFB15, [0x0544; 0x053B]);
   (0xFB16, [0x054E; 0x0546]); (0xFB17, [0x0544; 0x053D])]%N.

Definition inRange (n : N) (e : N * N * N * N) : bool :=
  let '(first, last, step, _) := e in
  ((first <=? n) && (n <=? last) && ((n - first) mod step =? 0))%N.

Definition upperCodes (n : N) : option (list N) :=
  match List.find (fun e => N.eqb (fst e) n) upperSpecial with
  | Some e => Some (snd e)
  | None =>
      match List.find (inRange n) upperRanges with
      | Some (first, _, _, image) => Some [(image + (n - first))%N]
      | None => None
      end
  end.

(** The characters that have an upper case other than themselves. *)
Definition span (e : N * N * N * N) : list N :=
  let '(first, last, step, _) := e in
  (fun k : nat => (first + N.of_nat k * step)%N)
    <$> seq 0 (S (N.to_nat ((last - first) / step))).

Definition upperSources : list N :=
  (fst <$> upperSpecial) ++ flat_map span upperRanges.

(** The upper case of one character, as characters. *)
Definition upperOf (ch : string) : list string :=
  match decode ch with
  | Some n =>
      match upperCodes n with
      | Some l => encode <$> l
      | None => [ch]
      end
  | None => [ch]
  end.

(** [String.prototype.toUpperCase]. *)
Definition toUpperCase (s : string) : string :=
  join (flat_map upperOf (chars s)).

Definition lowerChar (c : ascii) : ascii :=
  if isUpper c then byte (code c + 32) else c.

Fixpoint map (f : ascii -> ascii) (s : string) : string :=
  match s with
  | EmptyString => EmptyString
  | String c s' => String (f c) (map f s')
  end.

(** [String.prototype.toLowerCase], of which the code only asks whether the
    result includes one of the words "s.no", "s no", "job", "detail" and
    "comment".  The letters A to Z are mapped; the other bytes are kept.
    Outside ASCII the lower case of a character has an ASCII letter in two
    cases only, U+212A (k) and U+0130 (i followed by U+0307), and neither
    makes or breaks an occurrence of these words. *)
Definition toLowerCase (s : string) : string := map lowerChar s.

Fixpoint dropWhite (l : list string) : list string :=
  match l with
  | [] => []
  | ch :: l' => if isWhiteSpace ch then dropWhite l' else l
  end.

Definition dropWhiteEnd (l : list string) : list string :=
  rev (dropWhite (rev l)).

Definition trimChars (l : list string) : list string :=
  dropWhiteEnd (dropWhite l).

(** [String.prototype.trim]: the white space at both ends is removed. *)
Definition trim (s : string) : string := join (trimChars (chars s)).

(** Nothing but white space. *)
Definition isBlank (s : string) : bool := forallb isWhiteSpace (chars s).

(** No character is cut short: the bytes of a JavaScript string are of
    this kind. *)
Definition wellFormed (s : string) : bool := forallb isFull (chars s).

(** [p] is an initial segment of [s]. *)
Fixpoint isPrefix (p s : string) : bool :=
  match p with
  | EmptyString => true
  | String a p' =>
      match s with
      | String b s' => Ascii.eqb a b && isPrefix p' s'
      | EmptyString => false
      end
  end.

(** [s.startsWith(p)]. *)
Definition startsWith (s p : string) : bool := isPrefix p s.

(** [s.includes(p)]: [p] occurs at some position of [s]. *)
Fixpoint includes (s p : string) : bool :=
  isPrefix p s
  || match s with
     | EmptyString => false
     | String _ s' => includes s' p
     end.

(** [n] characters taken cyclically from [pad], starting with [rest]. *)
Fixpoint fill (pad rest : string) (n : nat) : string :=
  match n with
  | O => EmptyString
  | S n' =>
      match rest with
      | String c r => String c (fill pad r n')
      | EmptyString =>
          match pad with
          | String c r => String c (fill pad r n')
          | EmptyString => EmptyString
          end
      end
  end.

(** [s.padStart(n, pad)]. *)
Definition padStart (s : string) (n : nat) (pad : string) : string :=
  if (n <=? String.length s)%nat then s
  else fill pad pad (n - String.length s) +:+ s.

(** Decimal numeral of a natural number, as in a template literal. *)
Definition ofN (n : N) : string := NilEmpty.string_of_uint (N.to_uint n).

Definition ofNat (n : nat) : string := ofN (N.of_nat n).

(** [l.includes(s)] for an array literal of strings. *)
Definition arrayIncludes (l : list string) (s : string) : bool :=
  existsb (String.eqb s) l.

End JsString.

(** ** Regular expressions

  The two patterns of the source are star-free; [test] on an anchored
  pattern [/^r$/] (no flags) succeeds exactly when the whole subject is
  matched by [r].  Matching is by derivatives. *)

Module Regex.

Inductive class :=
| Digit               (* \d *)
| Letter              (* [A-Za-z] *)
| Lit (c : ascii).

Inductive regex :=
| Void
| Eps
| Chr (k : class)
| Seq (r1 r2 : regex)
| Alt (r1 r2 : regex).

Definition inClass (k : class) (c : ascii) : bool :=
  match k with
  | Digit => JsString.isDigit c
  | Letter => JsString.isAlpha c
  | Lit a => Ascii.eqb a c
  end.

Fixpoint nullable (r : regex) : bool :=
  match r with
  | Void => false
  | Eps => true
  | Chr _ => false
  | Seq r1 r2 => nullable r1 && nullable r2
  | Alt r1 r2 => nullable r1 || nullable r2
  end.

Fixpoint deriv (c : ascii) (r : regex) : regex :=
  match r with
  | Void => Void
  | Eps => Void
  | Chr k => if inClass k c then Eps else Void
  | Seq r1 r2 =>
      if nullable r1 then Alt (Seq (deriv c r1) r2) (deriv c r2)
      else Seq (deriv c r1) r2
  | Alt r1 r2 => Alt (deriv c r1) (deriv c r2)
  end.

(** [/^r$/.test(s)]. *)
Fixpoint test (r : regex) (s : string) : bool :=
  match s with
  | EmptyString => nullable r
  | String c s' => test (deriv c r) s'
  end.

(** The language of a pattern. *)
Inductive lang : regex -> string -> Prop :=
| LEps : lang Eps EmptyString
| LChr k c : inClass k c = true -> lang (Chr k) (String c EmptyString)
| LSeq r1 r2 s1 s2 : lang r1 s1 -> lang r2 s2 -> lang (Seq r1 r2) (s1 +:+ s2)
| LAltL r1 r2 s : lang r1 s -> lang (Alt r1 r2) s
| LAltR r1 r2 s : lang r2 s -> lang (Alt r1 r2) s.

(** [r{1,2}] *)
Definition oneOrTwo (r : regex) : regex := Seq r (Alt r Eps).

(** [r{n}] *)
Fixpoint times (n : nat) (r : regex) : regex :=
  match n with
  | O => Eps
  | S n' => Seq r (times n' r)
  end.

(** [/^\d{1,2}:\d{2}$/] *)
Definition timePattern : regex :=
  Seq (oneOrTwo (Chr Digit)) (Seq (Chr (Lit ":")) (times 2 (Chr Digit))).

(** [/^\d{1,2}-[A-Za-z]{3}$/] *)
Definition datePattern : regex :=
  Seq (oneOrTwo (Chr Digit)) (Seq (Chr (Lit "-")) (times 3 (Chr Letter))).

End Regex.
(** ** JavaScript numbers *)

Module JsNumber.

Local Open Scope Z_scope.

Definition prec : Z := 53.
Definition emax : Z := 1024.

(** The Number type: IEEE 754 binary64. *)
Definition number : Type := spec_float.

Definition NaN : number := S754_nan.
Definition posZero : number := S754_zero false.
Definition Infinity : number := S754_infinity false.

Definition mul : number -> number -> number := SFmul prec emax.
Definition div : number -> number -> number := SFdiv prec emax.
Definition sub : number -> number -> number := SFsub prec emax.
Definition neg : number -> number := SFopp.
Definition ltb : number -> number -> bool := SFltb.
Definition leb : number -> number -> bool := SFleb.

(** [x >= y] *)
Definition geb (x y : number) : bool := SFleb y x.

(** [x === y] on numbers. *)
Definition strictEq : number -> number -> bool := SFeqb.

(** The Number value of an integer (exact below 2^53). *)
Definition ofZ (n : Z) : number := binary_normalize prec emax n 0 false.

(** The Number value of the positive rational [p / q]: the quotient, rounded
    once to nearest, ties to even. *)
Definition ofRatio (p q : Z) : number :=
  let '(m, e, l) := SFdiv_core_binary prec emax p 0 q 0 in
  binary_round_aux prec emax false m e l.

(** The Number value of [s * 10^n] for [s >= 0]. *)
Definition ofDecimal (s n : Z) : number :=
  if (s =? 0)%Z then posZero
  else if (0 <=? n)%Z then ofZ (s * 10 ^ n)
  else ofRatio s (10 ^ (- n)).

Definition isNaN (x : number) : bool :=
  match x with
  | S754_nan => true
  | _ => false
  end.

Definition isZero (x : number) : bool :=
  match x with
  | S754_zero _ => true
  | _ => false
  end.

(** ToBoolean on a number: false for +0, -0 and NaN. *)
Definition truthy (x : number) : bool := negb (isZero x || isNaN x).

Definition eqb (x y : number) : bool :=
  match x, y with
  | S754_zero a, S754_zero b => Bool.eqb a b
  | S754_infinity a, S754_infinity b => Bool.eqb a b
  | S754_nan, S754_nan => true
  | S754_finite a m e, S754_finite b m' e' =>
      Bool.eqb a b && (m =? m')%positive && (e =? e')%Z
  | _, _ => false
  end.

(** [Math.round]: the nearest integer, a tie going up. *)
Definition Math_round (x : number) : number :=
  match x with
  | S754_finite s m e =>
      if (0 <=? e)%Z then x
      else
        let r := ((2 * cond_Zopp s (Zpos m) + 2 ^ (- e)) / 2 ^ (1 - e))%Z in
        if (r =? 0)%Z then S754_zero s else ofZ r
  | _ => x
  end.

(** [Math.floor]. *)
Definition Math_floor (x : number) : number :=
  match x with
  | S754_finite s m e =>
      if (0 <=? e)%Z then x
      else
        let r := (cond_Zopp s (Zpos m) / 2 ^ (- e))%Z in
        if (r =? 0)%Z then S754_zero s else ofZ r
  | _ => x
  end.

(** The remainder operator [n % d]: the result has the sign of the dividend
    and is exact. *)
Definition rem (n d : number) : number :=
  match n, d with
  | S754_nan, _ | _, S754_nan => NaN
  | S754_infinity _, _ => NaN
  | _, S754_zero _ => NaN
  | _, S754_infinity _ => n
  | S754_zero _, _ => n
  | S754_finite sn mn en, S754_finite _ md ed =>
      let e := Z.min en ed in
      let r := (Z.rem (Zpos mn * 2 ^ (en - e)) (Zpos md * 2 ^ (ed - e)))%Z in
      if (r =? 0)%Z then S754_zero sn
      else binary_normalize prec emax (cond_Zopp sn r) e false
  end.

(** The value of a number in units of [2^-1074], the smallest positive
    double: an integer for every double, by which numbers are ordered; the
    infinities lie beyond every finite double. *)
Definition ord (x : number) : Z :=
  match x with
  | S754_zero _ | S754_nan => 0
  | S754_finite s m e => cond_Zopp s (Zpos m * 2 ^ (e + 1074))
  | S754_infinity s => cond_Zopp s (2 ^ 2100)
  end.

(** The mantissa and the exponent of a finite number are those of a
    double. *)
Definition inRange (x : number) : Prop :=
  match x with
  | S754_finite _ m e => Zpos m < 2 ^ 53 /\ -1074 <= e <= 971
  | _ => True
  end.

(** *** Number::toString *)

Definition digitsOf (s : Z) : string := JsString.ofN (Z.to_N s).

(** Number of decimal digits of a positive integer. *)
Definition ndigits (s : Z) : Z := Z.of_nat (String.length (digitsOf s)).

(** The decimal exponent [n] of the positive rational [p / q]:
    [10^(n-1) <= p / q < 10^n]. *)
Definition decimalExponent (p q : Z) : Z :=
  if (q <=? p)%Z then ndigits (p / q)
  else
    let d := ndigits (q / p) in
    if (p * 10 ^ (d - 1) =? q)%Z then 2 - d else 1 - d.

(** The candidates with [k] digits for the value [p / q] of decimal exponent
    [n]: the two [k]-digit decimals around it, each kept when it reads back
    as [x]; the nearer one first, the even one on a tie. *)
Definition candidates (x : number) (p q n k : Z) : list (Z * Z) :=
  let '(P, Q) := if (0 <=? k - n)%Z then (p * 10 ^ (k - n), q)
                 else (p, q * 10 ^ (n - k)) in
  let lo := (P / Q)%Z in
  let hi := (lo + 1)%Z in
  let back s := eqb (ofDecimal s (n - k)) x in
  let norm s := if (s =? 10 ^ k)%Z then (10 ^ (k - 1), n + 1) else (s, n)%Z in
  let lo_first :=
    match (2 * P ?= (2 * lo + 1) * Q)%Z with
    | Lt => true
    | Gt => false
    | Eq => Z.even lo
    end in
  List.map norm
    (List.filter back (if lo_first then [lo; hi] else [hi; lo])).

(** The shortest decimal that reads back as [x]: digits [s] and exponent
    [n], looking for [k = 18 - fuel] digits first. *)
Fixpoint shortest (fuel : nat) (x : number) (p q n : Z) : Z * Z :=
  let k := (18 - Z.of_nat fuel)%Z in
  match candidates x p q n k with
  | c :: _ => c
  | [] =>
      match fuel with
      | O => (0, 0)%Z
      | S fuel' => shortest fuel' x p q n
      end
  end.

Definition zeros (n : Z) : string := JsString.fill "0" "0" (Z.to_nat n).

Definition formatDecimal (s n : Z) : string :=
  let ds := digitsOf s in
  let k := Z.of_nat (String.length ds) in
  if ((k <=? n) && (n <=? 21))%Z then ds +:+ zeros (n - k)
  else if ((0 <? n) && (n <=? 21))%Z then
    String.substring 0 (Z.to_nat n) ds +:+ "."
    +:+ String.substring (Z.to_nat n) (Z.to_nat (k - n)) ds
  else if ((-6 <? n) && (n <=? 0))%Z then "0." +:+ zeros (- n) +:+ ds
  else
    let e := (n - 1)%Z in
    let es := (if (e <? 0)%Z then "-" else "+") +:+ digitsOf (Z.abs e) in
    if (k =? 1)%Z then ds +:+ "e" +:+ es
    else String.substring 0 1 ds +:+ "."
         +:+ String.substring 1 (Z.to_nat (k - 1)) ds +:+ "e" +:+ es.

Definition toStringPos (m : positive) (e : Z) : string :=
  let x := S754_finite false m e in
  let '(p, q) := if (0 <=? e)%Z then (Zpos m * 2 ^ e, 1)%Z
                 else (Zpos m, 2 ^ (- e))%Z in
  let '(s, n) := shortest 17 x p q (decimalExponent p q) in
  formatDecimal s n.

(** [Number::toString(x)] in radix 10, which is also [String(x)] and what a
    template literal prints. *)
Definition toString (x : number) : string :=
  match x with
  | S754_nan => "NaN"
  | S754_zero _ => "0"
  | S754_infinity s => if s then "-Infinity" else "Infinity"
  | S754_finite s m e => (if s then "-" else "") +:+ toStringPos m e
  end.

(** *** StringToNumber *)

Fixpoint spanDigits (ok : ascii -> bool) (s : string) : string * string :=
  match s with
  | String c s' =>
      if ok c then let '(d, r) := spanDigits ok s' in (String c d, r)
      else (EmptyString, s)
  | EmptyString => (EmptyString, EmptyString)
  end.

Definition isHexDigit (c : ascii) : bool :=
  JsString.isDigit c
  || ((65 <=? JsString.code c) && (JsString.code c <=? 70))%N
  || ((97 <=? JsString.code c) && (JsString.code c <=? 102))%N.

Definition isOctalDigit (c : ascii) : bool :=
  ((48 <=? JsString.code c) && (JsString.code c <=? 55))%N.

Definition isBinaryDigit (c : ascii) : bool :=
  ((48 <=? JsString.code c) && (JsString.code c <=? 49))%N.

Definition digitValue (c : ascii) : Z :=
  let n := Z.of_N (JsString.code c) in
  if JsString.isDigit c then n - 48
  else if JsString.isUpper c then n - 55
  else n - 87.

Fixpoint valueIn (base : Z) (acc : Z) (s : string) : Z :=
  match s with
  | EmptyString => acc
  | String c s' => valueIn base (acc * base + digitValue c) s'
  end.

(** [0x..], [0o..] and [0b..] literals: all of [s] must be digits. *)
Definition radixLiteral (ok : ascii -> bool) (base : Z) (s : string) : number :=
  match spanDigits ok s with
  | (String c d, EmptyString) => ofZ (valueIn base 0 (String c d))
  | _ => NaN
  end.

(** The exponent part of a decimal literal, [None] when [s] is not one. *)
Definition exponentPart (s : string) : option Z :=
  match s with
  | EmptyString => Some 0%Z
  | String c s' =>
      if Ascii.eqb c "e" || Ascii.eqb c "E" then
        let '(sg, s'') :=
          match s' with
          | String "+" t => (false, t)
          | String "-" t => (true, t)
          | _ => (false, s')
          end in
        match spanDigits JsString.isDigit s'' with
        | (String d ds, EmptyString) =>
            Some (cond_Zopp sg (valueIn 10 0 (String d ds)))
        | _ => None
        end
      else None
  end.

(** StrUnsignedDecimalLiteral. *)
Definition unsignedDecimal (s : string) : number :=
  if String.eqb s "Infinity" then Infinity
  else
    let '(ip, r1) := spanDigits JsString.isDigit s in
    let '(fp, r2) :=
      match r1 with
      | String "." t => spanDigits JsString.isDigit t
      | _ => (EmptyString, r1)
      end in
    if String.eqb (ip +:+ fp) "" then NaN
    else
      match exponentPart r2 with
      | Some e =>
          ofDecimal (valueIn 10 0 (ip +:+ fp)) (e - Z.of_nat (String.length fp))
      | None => NaN
      end.

(** StringToNumber: what [Number(s)] computes for a string. *)
Definition ofString (s : string) : number :=
  match JsString.trim s with
  | EmptyString => posZero
  | String "+" t => unsignedDecimal t
  | String "-" t => neg (unsignedDecimal t)
  | String "0" (String "x" t) | String "0" (String "X" t) =>
      radixLiteral isHexDigit 16 t
  | String "0" (String "o" t) | String "0" (String "O" t) =>
      radixLiteral isOctalDigit 8 t
  | String "0" (String "b" t) | String "0" (String "B" t) =>
      radixLiteral isBinaryDigit 2 t
  | t => unsignedDecimal t
  end.

End JsNumber.

(** ** JavaScript values, objects and exceptions *)

Module Js.

(** The primitive values a cell, a header or a record field can hold;
    [undefined] is the [None] of an [option value]. *)
Inductive value :=
| VStr (s : string)
| VNum (x : JsNumber.number).

(** ToBoolean. *)
Definition truthy (a : value) : bool :=
  match a with
  | VStr s => negb (String.eqb s "")
  | VNum x => JsNumber.truthy x
  end.

Definition truthyOpt (a : option value) : bool :=
  match a with
  | Some a => truthy a
  | None => false
  end.

(** [a || b] *)
Definition or (a b : value) : value := if truthy a then a else b.

(** [a || b] when [a] may be [undefined]. *)
Definition orOpt (a : option value) (b : value) : value :=
  match a with
  | Some a => or a b
  | None => b
  end.

(** [String(a)], [a.toString()] and the text of [a] in a template literal. *)
Definition toString (a : value) : string :=
  match a with
  | VStr s => s
  | VNum x => JsNumber.toString x
  end.

(** [Number(a)] *)
Definition toNumber (a : value) : JsNumber.number :=
  match a with
  | VStr s => JsNumber.ofString s
  | VNum x => x
  end.

(** The same two conversions where the operand may be [undefined]. *)
Definition toStringOpt (a : option value) : string :=
  match a with
  | Some a => toString a
  | None => "undefined"
  end.

Definition toNumberOpt (a : option value) : JsNumber.number :=
  match a with
  | Some a => toNumber a
  | None => JsNumber.NaN
  end.

Inductive exn :=
| TypeError (message : string)
| Error (message : string).

Inductive outcome (A : Type) :=
| Returned (a : A)
| Thrown (e : exn).

Arguments Returned {A} a.
Arguments Thrown {A} e.

Definition bind {A B : Type} (m : outcome A) (f : A -> outcome B) : outcome B :=
  match m with
  | Returned a => f a
  | Thrown e => Thrown e
  end.

(** A loop over [l] threading a state, left at the first exception. *)
Fixpoint forEach {A S : Type} (body : S -> A -> outcome S) (l : list A) (st : S)
  : outcome S :=
  match l with
  | [] => Returned st
  | a :: l' => bind (body st a) (forEach body l')
  end.

(** An object literal [{}] filled by assignments [o[k] = a].  Assigning a
    primitive to the key [__proto__] of a plain object goes to the setter
    inherited from [Object.prototype], which ignores it. *)
Definition set (o : gmap string value) (k : string) (a : value)
  : gmap string value :=
  if String.eqb k "__proto__" then o else <[k := a]> o.

(** How [Array.prototype.sort] reads the result of its comparator. *)
Definition sortOrder (x : JsNumber.number) : comparison :=
  match x with
  | S754_finite s _ _ | S754_infinity s => if s then Lt else Gt
  | S754_zero _ | S754_nan => Eq
  end.

(** [Array.prototype.sort] is stable; with a consistent comparator its
    result is the one stable ordering, computed here by insertion: an element
    goes before the first later element that does not sort before it. *)
Fixpoint insert {A : Type} (cmp : A -> A -> JsNumber.number) (a : A)
  (l : list A) : list A :=
  match l with
  | [] => [a]
  | b :: l' =>
      match sortOrder (cmp a b) with
      | Gt => b :: insert cmp a l'
      | _ => a :: b :: l'
      end
  end.

Fixpoint sort {A : Type} (cmp : A -> A -> JsNumber.number) (l : list A)
  : list A :=
  match l with
  | [] => []
  | a :: l' => insert cmp a (sort cmp l')
  end.

End Js.

(** ** The decoded worksheet

    What the spreadsheet decoder hands over: a cell carries an optional
    formatted text [w] and an optional raw value [v], a number or a text; a
    worksheet maps a row and a column to its cell ([worksheet[encode_cell
    ({r, c})]], the encoding of addresses being injective); a range has a
    start and an end address, both inclusive. *)

Module XLSX.

Record cell := { w : option string; v : option Js.value }.

Definition worksheet : Type := nat -> nat -> option cell.

Record address := { r : nat; c : nat }.

Record range := { s : address; e : address }.

(** A raw number of a decoded cell is a double and is not NaN. *)
Definition wfNumber (x : JsNumber.number) : bool :=
  valid_binary JsNumber.prec JsNumber.emax x && negb (JsNumber.isNaN x).

Definition wfCell (cell : option cell) : bool :=
  match cell with
  | Some cell =>
      match v cell with
      | Some (Js.VNum x) => wfNumber x
      | _ => true
      end
  | None => true
  end.

(** Every cell of the range is well formed. *)
Definition wfSheet (worksheet : worksheet) (range : range) : bool :=
  forallb
    (fun row =>
       forallb (fun col => wfCell (worksheet row col))
         (seq (c (s range)) (c (e range) + 1 - c (s range))))
    (seq (r (s range)) (r (e range) + 1 - r (s range))).

End XLSX.

(** The status bundle of a cell. *)
Record statusInfo := { status : string; color : string; type : string }.

(** ** The uploaded file and the response

    The temporary files are a set of paths: the files on disk once the
    multipart middleware has stored the upload, which is where both handlers
    start.  An upload is what that middleware hands to the handler: the path
    of the stored file, [mimetype], its original name, and [decoded], what
    [XLSX.readFile] followed by [decode_range] gives for it (the decoder is
    a library outside the repository; it throws on a file it cannot read).

    [mimetype] is the Content-Type header of the uploaded part as the
    request has it.  The serverless handler tests this header
    ([file.headers['content-type']]); the upload middleware of the Express
    application tests the media type it reads from the same header
    ([file.mimetype]), which is the header itself when the header is one of
    the three allowed types. *)

Module Http.

Import Js.

Record upload := {
  path : string;
  mimetype : string;
  originalname : string;
  decoded : outcome (XLSX.worksheet * XLSX.range)
}.

Inductive body :=
| Failure (error : string) (details : option string)
| Success (data : list (gmap string value)) (totalRows : nat)
    (fileName : string) (uploadDate : string)
| Empty.

Record response := { statusCode : nat; payload : body }.

Definition message (e : exn) : string :=
  match e with
  | TypeError m => m
  | Error m => m
  end.

Definition allowedMimes : list string :=
  ["application/vnd.openxmlformats-officedocument.spreadsheetml.sheet";
   "application/vnd.ms-excel";
   "text/csv"].

(** The error of a system call on a path that does not exist. *)
Definition noSuchFile (syscall p : string) : exn :=
  Error ("ENOENT: no such file or directory, " +:+ syscall +:+ " '" +:+ p +:+ "'").

(** [fs.unlinkSync]: throws when there is no such file. *)
Definition unlinkSync (files : gset string) (p : string) : outcome (gset string) :=
  if bool_decide (p ∈ files) then Returned (files ∖ {[p]})
  else Thrown (noSuchFile "unlink" p).

Definition existsSync (files : gset string) (p : string) : bool :=
  bool_decide (p ∈ files).

End Http.

(** ** The Express route [POST /api/upload-excel] *)

Module Express.

Import Js.

Definition convertExcelTime (serial : value) : value :=
  match serial with
  | VNum x =>
      let totalMinutes :=
        JsNumber.Math_round
          (JsNumber.mul (JsNumber.mul x (JsNumber.ofZ 24)) (JsNumber.ofZ 60)) in
      let hours :=
        JsNumber.rem
          (JsNumber.Math_floor (JsNumber.div totalMinutes (JsNumber.ofZ 60)))
          (JsNumber.ofZ 24) in
      let minutes := JsNumber.rem totalMinutes (JsNumber.ofZ 60) in
      VStr (JsString.padStart (JsNumber.toString hours) 2 "0" +:+ ":"
            +:+ JsString.padStart (JsNumber.toString minutes) 2 "0")
  | VStr _ => serial
  end.

Definition getFormattedCellValue (worksheet : XLSX.worksheet) (row col : nat)
  : value :=
  match worksheet row col with
  | None => VStr ""
  | Some cell =>
      let raw :=
        match XLSX.v cell with
        | Some (VNum x) =>
            if JsNumber.geb x (JsNumber.ofZ 0) && JsNumber.ltb x (JsNumber.ofZ 1)
            then convertExcelTime (VNum x)
            else VNum x
        | Some (VStr t) => VStr t
        | None => VStr ""
        end in
      match XLSX.w cell with
      | Some t => if truthy (VStr t) then VStr t else raw
      | None => raw
      end
  end.

Definition getStatusInfo (value : Js.value) : statusInfo :=
  if negb (truthy value) then
    {| status := "NA"; color := "#d9d9d9"; type := "default" |}
  else
    let strValue := JsString.trim (JsString.toUpperCase (toString value)) in
    if JsString.arrayIncludes ["ACTIVE"; "PASS"; "ENABLED"; "UNSUSPENDED"] strValue
    then {| status := strValue; color := "#00B050"; type := "success" |}
    else if JsString.arrayIncludes ["OFF"; "FAILED"; "INACTIVE"; "SUSPENDED"] strValue
    then {| status := strValue; color := "#FF0000"; type := "error" |}
    else if JsString.arrayIncludes ["PENDING"] strValue
    then {| status := strValue; color := "#FFC000"; type := "warning" |}
    else if Regex.test Regex.timePattern strValue then
      if String.eqb strValue "00:00"
      then {| status := strValue; color := "#d9d9d9"; type := "default" |}
      else {| status := strValue; color := "#0070C0"; type := "processing" |}
    else if Regex.test Regex.datePattern strValue
    then {| status := strValue; color := "#7030A0"; type := "purple" |}
    else if String.eqb strValue "NA"
    then {| status := "NA"; color := "#d9d9d9"; type := "default" |}
    else {| status := strValue; color := "#0070C0"; type := "info" |}.

(** The columns [range.s.c .. range.e.c] and the data rows
    [range.s.r + 1 .. range.e.r] the two [for] loops run over. *)
Definition columns (range : XLSX.range) : list nat :=
  seq (XLSX.c (XLSX.s range)) (XLSX.c (XLSX.e range) + 1 - XLSX.c (XLSX.s range)).

Definition dataRows (range : XLSX.range) : list nat :=
  seq (XLSX.r (XLSX.s range) + 1) (XLSX.r (XLSX.e range) - XLSX.r (XLSX.s range)).

(** Extract headers from first row. *)
Definition extractHeaders (worksheet : XLSX.worksheet) (range : XLSX.range)
  : list value :=
  (fun col =>
     let cellValue := getFormattedCellValue worksheet (XLSX.r (XLSX.s range)) col in
     or cellValue (VStr ("Column" +:+ JsString.ofNat (col + 1))))
  <$> columns range.

(** Map the header to a clean name. *)
Definition cleanHeader (header : string) : string :=
  if JsString.includes (JsString.toLowerCase header) "s.no"
     || JsString.includes (JsString.toLowerCase header) "s no"
     || String.eqb (JsString.toLowerCase header) "s.no"
  then "S.No"
  else if JsString.includes (JsString.toLowerCase header) "job"
          && JsString.includes (JsString.toLowerCase header) "detail"
  then "Job Details"
  else if JsString.includes (JsString.toLowerCase header) "comment"
  then "Comments"
  else header.

(** The statements of the column loop after the [continue] guard. *)
Definition storeCell (rowData : gmap string value) (header : string)
  (cellValue : value) : gmap string value :=
  let cleanHeader := cleanHeader header in
  let rowData := set rowData cleanHeader (or cellValue (VStr "")) in
  if negb (JsString.arrayIncludes ["S.No"; "Job Details"; "Comments"] cleanHeader)
  then
    let statusInfo := getStatusInfo cellValue in
    let rowData := set rowData (cleanHeader +:+ "_status") (VStr (status statusInfo)) in
    let rowData := set rowData (cleanHeader +:+ "_color") (VStr (color statusInfo)) in
    set rowData (cleanHeader +:+ "_type") (VStr (type statusInfo))
  else rowData.

(** One turn of the column loop.  [hasValidData] is assigned but never read
    and is left out.  Calling [startsWith] on a header that is a number
    throws. *)
Definition processColumn (worksheet : XLSX.worksheet) (headers : list value)
  (range : XLSX.range) (row : nat) (rowData : gmap string value) (col : nat)
  : outcome (gmap string value) :=
  let header := headers !! (col - XLSX.c (XLSX.s range)) in
  let cellValue := getFormattedCellValue worksheet row col in
  if negb (truthyOpt header) then Returned rowData
  else
    match header with
    | Some (VStr header) =>
        if JsString.startsWith header "Column" then Returned rowData
        else Returned (storeCell rowData header cellValue)
    | _ => Thrown (TypeError "header.startsWith is not a function")
    end.

(** Only include rows with valid S.No and Job Details. *)
Definition admitted (sNo jobDetails : option value) : bool :=
  match sNo, jobDetails with
  | Some sNo, Some jobDetails =>
      truthy sNo && truthy jobDetails
      && negb (JsNumber.isNaN (toNumber sNo))
      && negb (String.eqb (JsString.trim (toString jobDetails)) "")
  | _, _ => false
  end.

(** Add metadata; [now] is what [new Date().toISOString()] returns then. *)
Definition addMetadata (rowData : gmap string value) (sNo : option value)
  (now : string) : gmap string value :=
  let rowData := set rowData "id" (VStr ("row-" +:+ toStringOpt sNo)) in
  let rowData := set rowData "rowNumber" (VNum (toNumberOpt sNo)) in
  set rowData "uploadDate" (VStr now).

(** The candidate record of a data row: the column loop run on [{}]. *)
Definition buildRow (worksheet : XLSX.worksheet) (headers : list value)
  (range : XLSX.range) (row : nat) : outcome (gmap string value) :=
  forEach (processColumn worksheet headers range row) (columns range) ∅.

(** One turn of the row loop; [clock row] is the time read while the row
    is finished. *)
Definition processRow (worksheet : XLSX.worksheet) (headers : list value)
  (range : XLSX.range) (clock : nat -> string)
  (jsonData : list (gmap string value)) (row : nat)
  : outcome (list (gmap string value)) :=
  bind (buildRow worksheet headers range row) (fun rowData =>
    let sNo := rowData !! "S.No" in
    let jobDetails := rowData !! "Job Details" in
    if admitted sNo jobDetails
    then Returned (jsonData ++ [addMetadata rowData sNo (clock row)])
    else Returned jsonData).

(** [(a, b) => (a.rowNumber || 0) - (b.rowNumber || 0)] *)
Definition byRowNumber (a b : gmap string value) : JsNumber.number :=
  JsNumber.sub (toNumber (orOpt (a !! "rowNumber") (VNum (JsNumber.ofZ 0))))
               (toNumber (orOpt (b !! "rowNumber") (VNum (JsNumber.ofZ 0)))).

(** From the decoded range to the sorted [jsonData], with the headers. *)
Definition normalize (worksheet : XLSX.worksheet) (range : XLSX.range)
  (clock : nat -> string) : outcome (list value * list (gmap string value)) :=
  let headers := extractHeaders worksheet range in
  bind (forEach (processRow worksheet headers range clock) (dataRows range) [])
    (fun jsonData => Returned (headers, sort byRowNumber jsonData)).

(** The body of the [try] block: the files left on disk and how the block
    ends. *)
Definition tryBlock (file : option Http.upload) (clock : nat -> string)
  (now : string) (files : gset string) : gset string * outcome Http.response :=
  match file with
  | None =>
      (files, Returned {| Http.statusCode := 400;
                          Http.payload := Http.Failure "No file uploaded" None |})
  | Some file =>
      let filePath := Http.path file in
      match Http.decoded file with
      | Thrown e => (files, Thrown e)
      | Returned (worksheet, range) =>
          match normalize worksheet range clock with
          | Thrown e => (files, Thrown e)
          | Returned (_, jsonData) =>
              match Http.unlinkSync files filePath with
              | Thrown e => (files, Thrown e)
              | Returned files =>
                  (files,
                   Returned {| Http.statusCode := 200;
                               Http.payload :=
                                 Http.Success jsonData (length jsonData)
                                   (Http.originalname file) now |})
              end
          end
      end
  end.

(** The route handler, run once the upload middleware has accepted and
    stored the file (or found none); its [catch] block cleans up the file if
    it exists. *)
Definition handler (file : option Http.upload) (clock : nat -> string)
  (now : string) (files : gset string) : gset string * Http.response :=
  match tryBlock file clock now files with
  | (files, Returned res) => (files, res)
  | (files, Thrown error) =>
      let files :=
        match file with
        | Some file =>
            if Http.existsSync files (Http.path file)
            then match Http.unlinkSync files (Http.path file) with
                 | Returned files => files
                 | Thrown _ => files
                 end
            else files
        | None => files
        end in
      (files, {| Http.statusCode := 500;
                 Http.payload := Http.Failure "Failed to process Excel file"
                                   (Some (Http.message error)) |})
  end.

End Express.

(** ** The serverless handler *)

Module Serverless.

Import Js.

Definition convertExcelTime (serial : value) : value :=
  match serial with
  | VNum x =>
      let totalMinutes :=
        JsNumber.Math_round
          (JsNumber.mul (JsNumber.mul x (JsNumber.ofZ 24)) (JsNumber.ofZ 60)) in
      let hours :=
        JsNumber.rem
          (JsNumber.Math_floor (JsNumber.div totalMinutes (JsNumber.ofZ 60)))
          (JsNumber.ofZ 24) in
      let minutes := JsNumber.rem totalMinutes (JsNumber.ofZ 60) in
      VStr (JsString.padStart (JsNumber.toString hours) 2 "0" +:+ ":"
            +:+ JsString.padStart (JsNumber.toString minutes) 2 "0")
  | VStr _ => serial
  end.

Definition getFormattedCellValue (worksheet : XLSX.worksheet) (row col : nat)
  : value :=
  match worksheet row col with
  | None => VStr ""
  | Some cell =>
      let raw :=
        match XLSX.v cell with
        | Some (VNum x) =>
            if JsNumber.geb x (JsNumber.ofZ 0) && JsNumber.ltb x (JsNumber.ofZ 1)
            then convertExcelTime (VNum x)
            else VNum x
        | Some (VStr t) => VStr t
        | None => VStr ""
        end in
      match XLSX.w cell with
      | Some t => if truthy (VStr t) then VStr t else raw
      | None => raw
      end
  end.

Definition getStatusInfo (value : Js.value) : statusInfo :=
  if negb (truthy value) then
    {| status := "NA"; color := "#d9d9d9"; type := "default" |}
  else
    let strValue := JsString.trim (JsString.toUpperCase (toString value)) in
    if JsString.arrayIncludes ["ACTIVE"; "PASS"; "ENABLED"; "UNSUSPENDED"] strValue
    then {| status := strValue; color := "#00B050"; type := "success" |}
    else if JsString.arrayIncludes ["OFF"; "FAILED"; "INACTIVE"; "SUSPENDED"] strValue
    then {| status := strValue; color := "#FF0000"; type := "error" |}
    else if JsString.arrayIncludes ["PENDING"] strValue
    then {| status := strValue; color := "#FFC000"; type := "warning" |}
    else if Regex.test Regex.timePattern strValue then
      if String.eqb strValue "00:00"
      then {| status := strValue; color := "#d9d9d9"; type := "default" |}
      else {| status := strValue; color := "#0070C0"; type := "processing" |}
    else if Regex.test Regex.datePattern strValue
    then {| status := strValue; color := "#7030A0"; type := "purple" |}
    else if String.eqb strValue "NA"
    then {| status := "NA"; color := "#d9d9d9"; type := "default" |}
    else {| status := strValue; color := "#0070C0"; type := "info" |}.

(** The columns [range.s.c .. range.e.c] and the data rows
    [range.s.r + 1 .. range.e.r] the two [for] loops run over. *)
Definition columns (range : XLSX.range) : list nat :=
  seq (XLSX.c (XLSX.s range)) (XLSX.c (XLSX.e range) + 1 - XLSX.c (XLSX.s range)).

Definition dataRows (range : XLSX.range) : list nat :=
  seq (XLSX.r (XLSX.s range) + 1) (XLSX.r (XLSX.e range) - XLSX.r (XLSX.s range)).

(** Extract headers from first row. *)
Definition extractHeaders (worksheet : XLSX.worksheet) (range : XLSX.range)
  : list value :=
  (fun col =>
     let cellValue := getFormattedCellValue worksheet (XLSX.r (XLSX.s range)) col in
     or cellValue (VStr ("Column" +:+ JsString.ofNat (col + 1))))
  <$> columns range.

(** Map the header to a clean name. *)
Definition cleanHeader (header : string) : string :=
  if JsString.includes (JsString.toLowerCase header) "s.no"
     || JsString.includes (JsString.toLowerCase header) "s no"
     || String.eqb (JsString.toLowerCase header) "s.no"
  then "S.No"
  else if JsString.includes (JsString.toLowerCase header) "job"
          && JsString.includes (JsString.toLowerCase header) "detail"
  then "Job Details"
  else if JsString.includes (JsString.toLowerCase header) "comment"
  then "Comments"
  else header.

(** The statements of the column loop after the [continue] guard. *)
Definition storeCell (rowData : gmap string value) (header : string)
  (cellValue : value) : gmap string value :=
  let cleanHeader := cleanHeader header in
  let rowData := set rowData cleanHeader (or cellValue (VStr "")) in
  if negb (JsString.arrayIncludes ["S.No"; "Job Details"; "Comments"] cleanHeader)
  then
    let statusInfo := getStatusInfo cellValue in
    let rowData := set rowData (cleanHeader +:+ "_status") (VStr (status statusInfo)) in
    let rowData := set rowData (cleanHeader +:+ "_color") (VStr (color statusInfo)) in
    set rowData (cleanHeader +:+ "_type") (VStr (type statusInfo))
  else rowData.

(** One turn of the column loop.  [hasValidData] is assigned but never read
    and is left out.  Calling [startsWith] on a header that is a number
    throws. *)
Definition processColumn (worksheet : XLSX.worksheet) (headers : list value)
  (range : XLSX.range) (row : nat) (rowData : gmap string value) (col : nat)
  : outcome (gmap string value) :=
  let header := headers !! (col - XLSX.c (XLSX.s range)) in
  let cellValue := getFormattedCellValue worksheet row col in
  if negb (truthyOpt header) then Returned rowData
  else
    match header with
    | Some (VStr header) =>
        if JsString.startsWith header "Column" then Returned rowData
        else Returned (storeCell rowData header cellValue)
    | _ => Thrown (TypeError "header.startsWith is not a function")
    end.

(** Only include rows with valid S.No and Job Details. *)
Definition admitted (sNo jobDetails : option value) : bool :=
  match sNo, jobDetails with
  | Some sNo, Some jobDetails =>
      truthy sNo && truthy jobDetails
      && negb (JsNumber.isNaN (toNumber sNo))
      && negb (String.eqb (JsString.trim (toString jobDetails)) "")
  | _, _ => false
  end.

(** Add metadata; [now] is what [new Date().toISOString()] returns then. *)
Definition addMetadata (rowData : gmap string value) (sNo : option value)
  (now : string) : gmap string value :=
  let rowData := set rowData "id" (VStr ("row-" +:+ toStringOpt sNo)) in
  let rowData := set rowData "rowNumber" (VNum (toNumberOpt sNo)) in
  set rowData "uploadDate" (VStr now).

(** The candidate record of a data row: the column loop run on [{}]. *)
Definition buildRow (worksheet : XLSX.worksheet) (headers : list value)
  (range : XLSX.range) (row : nat) : outcome (gmap string value) :=
  forEach (processColumn worksheet headers range row) (columns range) ∅.

(** One turn of the row loop; [clock row] is the time read while the row
    is finished. *)
Definition processRow (worksheet : XLSX.worksheet) (headers : list value)
  (range : XLSX.range) (clock : nat -> string)
  (jsonData : list (gmap string value)) (row : nat)
  : outcome (list (gmap string value)) :=
  bind (buildRow worksheet headers range row) (fun rowData =>
    let sNo := rowData !! "S.No" in
    let jobDetails := rowData !! "Job Details" in
    if admitted sNo jobDetails
    then Returned (jsonData ++ [addMetadata rowData sNo (clock row)])
    else Returned jsonData).

(** [(a, b) => (a.rowNumber || 0) - (b.rowNumber || 0)] *)
Definition byRowNumber (a b : gmap string value) : JsNumber.number :=
  JsNumber.sub (toNumber (orOpt (a !! "rowNumber") (VNum (JsNumber.ofZ 0))))
               (toNumber (orOpt (b !! "rowNumber") (VNum (JsNumber.ofZ 0)))).

(** From the decoded range to the sorted [jsonData], with the headers. *)
Definition normalize (worksheet : XLSX.worksheet) (range : XLSX.range)
  (clock : nat -> string) : outcome (list value * list (gmap string value)) :=
  let headers := extractHeaders worksheet range in
  bind (forEach (processRow worksheet headers range clock) (dataRows range) [])
    (fun jsonData => Returned (headers, sort byRowNumber jsonData)).

(** A request as the handler sees it after [form.parse]: the method, and
    either the parse error or the first file of the field [excel].  Parsing
    is what stores the uploaded parts on disk; the files the handler is run
    on are those on disk after it, and what it does to them from there on
    is modelled. *)
Record request := {
  method : string;
  parsed : outcome (option Http.upload)
}.

(** The body of the [try] block: the files left on disk and how the block
    ends. *)
Definition tryBlock (req : request) (clock : nat -> string) (now : string)
  (files : gset string) : gset string * outcome Http.response :=
  match parsed req with
  | Thrown e => (files, Thrown e)
  | Returned None =>
      (files, Returned {| Http.statusCode := 400;
                          Http.payload := Http.Failure "No file uploaded" None |})
  | Returned (Some file) =>
      let filePath := Http.path file in
      if negb (JsString.arrayIncludes Http.allowedMimes (Http.mimetype file))
      then
        match Http.unlinkSync files filePath with
        | Thrown e => (files, Thrown e)
        | Returned files =>
            (files,
             Returned {| Http.statusCode := 400;
                         Http.payload :=
                           Http.Failure
                             "Invalid file type. Only Excel and CSV files are allowed."
                             None |})
        end
      else
        match Http.decoded file with
        | Thrown e => (files, Thrown e)
        | Returned (worksheet, range) =>
            match normalize worksheet range clock with
            | Thrown e => (files, Thrown e)
            | Returned (_, jsonData) =>
                match Http.unlinkSync files filePath with
                | Thrown e => (files, Thrown e)
                | Returned files =>
                    (files,
                     Returned {| Http.statusCode := 200;
                                 Http.payload :=
                                   Http.Success jsonData (length jsonData)
                                     (Http.originalname file) now |})
                end
            end
        end
  end.

(** The exported handler; its [catch] block only answers. *)
Definition handler (req : request) (clock : nat -> string) (now : string)
  (files : gset string) : gset string * Http.response :=
  if String.eqb (method req) "OPTIONS"
  then (files, {| Http.statusCode := 200; Http.payload := Http.Empty |})
  else if negb (String.eqb (method req) "POST")
  then (files, {| Http.statusCode := 405;
                  Http.payload := Http.Failure "Method not allowed" None |})
  else
    match tryBlock req clock now files with
    | (files, Returned res) => (files, res)
    | (files, Thrown error) =>
        (files, {| Http.statusCode := 500;
                   Http.payload := Http.Failure "Failed to process Excel file"
                                     (Some (Http.message error)) |})
    end.

End Serverless.

(** ** The specification's own words

    Definitions that follow the text of the specification rather than the
    source; the theorems compare them with the code above. *)

Module Spec.

Import Js.

(** "label contains ...": the text occurs somewhere inside the label. *)
Definition Contains (s p : string) : Prop :=
  exists a b : string, s = a +:+ p +:+ b.

Definition chars (s : string) : list ascii := list_ascii_of_string s.

(** Time-of-day text, one or two digits, a colon, two digits. *)
Definition isTimeText (s : string) : bool :=
  match chars s with
  | [h; k; m1; m2] =>
      JsString.isDigit h && Ascii.eqb k ":"
      && JsString.isDigit m1 && JsString.isDigit m2
  | [h1; h2; k; m1; m2] =>
      JsString.isDigit h1 && JsString.isDigit h2 && Ascii.eqb k ":"
      && JsString.isDigit m1 && JsString.isDigit m2
  | _ => false
  end.

(** Day-month abbreviation, one or two digits, a hyphen, three letters. *)
Definition isDateText (s : string) : bool :=
  match chars s with
  | [d; k; a; b; c] =>
      JsString.isDigit d && Ascii.eqb k "-"
      && JsString.isAlpha a && JsString.isAlpha b && JsString.isAlpha c
  | [d1; d2; k; a; b; c] =>
      JsString.isDigit d1 && JsString.isDigit d2 && Ascii.eqb k "-"
      && JsString.isAlpha a && JsString.isAlpha b && JsString.isAlpha c
  | _ => false
  end.

Definition oneOf (l : list string) (s : string) : bool :=
  if decide (s ∈ l) then true else false.

Definition bundle (c k : string) (s : string) : statusInfo :=
  {| status := s; color := c; type := k |}.

(** The classification rules of Step 3 after the empty case, in their order:
    a condition on the normalised text and the bundle it yields. *)
Definition rules : list ((string -> bool) * (string -> statusInfo)) :=
  [ (oneOf ["ACTIVE"; "PASS"; "ENABLED"; "UNSUSPENDED"], bundle "#00B050" "success");
    (oneOf ["OFF"; "FAILED"; "INACTIVE"; "SUSPENDED"], bundle "#FF0000" "error");
    (oneOf ["PENDING"], bundle "#FFC000" "warning");
    (fun s => isTimeText s && String.eqb s "00:00", bundle "#d9d9d9" "default");
    (isTimeText, bundle "#0070C0" "processing");
    (isDateText, bundle "#7030A0" "purple");
    (oneOf ["NA"], fun _ => bundle "#d9d9d9" "default" "NA") ].

(** First match wins. *)
Fixpoint firstMatch (rs : list ((string -> bool) * (string -> statusInfo)))
  (fallback : string -> statusInfo) (s : string) : statusInfo :=
  match rs with
  | [] => fallback s
  | (applies, result) :: rs' =>
      if applies s then result s else firstMatch rs' fallback s
  end.

(** Uppercased, trimmed text of a value. *)
Definition normalised (a : value) : string :=
  JsString.trim (JsString.toUpperCase (toString a)).

Definition classify (a : value) : statusInfo :=
  match a with
  | VStr EmptyString => bundle "#d9d9d9" "default" "NA"
  | _ => firstMatch rules (bundle "#0070C0" "info") (normalised a)
  end.

(** The admission predicate of a candidate row record. *)
Definition Admissible (rowData : gmap string value) : Prop :=
  exists sNo jobDetails : value,
    rowData !! "S.No" = Some sNo
    /\ sNo <> VStr ""
    /\ JsNumber.isNaN (toNumber sNo) = false
    /\ rowData !! "Job Details" = Some jobDetails
    /\ JsString.trim (toString jobDetails) <> "".

(** Two decimal digits of a number below 100. *)
Definition twoDigits (n : Z) : string :=
  String (ascii_of_N (48 + Z.to_N (n / 10)))
    (String (ascii_of_N (48 + Z.to_N (n mod 10))) EmptyString).

(** Zero-padded [HH:MM] of a count of minutes. *)
Definition clockText (totalMinutes : Z) : string :=
  twoDigits ((totalMinutes / 60) mod 24) +:+ ":" +:+ twoDigits (totalMinutes mod 60).

(** [round(v * 1440)] in exact arithmetic, for a finite [v]. *)
Definition exactTotalMinutes (x : JsNumber.number) : Z :=
  match x with
  | S754_finite s m e =>
      let n := (1440 * cond_Zopp s (Zpos m))%Z in
      if (0 <=? e)%Z then (n * 2 ^ e)%Z
      else ((2 * n + 2 ^ (- e)) / 2 ^ (1 - e))%Z
  | _ => 0%Z
  end.

End Spec.

(** ** A sample sheet

    Header row [S.No | Job Details | (empty) | Status | Start | Column Total]
    and six data rows, used to run the definitions. *)

Module Sample.

Import Js.

Definition cell (w : option string) (v : option value) : option XLSX.cell :=
  Some {| XLSX.w := w; XLSX.v := v |}.

Definition text (t : string) : option XLSX.cell := cell (Some t) (Some (VStr t)).

Definition raw (x : JsNumber.number) : option XLSX.cell := cell None (Some (VNum x)).

(** The doubles 0.5 and 0.0, and the double next to 10.5 / 1440. *)
Definition half : JsNumber.number := S754_finite false 4503599627370496 (-53).
Definition zero : JsNumber.number := S754_zero false.
Definition tenAndAHalfMinutes : JsNumber.number :=
  S754_finite false 8406719304424925 (-60).

Definition sheet : XLSX.worksheet := fun row col =>
  match row, col with
  | 0, 0 => text "S.No" | 0, 1 => text "Job Details" | 0, 2 => None
  | 0, 3 => text "Status" | 0, 4 => text "Start" | 0, 5 => text "Column Total"
  | 1, 0 => text "2" | 1, 1 => text "Fix pump" | 1, 3 => text " active "
  | 1, 4 => raw half | 1, 5 => text "x"
  | 2, 0 => text "1" | 2, 1 => text "Paint" | 2, 3 => text "05-Jan"
  | 2, 4 => raw zero
  | 3, 0 => text "3" | 3, 1 => text "  " | 3, 3 => text "Pending"
  | 4, 0 => text "abc" | 4, 1 => text "Fix pump"
  | 5, 0 => text "  " | 5, 1 => text "Tidy up"
  | 6, 0 => raw (JsNumber.ofZ 1) | 6, 1 => raw (JsNumber.ofZ 42)
  | _, _ => None
  end.

Definition range : XLSX.range :=
  {| XLSX.s := {| XLSX.r := 0; XLSX.c := 0 |};
     XLSX.e := {| XLSX.r := 6; XLSX.c := 5 |} |}.

Definition clock (row : nat) : string :=
  "2024-01-01T00:00:0" +:+ JsString.ofNat row +:+ ".000Z".

(** A sheet whose every cell holds that raw number and no formatted text. *)
Definition timeSheet : XLSX.worksheet := fun _ _ => raw tenAndAHalfMinutes.

(** The candidate record of a data row of the sample. *)
Definition record (row : nat) : gmap string value :=
  match Express.buildRow sheet (Express.extractHeaders sheet range) range row with
  | Returned rowData => rowData
  | Thrown _ => ∅
  end.

(** An upload with an allowed type that the decoder cannot read, and the
    request carrying it. *)
Definition corrupt : Http.upload :=
  {| Http.path := "/tmp/upload_1.xlsx";
     Http.mimetype := "application/vnd.ms-excel";
     Http.originalname := "report.xls";
     Http.decoded := Thrown (Error "File is password-protected") |}.

Definition corruptRequest : Serverless.request :=
  {| Serverless.method := "POST";
     Serverless.parsed := Returned (Some corrupt) |}.

End Sample.

(** ** Vocabulary of the theorems *)

Module Rows.

Import Js.

(** What a data row adds to [jsonData] when its record can be built: its
    finished record if it is admitted, nothing otherwise. *)
Definition candidate (worksheet : XLSX.worksheet) (headers : list value)
  (range : XLSX.range) (clock : nat -> string) (row : nat)
  : list (gmap string value) :=
  match Express.buildRow worksheet headers range row with
  | Returned rowData =>
      if Express.admitted (rowData !! "S.No") (rowData !! "Job Details")
      then [Express.addMetadata rowData (rowData !! "S.No") (clock row)]
      else []
  | Thrown _ => []
  end.

(** The admitted records in the order of admission, before the sort. *)
Definition admittedInOrder (worksheet : XLSX.worksheet) (range : XLSX.range)
  (clock : nat -> string) : list (gmap string value) :=
  Express.dataRows range
  ≫= candidate worksheet (Express.extractHeaders worksheet range) range clock.

(** A value kept in a record is a text or a number that is neither zero nor
    NaN. *)
Definition kept (a : value) : Prop :=
  forall x, a = VNum x -> JsNumber.truthy x = true.

(** The [rowNumber] of a finished record, the sort key. *)
Definition rowIndex (record : gmap string value) : JsNumber.number :=
  toNumberOpt (record !! "rowNumber").

(** The value of that key, by which the output is ordered. *)
Definition sortKey (record : gmap string value) : Z :=
  JsNumber.ord (rowIndex record).

(** A finished record: its [rowNumber] is a number, a double and not NaN. *)
Definition finished (record : gmap string value) : Prop :=
  exists x : JsNumber.number,
    record !! "rowNumber" = Some (VNum x)
    /\ JsNumber.inRange x
    /\ JsNumber.isNaN x = false.

End Rows.

(** ** Which columns fill a field *)

Module Fields.

Import Js.

(** The columns of the range whose cell the column loop stores under
    [name]: their header is a text that is not empty, does not start with
    [Column], and has [name] as its clean name. *)
Definition storedUnder (headers : list value) (range : XLSX.range)
  (name : string) : list nat :=
  List.filter
    (fun col =>
       match headers !! (col - XLSX.c (XLSX.s range)) with
       | Some (VStr header) =>
           negb (String.eqb header "")
           && negb (JsString.startsWith header "Column")
           && String.eqb (Express.cleanHeader header) name
       | _ => false
       end)
    (Express.columns range).

(** What the loop stores for a cell: [cellValue || '']. *)
Definition stored (worksheet : XLSX.worksheet) (row col : nat) : value :=
  or (Express.getFormattedCellValue worksheet row col) (VStr "").

(** A value as a record keeps it under a column: a text, or a number that is
    truthy and lies outside the unit interval (a raw number inside it is kept
    as its clock text). *)
Definition plain (a : value) : Prop :=
  forall x, a = VNum x ->
    JsNumber.truthy x = true
    /\ JsNumber.geb x (JsNumber.ofZ 0) && JsNumber.ltb x (JsNumber.ofZ 1) = false.

(** Some header label is a number. *)
Definition numericHeader (headers : list value) : bool :=
  existsb (fun header => match header with VNum _ => true | VStr _ => false end)
    headers.

End Fields.

(** ** The rest of the Express application

    The type filter given to the upload middleware, and the error-handling
    middleware, which answers every error that the middleware chain passes
    on, the filter's among them. *)

Module Server.

Import Js.

Definition allowedMimes : list string :=
  ["application/vnd.openxmlformats-officedocument.spreadsheetml.sheet";
   "application/vnd.ms-excel";
   "text/csv"].

(** [fileFilter]: what it calls back with, [cb(null, true)] or [cb(error)]. *)
Definition fileFilter (mimetype : string) : outcome bool :=
  if JsString.arrayIncludes allowedMimes mimetype then Returned true
  else Thrown (Error "Invalid file type. Only Excel and CSV files are allowed.").

(** An error as the error-handling middleware tells them apart: an instance
    of [multer.MulterError] with its [code], or any other error; each has a
    [message]. *)
Inductive failure :=
| MulterError (code message : string)
| Other (e : exn).

(** [app.use((error, req, res, next) => ...)] *)
Definition errorMiddleware (error : failure) : Http.response :=
  match error with
  | MulterError code message =>
      if String.eqb code "LIMIT_FILE_SIZE"
      then {| Http.statusCode := 400;
              Http.payload :=
                Http.Failure "File too large. Maximum size is 10MB." None |}
      else {| Http.statusCode := 500;
              Http.payload := Http.Failure "Internal server error" (Some message) |}
  | Other e =>
      {| Http.statusCode := 500;
         Http.payload :=
           Http.Failure "Internal server error" (Some (Http.message e)) |}
  end.

End Server.

(** ** The data grid of the client

    The grid receives the rows of the response.  A field of a row holds a
    text or a number; a field that is [null] or missing is [undefined] here,
    the two being read alike by everything below (truth value, [|| default],
    [Number(...) || 0]). *)

Module Client.

Import Js.

Definition ExcelRow : Type := gmap string value.

(** [(a, b) => (a.rowNumber || 0) - (b.rowNumber || 0)] *)
Definition byRowNumber (a b : ExcelRow) : JsNumber.number :=
  JsNumber.sub (toNumber (orOpt (a !! "rowNumber") (VNum (JsNumber.ofZ 0))))
               (toNumber (orOpt (b !! "rowNumber") (VNum (JsNumber.ofZ 0)))).

(** [row => row && row['S.No'] && row['Job Details']], a row being an
    object. *)
Definition shown (row : ExcelRow) : bool :=
  truthyOpt (row !! "S.No") && truthyOpt (row !! "Job Details").

(** [cleanData]: clean and validate data. *)
Definition cleanData (data : list ExcelRow) : list ExcelRow :=
  match data with
  | [] => []
  | _ :: _ => sort byRowNumber (List.filter shown data)
  end.

(** What [renderStatusCell] draws: the text alone, or a dot of a colour
    followed by the text. *)
Inductive cellView :=
| TextOnly (text : value)
| WithDot (backgroundColor text : value).

(** [a === 'time'] *)
Definition isTime (a : value) : bool :=
  match a with
  | VStr s => String.eqb s "time"
  | VNum _ => false
  end.

Definition renderStatusCell (value : option Js.value) (record : ExcelRow)
  (columnKey : string) : cellView :=
  let colorKey := columnKey +:+ "_color" in
  let typeKey := columnKey +:+ "_type" in
  let color := orOpt (record !! colorKey) (VStr "#666666") in
  let type := orOpt (record !! typeKey) (VStr "") in
  if isTime type
     || match value with
        | Some a => truthy a && JsString.includes (toString a) ":"
        | None => false
        end
  then TextOnly (orOpt value (VStr ""))
  else WithDot color (orOpt value (VStr "")).

(** Get all unique column keys: the keys of the first row without the
    metadata and the status keys. *)
Definition allKeys (keys : list string) : list string :=
  List.filter
    (fun key =>
       if JsString.arrayIncludes ["id"; "uploadDate"; "rowNumber"] key then false
       else if JsString.includes key "_status" || JsString.includes key "_color"
               || JsString.includes key "_type"
       then false
       else true)
    keys.

(** Define column order. *)
Definition orderedKeys (allKeys : list string) : list string :=
  let orderedKeys := [] in
  let orderedKeys :=
    if JsString.arrayIncludes allKeys "S.No" then orderedKeys ++ ["S.No"]
    else orderedKeys in
  let orderedKeys :=
    if JsString.arrayIncludes allKeys "Job Details"
    then orderedKeys ++ ["Job Details"]
    else orderedKeys in
  let orderedKeys :=
    fold_left
      (fun orderedKeys key =>
         if negb (JsString.arrayIncludes ["S.No"; "Job Details"; "Comments"] key)
         then orderedKeys ++ [key]
         else orderedKeys)
      allKeys orderedKeys in
  if JsString.arrayIncludes allKeys "Comments" then orderedKeys ++ ["Comments"]
  else orderedKeys.

(** The keys of the columns drawn for a first row with these keys. *)
Definition columnKeys (keys : list string) : list string :=
  orderedKeys (allKeys keys).

(** The [sorter] of the column [S.No]:
    [(a, b) => (Number(a[key]) || 0) - (Number(b[key]) || 0)]. *)
Definition sorter (key : string) (a b : ExcelRow) : JsNumber.number :=
  let aNum := toNumber (or (VNum (toNumberOpt (a !! key))) (VNum (JsNumber.ofZ 0))) in
  let bNum := toNumber (or (VNum (toNumberOpt (b !! key))) (VNum (JsNumber.ofZ 0))) in
  JsNumber.sub aNum bNum.

(** The row number the grid orders a row by. *)
Definition orderKey (row : ExcelRow) : Z :=
  JsNumber.ord (toNumber (orOpt (row !! "rowNumber") (VNum (JsNumber.ofZ 0)))).

(** The [rowNumber] of a row is missing or a number that is a double. *)
Definition numbered (row : ExcelRow) : bool :=
  match row !! "rowNumber" with
  | Some (VNum (S754_finite _ m e)) =>
      (Zpos m <? 2 ^ 53)%Z && (-1074 <=? e)%Z && (e <=? 971)%Z
  | Some (VNum _) => true
  | Some (VStr _) => false
  | None => true
  end.

End Client.

(** ** Further sample inputs *)

Module Cases.

Import Js.

Definition range (rows cols : nat) : XLSX.range :=
  {| XLSX.s := {| XLSX.r := 0; XLSX.c := 0 |};
     XLSX.e := {| XLSX.r := rows; XLSX.c := cols |} |}.

(** Two columns whose headers both map to [S.No]. *)
Definition twoSerials : XLSX.worksheet := fun row col =>
  match row, col with
  | 0, 0 => Sample.text "S.No" | 0, 1 => Sample.text "Job Details"
  | 0, 2 => Sample.text "S No (old)"
  | 1, 0 => Sample.text "7" | 1, 1 => Sample.text "Weld" | 1, 2 => Sample.text "3"
  | _, _ => None
  end.

Definition twoSerialsRecord : gmap string value :=
  match Express.buildRow twoSerials (Express.extractHeaders twoSerials (range 1 2))
          (range 1 2) 1 with
  | Returned rowData => rowData
  | Thrown _ => ∅
  end.

(** No header maps to [Job Details]. *)
Definition noJob : XLSX.worksheet := fun row col =>
  match row, col with
  | 0, 0 => Sample.text "S.No" | 0, 1 => Sample.text "Task"
  | 1, 0 => Sample.text "1" | 1, 1 => Sample.text "Weld"
  | _, _ => None
  end.

(** A header cell that holds the raw number 2024 and no formatted text. *)
Definition yearHeader : XLSX.worksheet := fun row col =>
  match row, col with
  | 0, 0 => Sample.text "S.No" | 0, 1 => Sample.text "Job Details"
  | 0, 2 => Sample.raw (JsNumber.ofZ 2024)
  | 1, 0 => Sample.text "1" | 1, 1 => Sample.text "Weld" | 1, 2 => Sample.text "x"
  | _, _ => None
  end.

(** The sample sheet with a note below its range. *)
Definition annotated : XLSX.worksheet := fun row col =>
  if row =? 9 then Sample.text "checked by hand" else Sample.sheet row col.

(** An upload that decodes to the sample sheet, and one of a type that is
    not allowed. *)
Definition report : Http.upload :=
  {| Http.path := "/tmp/upload_2.csv";
     Http.mimetype := "text/csv";
     Http.originalname := "report.csv";
     Http.decoded := Returned (Sample.sheet, Sample.range) |}.

Definition picture : Http.upload :=
  {| Http.path := "/tmp/upload_3.png";
     Http.mimetype := "image/png";
     Http.originalname := "chart.png";
     Http.decoded := Thrown (Error "Unsupported file") |}.

(** The rows of the response for the sample sheet. *)
Definition response : list Client.ExcelRow :=
  sort Express.byRowNumber
    (Rows.admittedInOrder Sample.sheet Sample.range Sample.clock).

(** The keys of a row with the columns [Comments], [S.No], [Status],
    [Job Details] and [Job_type], in that order. *)
Definition keys : list string :=
  ["Comments"; "S.No"; "Status"; "Status_status"; "Status_color"; "Status_type";
   "Job Details"; "Job_type"; "Job_type_status"; "Job_type_color";
   "Job_type_type"; "id"; "rowNumber"; "uploadDate"].

End Cases.

(** * Facts about the runtime model *)

#[local] Arguments String.append : simpl nomatch.

(** ** The runtime model on concrete values *)

Section RuntimeExamples.

Example number_of_text :
  JsNumber.ofString "3" = JsNumber.ofZ 3
  /\ JsNumber.ofString " 12 " = JsNumber.ofZ 12
  /\ JsNumber.ofString "" = S754_zero false
  /\ JsNumber.ofString "0x10" = JsNumber.ofZ 16
  /\ JsNumber.ofString "1e3" = JsNumber.ofZ 1000
  /\ JsNumber.ofString "0.5" = Sample.half
  /\ JsNumber.ofString "-Infinity" = S754_infinity true
  /\ JsNumber.ofString "abc" = S754_nan
  /\ JsNumber.ofString "1,5" = S754_nan
  /\ JsNumber.ofString "12px" = S754_nan.
Proof. vm_compute. repeat split. Qed.

Example text_of_number :
  JsNumber.toString (JsNumber.ofZ 42) = "42"
  /\ JsNumber.toString Sample.half = "0.5"
  /\ JsNumber.toString (JsNumber.ofString "1.25") = "1.25"
  /\ JsNumber.toString (JsNumber.ofString "0.1") = "0.1"
  /\ JsNumber.toString (JsNumber.ofString "1e21") = "1e+21"
  /\ JsNumber.toString (JsNumber.ofString "-7") = "-7"
  /\ JsNumber.toString S754_nan = "NaN"
  /\ JsNumber.toString (S754_zero true) = "0".
Proof. vm_compute. repeat split. Qed.

Example clock_text_of_serial :
  Express.convertExcelTime (Js.VNum Sample.half) = Js.VStr "12:00"
  /\ Express.convertExcelTime (Js.VNum Sample.zero) = Js.VStr "00:00"
  /\ Express.convertExcelTime (Js.VNum (JsNumber.ofString "0.75")) = Js.VStr "18:00"
  /\ Express.convertExcelTime (Js.VNum (JsNumber.ofString "0.9999")) = Js.VStr "00:00"
  /\ Express.convertExcelTime (Js.VStr "noon") = Js.VStr "noon".
Proof. vm_compute. repeat split. Qed.

Example sorted_sample :
  (fun record => record !! "rowNumber")
    <$> Js.sort Express.byRowNumber
          (Rows.admittedInOrder Sample.sheet Sample.range Sample.clock)
  = [Some (Js.VNum (S754_zero false)); Some (Js.VNum (JsNumber.ofZ 1));
     Some (Js.VNum (JsNumber.ofZ 1)); Some (Js.VNum (JsNumber.ofZ 2))].
Proof. vm_compute. reflexivity. Qed.

(** Characters outside ASCII: white space, numbers, upper case. *)
Example text_outside_ascii :
  let nbsp := JsString.encode 0xA0 in
  JsString.chars ("a" +:+ JsString.encode 0xE9 +:+ JsString.encode 0x1F600)
  = ["a"; JsString.encode 0xE9; JsString.encode 0x1F600]
  /\ JsString.trim (nbsp +:+ " 3" +:+ JsString.encode 0xFEFF) = "3"
  /\ JsString.isBlank (nbsp +:+ JsString.encode 0x3000) = true
  /\ JsString.isBlank (JsString.encode 0x200B) = false
  /\ JsNumber.ofString nbsp = S754_zero false
  /\ JsNumber.ofString (nbsp +:+ "3" +:+ nbsp) = JsNumber.ofZ 3
  /\ JsNumber.ofString (JsString.encode 0xFEFF +:+ "5") = JsNumber.ofZ 5
  /\ JsNumber.ofString (JsString.encode 0x200B +:+ "5") = S754_nan
  /\ JsString.toUpperCase (JsString.encode 0xDF) = "SS"
  /\ JsString.toUpperCase ("act" +:+ JsString.encode 0x131 +:+ "ve") = "ACTIVE"
  /\ JsString.toUpperCase (JsString.encode 0xE9) = JsString.encode 0xC9
  /\ JsString.toUpperCase (JsString.encode 0xFB01) = "FI".
Proof. vm_compute. repeat split. Qed.

Example admission_outside_ascii :
  let nbsp := JsString.encode 0xA0 in
  Express.admitted (Some (Js.VStr nbsp)) (Some (Js.VStr "Fix pump")) = true
  /\ Express.admitted (Some (Js.VStr (nbsp +:+ "3" +:+ nbsp)))
       (Some (Js.VStr "Fix pump")) = true
  /\ Express.admitted (Some (Js.VStr "1")) (Some (Js.VStr nbsp)) = false.
Proof. vm_compute. repeat split. Qed.

Example classification_outside_ascii :
  let nbsp := JsString.encode 0xA0 in
  Express.getStatusInfo (Js.VStr (nbsp +:+ "active" +:+ nbsp))
  = {| status := "ACTIVE"; color := "#00B050"; type := "success" |}
  /\ Express.getStatusInfo (Js.VStr ("12:30" +:+ nbsp))
     = {| status := "12:30"; color := "#0070C0"; type := "processing" |}
  /\ Express.getStatusInfo (Js.VStr ("pa" +:+ JsString.encode 0xDF))
     = {| status := "PASS"; color := "#00B050"; type := "success" |}.
Proof. vm_compute. repeat split. Qed.

End RuntimeExamples.

(** ** Strings *)

Section StringFacts.

Import JsString.

Lemma append_empty_r (s : string) : s +:+ "" = s.
Proof. induction s as [|c s IH]; simpl; [reflexivity | now rewrite IH]. Qed.

Lemma append_assoc (a b c : string) : (a +:+ b) +:+ c = a +:+ (b +:+ c).
Proof. induction a as [|x a IH]; simpl; [reflexivity | now rewrite IH]. Qed.

Lemma append_eq_empty (a b : string) : a +:+ b = "" -> a = "" /\ b = "".
Proof. destruct a; simpl; [auto | discriminate]. Qed.

Lemma isPrefix_spec (p s : string) :
  isPrefix p s = true <-> exists b, s = p +:+ b.
Proof.
  revert s. induction p as [|c p IH]; intros s; simpl.
  - split; [intros _; now exists s | reflexivity].
  - destruct s as [|d s].
    + split; [discriminate | intros [b Hb]; discriminate].
    + rewrite andb_true_iff, Ascii.eqb_eq, IH. split.
      * intros [-> [b ->]]. now exists b.
      * intros [b Hb]. inversion Hb; subst. split; [reflexivity | now exists b].
Qed.

Lemma includes_spec (s p : string) :
  includes s p = true <-> Spec.Contains s p.
Proof.
  unfold Spec.Contains. induction s as [|c s IH].
  - simpl. rewrite orb_false_r, isPrefix_spec. split.
    + intros [b Hb]. exists "", b. exact Hb.
    + intros (a & b & Hab). destruct a; simpl in Hab; [now exists b | discriminate].
  - cbn [includes]. rewrite orb_true_iff, IH, isPrefix_spec. split.
    + intros [[b Hb] | (a & b & Hab)].
      * exists "", b. exact Hb.
      * exists (String c a), b. simpl. now rewrite Hab.
    + intros (a & b & Hab). destruct a as [|x a]; simpl in Hab.
      * left. now exists b.
      * right. exists a, b. now inversion Hab.
Qed.

Lemma includes_false (s p : string) :
  includes s p = false <-> ~ Spec.Contains s p.
Proof.
  rewrite <- includes_spec. destruct (includes s p); split; intros H.
  - discriminate.
  - now elim H.
  - intros H'. discriminate.
  - reflexivity.
Qed.

Lemma arrayIncludes_spec (l : list string) (s : string) :
  arrayIncludes l s = true <-> In s l.
Proof.
  unfold arrayIncludes. rewrite existsb_exists. split.
  - intros (x & Hx & He). apply String.eqb_eq in He. now subst.
  - intros H. exists s. split; [exact H | apply String.eqb_refl].
Qed.

Lemma arrayIncludes_oneOf (l : list string) (s : string) :
  arrayIncludes l s = Spec.oneOf l s.
Proof.
  unfold Spec.oneOf. destruct (decide (s ∈ l)) as [H|H].
  - apply arrayIncludes_spec, list_elem_of_In, H.
  - destruct (arrayIncludes l s) eqn:E; [|reflexivity].
    apply arrayIncludes_spec, list_elem_of_In in E. contradiction.
Qed.

End StringFacts.

(** ** Regular expressions: the matcher decides the language *)

Section RegexFacts.

Import Regex.

Lemma lang_Void_inv (s : string) : ~ lang Void s.
Proof. intros H. inversion H. Qed.

Lemma lang_Eps_inv (s : string) : lang Eps s -> s = "".
Proof. intros H. now inversion H. Qed.

Lemma lang_Chr_inv (k : class) (s : string) :
  lang (Chr k) s -> exists c, s = String c "" /\ inClass k c = true.
Proof. intros H. inversion H; subst. eauto. Qed.

Lemma lang_Seq_inv (r1 r2 : regex) (s : string) :
  lang (Seq r1 r2) s ->
  exists s1 s2, s = s1 +:+ s2 /\ lang r1 s1 /\ lang r2 s2.
Proof. intros H. inversion H; subst. eauto. Qed.

Lemma lang_Alt_inv (r1 r2 : regex) (s : string) :
  lang (Alt r1 r2) s -> lang r1 s \/ lang r2 s.
Proof. intros H. inversion H; subst; auto. Qed.

Lemma lang_Seq_intro (r1 r2 : regex) (s s1 s2 : string) :
  s = s1 +:+ s2 -> lang r1 s1 -> lang r2 s2 -> lang (Seq r1 r2) s.
Proof. intros -> H1 H2. now constructor. Qed.

Lemma nullable_lang (r : regex) : nullable r = true <-> lang r "".
Proof.
  induction r as [| |k|r1 IH1 r2 IH2|r1 IH1 r2 IH2]; simpl.
  - split; [discriminate | intros H; now apply lang_Void_inv in H].
  - split; [intros _; constructor | reflexivity].
  - split; [discriminate|].
    intros H. apply lang_Chr_inv in H as (c & Hc & _). discriminate.
  - rewrite andb_true_iff, IH1, IH2. split.
    + intros [H1 H2]. now apply (lang_Seq_intro _ _ _ "" "").
    + intros H. apply lang_Seq_inv in H as (s1 & s2 & Heq & H1 & H2).
      symmetry in Heq. apply append_eq_empty in Heq as [-> ->]. now split.
  - rewrite orb_true_iff, IH1, IH2. split.
    + intros [H|H]; [now apply LAltL | now apply LAltR].
    + apply lang_Alt_inv.
Qed.

Lemma lang_Seq_cons (c : ascii) (r1 r2 : regex) (s : string) :
  lang (Seq r1 r2) (String c s) <->
  (exists s1 s2, s = s1 +:+ s2 /\ lang r1 (String c s1) /\ lang r2 s2)
  \/ (lang r1 "" /\ lang r2 (String c s)).
Proof.
  split.
  - intros H. apply lang_Seq_inv in H as (s1 & s2 & Heq & H1 & H2).
    destruct s1 as [|d s1]; simpl in Heq.
    + right. subst. auto.
    + left. inversion Heq; subst. exists s1, s2. auto.
  - intros [(s1 & s2 & -> & H1 & H2) | [H1 H2]].
    + now apply (lang_Seq_intro _ _ _ (String c s1) s2).
    + now apply (lang_Seq_intro _ _ _ "" (String c s)).
Qed.

Lemma deriv_lang (c : ascii) (r : regex) (s : string) :
  lang (deriv c r) s <-> lang r (String c s).
Proof.
  revert s. induction r as [| |k|r1 IH1 r2 IH2|r1 IH1 r2 IH2]; intros s; simpl.
  - split; intros H; now apply lang_Void_inv in H.
  - split; intros H; [now apply lang_Void_inv in H|].
    apply lang_Eps_inv in H. discriminate.
  - destruct (inClass k c) eqn:E.
    + split; intros H.
      * apply lang_Eps_inv in H as ->. now constructor.
      * apply lang_Chr_inv in H as (d & Hd & _). inversion Hd. constructor.
    + split; intros H; [now apply lang_Void_inv in H|].
      apply lang_Chr_inv in H as (d & Hd & Hk). inversion Hd; subst. congruence.
  - assert (Hseq : lang (Seq (deriv c r1) r2) s <->
                   exists s1 s2, s = s1 +:+ s2 /\ lang r1 (String c s1) /\ lang r2 s2).
    { split.
      - intros H. apply lang_Seq_inv in H as (s1 & s2 & Heq & H1 & H2).
        exists s1, s2. rewrite <- IH1. auto.
      - intros (s1 & s2 & Heq & H1 & H2).
        apply (lang_Seq_intro _ _ _ s1 s2); [exact Heq | now apply IH1 | exact H2]. }
    rewrite lang_Seq_cons. destruct (nullable r1) eqn:En.
    + split.
      * intros H. apply lang_Alt_inv in H as [H|H].
        -- left. now apply Hseq.
        -- right. split; [now apply nullable_lang | now apply IH2].
      * intros [H | [H1 H2]].
        -- apply LAltL. now apply Hseq.
        -- apply LAltR. now apply IH2.
    + rewrite Hseq. split; [auto|].
      intros [H | [H1 H2]]; [exact H|].
      apply nullable_lang in H1. congruence.
  - split; intros H; apply lang_Alt_inv in H as [H|H].
    + apply LAltL. now apply IH1.
    + apply LAltR. now apply IH2.
    + apply LAltL. now apply IH1.
    + apply LAltR. now apply IH2.
Qed.

Lemma test_lang (r : regex) (s : string) : test r s = true <-> lang r s.
Proof.
  revert r. induction s as [|c s IH]; intros r; simpl.
  - apply nullable_lang.
  - rewrite IH. apply deriv_lang.
Qed.

Lemma test_ext (r1 r2 : regex) :
  (forall s, lang r1 s <-> lang r2 s) -> forall s, test r1 s = test r2 s.
Proof.
  intros H s. apply eq_true_iff_eq. rewrite !test_lang. apply H.
Qed.

Lemma test_Eps (s : string) : test Eps s = String.eqb s "".
Proof.
  apply eq_true_iff_eq. rewrite test_lang, String.eqb_eq. split.
  - apply lang_Eps_inv.
  - intros ->. constructor.
Qed.

Lemma test_Seq_Chr_nil (k : class) (r : regex) : test (Seq (Chr k) r) "" = false.
Proof. reflexivity. Qed.

Lemma test_Seq_Chr (k : class) (r : regex) (c : ascii) (s : string) :
  test (Seq (Chr k) r) (String c s) = inClass k c && test r s.
Proof.
  apply eq_true_iff_eq. rewrite andb_true_iff, !test_lang, lang_Seq_cons. split.
  - intros [(s1 & s2 & -> & H1 & H2) | [H1 _]].
    + apply lang_Chr_inv in H1 as (d & Hd & Hk). inversion Hd; subst. auto.
    + apply lang_Chr_inv in H1 as (d & Hd & _). discriminate.
  - intros [Hk H]. left. exists "", s. repeat split; [now constructor | exact H].
Qed.

Lemma test_Seq_Alt (r1 r2 r : regex) (s : string) :
  test (Seq (Alt r1 r2) r) s = test (Seq r1 r) s || test (Seq r2 r) s.
Proof.
  apply eq_true_iff_eq. rewrite orb_true_iff, !test_lang. split.
  - intros H. apply lang_Seq_inv in H as (s1 & s2 & -> & H1 & H2).
    apply lang_Alt_inv in H1 as [H1|H1]; [left | right]; now constructor.
  - intros [H|H]; apply lang_Seq_inv in H as (s1 & s2 & -> & H1 & H2);
      constructor; auto; [now apply LAltL | now apply LAltR].
Qed.

Lemma test_Seq_Eps (r : regex) (s : string) : test (Seq Eps r) s = test r s.
Proof.
  apply test_ext. intros t. split.
  - intros H. apply lang_Seq_inv in H as (s1 & s2 & -> & H1 & H2).
    apply lang_Eps_inv in H1 as ->. exact H2.
  - intros H. apply (lang_Seq_intro _ _ _ "" t); [reflexivity | constructor | exact H].
Qed.

Lemma test_Seq_assoc (r1 r2 r3 : regex) (s : string) :
  test (Seq (Seq r1 r2) r3) s = test (Seq r1 (Seq r2 r3)) s.
Proof.
  apply test_ext. intros t. split.
  - intros H. apply lang_Seq_inv in H as (s1 & s2 & -> & H1 & H2).
    apply lang_Seq_inv in H1 as (s3 & s4 & -> & H3 & H4).
    rewrite append_assoc. constructor; [exact H3 | now constructor].
  - intros H. apply lang_Seq_inv in H as (s1 & s2 & -> & H1 & H2).
    apply lang_Seq_inv in H2 as (s3 & s4 & -> & H3 & H4).
    rewrite <- append_assoc. constructor; [now constructor | exact H4].
Qed.

End RegexFacts.

Section PatternFacts.

Import Regex.

Ltac crunch :=
  repeat (rewrite ?test_Seq_assoc, ?test_Seq_Alt, ?test_Seq_Eps, ?test_Seq_Chr,
            ?test_Seq_Chr_nil, ?test_Eps);
  cbn [list_ascii_of_string inClass String.eqb].

Ltac settle :=
  rewrite ?(Ascii.eqb_sym ":"%char), ?(Ascii.eqb_sym "-"%char);
  repeat match goal with
         | |- context [JsString.isDigit ?c] => destruct (JsString.isDigit c)
         | |- context [JsString.isAlpha ?c] => destruct (JsString.isAlpha c)
         | |- context [Ascii.eqb ?c ?d] => destruct (Ascii.eqb c d)
         end;
  reflexivity.

Lemma timePattern_spec (s : string) :
  test timePattern s = Spec.isTimeText s.
Proof.
  unfold timePattern, oneOrTwo, Spec.isTimeText, Spec.chars. cbn [times].
  destruct s as [|a s]; [reflexivity|].
  destruct s as [|b s]; [crunch; settle|].
  destruct s as [|c s]; [crunch; settle|].
  destruct s as [|d s]; [crunch; settle|].
  destruct s as [|e s]; [crunch; settle|].
  destruct s as [|f s]; crunch; settle.
Qed.

Lemma datePattern_spec (s : string) :
  test datePattern s = Spec.isDateText s.
Proof.
  unfold datePattern, oneOrTwo, Spec.isDateText, Spec.chars. cbn [times].
  destruct s as [|a s]; [reflexivity|].
  destruct s as [|b s]; [crunch; settle|].
  destruct s as [|c s]; [crunch; settle|].
  destruct s as [|d s]; [crunch; settle|].
  destruct s as [|e s]; [crunch; settle|].
  destruct s as [|f s]; [crunch; settle|].
  destruct s as [|g s]; crunch; settle.
Qed.

End PatternFacts.

(** ** Characters *)

Section CharFacts.

Import JsString.

Lemma code_byte (n : N) : (n < 256)%N -> code (byte n) = n.
Proof. intros H. unfold code, byte. now apply N_ascii_embedding. Qed.

Lemma chars_eq (c1 : ascii) (s1 : string) :
  chars (String c1 s1)
  = match width c1, s1 with
    | 4, String c2 (String c3 (String c4 s4)) =>
        String c1 (String c2 (String c3 (String c4 EmptyString))) :: chars s4
    | 4, _ => [String c1 s1]
    | 3, String c2 (String c3 s3) =>
        String c1 (String c2 (String c3 EmptyString)) :: chars s3
    | 3, _ => [String c1 s1]
    | 2, String c2 s2 => String c1 (String c2 EmptyString) :: chars s2
    | 2, _ => [String c1 s1]
    | _, _ => String c1 EmptyString :: chars s1
    end.
Proof. reflexivity. Qed.

Lemma width_cases (c : ascii) :
  width c = 1 \/ width c = 2 \/ width c = 3 \/ width c = 4.
Proof.
  unfold width.
  repeat match goal with |- context [if ?b then _ else _] => destruct b end; auto.
Qed.

(** A full character in front of a string is its first character. *)
Lemma chars_full (ch s : string) :
  isFull ch = true -> chars (ch +:+ s) = ch :: chars s.
Proof.
  destruct ch as [|c1 r]; [discriminate|]. unfold isFull.
  intros H%Nat.eqb_eq.
  change (String c1 r +:+ s) with (String c1 (r +:+ s)). rewrite chars_eq.
  destruct (width_cases c1) as [W|[W|[W|W]]]; rewrite W in *; simpl in H.
  - destruct r; [|discriminate]. reflexivity.
  - destruct r as [|c2 [|]]; try discriminate. reflexivity.
  - destruct r as [|c2 [|c3 [|]]]; try discriminate. reflexivity.
  - destruct r as [|c2 [|c3 [|c4 [|]]]]; try discriminate. reflexivity.
Qed.

Lemma chars_char (ch : string) : isChar ch = true -> chars ch = [ch].
Proof.
  destruct ch as [|c1 r]; [discriminate|]. unfold isChar.
  intros H%Nat.leb_le. rewrite chars_eq.
  destruct (width_cases c1) as [W|[W|[W|W]]]; rewrite W in *; simpl in H.
  - destruct r; [reflexivity|simpl in H; lia].
  - destruct r as [|c2 [|]]; try reflexivity. simpl in H; lia.
  - destruct r as [|c2 [|c3 [|]]]; try reflexivity. simpl in H; lia.
  - destruct r as [|c2 [|c3 [|c4 [|]]]]; try reflexivity. simpl in H; lia.
Qed.

Lemma isFull_isChar (ch : string) : isFull ch = true -> isChar ch = true.
Proof.
  destruct ch as [|c r]; [discriminate|]. unfold isFull, isChar.
  intros H%Nat.eqb_eq. apply Nat.leb_le. lia.
Qed.

Lemma isChar_nonempty (ch : string) : isChar ch = true -> ch <> "".
Proof. now destruct ch. Qed.

(** Every string that is not empty splits into its first character and the
    rest; the first character is full unless it ends the string. *)
Lemma chars_step (s : string) :
  s <> "" ->
  exists ch rest : string,
    s = ch +:+ rest /\ chars s = ch :: chars rest /\ isChar ch = true
    /\ (isFull ch = true \/ rest = "")
    /\ String.length rest < String.length s.
Proof.
  destruct s as [|c1 s1]; [congruence|]. intros _. rewrite chars_eq.
  destruct (width_cases c1) as [W|[W|[W|W]]]; rewrite W.
  - exists (String c1 ""), s1. unfold isFull, isChar. rewrite W. simpl.
    repeat split; first [now auto | simpl; lia].
  - destruct s1 as [|c2 s2].
    + exists (String c1 ""), "". unfold isChar. rewrite W.
      repeat split; first [now auto | simpl; lia].
    + exists (String c1 (String c2 "")), s2. unfold isFull, isChar. rewrite W.
      repeat split; first [now auto | simpl; lia].
  - destruct s1 as [|c2 [|c3 s3]].
    + exists (String c1 ""), "". unfold isChar. rewrite W.
      repeat split; first [now auto | simpl; lia].
    + exists (String c1 (String c2 "")), "". unfold isChar. rewrite W.
      repeat split; first [now auto | simpl; lia].
    + exists (String c1 (String c2 (String c3 ""))), s3.
      unfold isFull, isChar. rewrite W.
      repeat split; first [now auto | simpl; lia].
  - destruct s1 as [|c2 [|c3 [|c4 s4]]].
    + exists (String c1 ""), "". unfold isChar. rewrite W.
      repeat split; first [now auto | simpl; lia].
    + exists (String c1 (String c2 "")), "". unfold isChar. rewrite W.
      repeat split; first [now auto | simpl; lia].
    + exists (String c1 (String c2 (String c3 ""))), "". unfold isChar.
      rewrite W. repeat split; first [now auto | simpl; lia].
    + exists (String c1 (String c2 (String c3 (String c4 "")))), s4.
      unfold isFull, isChar. rewrite W.
      repeat split; first [now auto | simpl; lia].
Qed.

Lemma chars_ind (P : string -> Prop) :
  P "" ->
  (forall ch rest : string,
     isChar ch = true -> isFull ch = true \/ rest = "" ->
     chars (ch +:+ rest) = ch :: chars rest -> P rest -> P (ch +:+ rest)) ->
  forall s : string, P s.
Proof.
  intros H0 Hstep s.
  assert (H : forall n s, String.length s < n -> P s).
  { clear s. induction n as [|n IH]; intros s Hn; [lia|].
    destruct (String.eqb_spec s "") as [->|Hs]; [exact H0|].
    destruct (chars_step s Hs) as (ch & rest & -> & Hc & Hne & Hfull & Hlen).
    apply Hstep; auto. apply IH. lia. }
  apply (H (S (String.length s))). lia.
Qed.

Lemma join_chars (s : string) : join (chars s) = s.
Proof.
  induction s as [|ch rest Hne Hfull Hc IH] using chars_ind; [reflexivity|].
  rewrite Hc. simpl. now rewrite IH.
Qed.

Lemma join_app (a b : list string) : join (a ++ b) = join a +:+ join b.
Proof.
  induction a as [|s a IH]; simpl; [reflexivity|].
  now rewrite IH, append_assoc.
Qed.

Lemma areChars_chars (s : string) : areChars (chars s) = true.
Proof.
  induction s as [|ch rest Hne Hfull Hc IH] using chars_ind; [reflexivity|].
  rewrite Hc. cbn [areChars]. rewrite Hne, IH.
  destruct Hfull as [-> | ->]; [reflexivity|]. simpl. now rewrite orb_true_r.
Qed.

Lemma chars_join (l : list string) : areChars l = true -> chars (join l) = l.
Proof.
  induction l as [|ch l IH]; [reflexivity|]. cbn [areChars join].
  intros [[Hc Hf]%andb_true_iff Hl]%andb_true_iff.
  destruct (isFull ch) eqn:E.
  - rewrite (chars_full _ _ E). now rewrite IH.
  - destruct l; [|discriminate]. simpl. rewrite append_empty_r.
    now apply chars_char.
Qed.

Lemma areChars_app_r (a b : list string) :
  areChars (a ++ b) = true -> areChars b = true.
Proof.
  induction a as [|ch a IH]; [auto|]. cbn [areChars app].
  intros [_ H]%andb_true_iff. auto.
Qed.

Lemma areChars_app_l (a b : list string) :
  areChars (a ++ b) = true -> areChars a = true.
Proof.
  induction a as [|ch a IH]; [auto|]. cbn [areChars app].
  intros [[Hc Hf]%andb_true_iff H]%andb_true_iff.
  rewrite Hc, (IH H), andb_true_r. simpl.
  destruct (isFull ch); [reflexivity|]. simpl in *. now destruct a.
Qed.

Lemma areChars_full_app (a b : list string) :
  forallb isFull a = true -> areChars b = true -> areChars (a ++ b) = true.
Proof.
  induction a as [|ch a IH]; [auto|]. cbn [forallb areChars app].
  intros [Hf Ha]%andb_true_iff Hb.
  now rewrite (isFull_isChar _ Hf), Hf, IH.
Qed.

Lemma areChars_nonempty (l : list string) :
  areChars l = true -> Forall (fun ch => ch <> "") l.
Proof.
  induction l as [|ch l IH]; [constructor|]. cbn [areChars].
  intros [[Hc _]%andb_true_iff H]%andb_true_iff.
  constructor; [now apply isChar_nonempty | auto].
Qed.

Lemma join_empty (l : list string) :
  Forall (fun ch => ch <> "") l -> join l = "" -> l = [].
Proof.
  destruct l as [|ch l]; [reflexivity|]. intros H E. inversion H; subst.
  simpl in E. apply append_eq_empty in E as [E _]. contradiction.
Qed.

(** A string whose characters are all full can be followed by any string
    without its characters changing. *)
Lemma chars_app (a b : string) :
  forallb isFull (chars a) = true -> chars (a +:+ b) = chars a ++ chars b.
Proof.
  intros H. rewrite <- (join_chars a) at 1.
  induction (chars a) as [|ch l IH]; [reflexivity|]. cbn [forallb] in H.
  apply andb_true_iff in H as [Hf Hl]. cbn [join]. rewrite append_assoc.
  rewrite (chars_full _ _ Hf). simpl. now rewrite IH.
Qed.

End CharFacts.

(** ** Code points and the case table *)

Section CodingFacts.

Import JsString.

Lemma decode_encode (ch : string) (n : N) : decode ch = Some n -> encode n = ch.
Proof.
  unfold decode.
  match goal with |- context [String.eqb ?a ?b] => destruct (String.eqb_spec a b) end;
    [|discriminate].
  now intros [= <-].
Qed.

Lemma width_of_code (m : N) :
  (m < 256)%N ->
  width (byte m)
  = if (m <? 0xC0)%N then 1 else if (m <? 0xE0)%N then 2
    else if (m <? 0xF0)%N then 3 else if (m <? 0xF8)%N then 4 else 1.
Proof. intros H. unfold width. now rewrite code_byte. Qed.

Lemma encode_full (n : N) : isFull (encode n) = true.
Proof.
  unfold encode.
  destruct (N.ltb_spec n 0x80).
  { unfold isFull. rewrite width_of_code by lia.
    destruct (N.ltb_spec n 0xC0); [reflexivity|lia]. }
  destruct (N.ltb_spec n 0x800).
  { assert (Hq : (n / 64 < 32)%N) by (apply N.Div0.div_lt_upper_bound; lia).
    generalize dependent (n / 64)%N. intros q Hq.
    unfold isFull. rewrite width_of_code by lia.
    destruct (N.ltb_spec (0xC0 + q) 0xC0); [lia|].
    destruct (N.ltb_spec (0xC0 + q) 0xE0); [reflexivity|lia]. }
  destruct (N.ltb_spec n 0x10000).
  { assert (Hq : (n / 4096 < 16)%N) by (apply N.Div0.div_lt_upper_bound; lia).
    generalize dependent (n / 4096)%N. intros q Hq.
    unfold isFull. rewrite width_of_code by lia.
    destruct (N.ltb_spec (0xE0 + q) 0xC0); [lia|].
    destruct (N.ltb_spec (0xE0 + q) 0xE0); [lia|].
    destruct (N.ltb_spec (0xE0 + q) 0xF0); [reflexivity|lia]. }
  assert (Hq : ((n / 262144) mod 8 < 8)%N) by (apply N.mod_lt; lia).
  generalize dependent ((n / 262144) mod 8)%N. intros q Hq.
  unfold isFull. rewrite width_of_code by lia.
  destruct (N.ltb_spec (0xF0 + q) 0xC0); [lia|].
  destruct (N.ltb_spec (0xF0 + q) 0xE0); [lia|].
  destruct (N.ltb_spec (0xF0 + q) 0xF0); [lia|].
  destruct (N.ltb_spec (0xF0 + q) 0xF8); [reflexivity|lia].
Qed.

Lemma decode_full (ch : string) (n : N) : decode ch = Some n -> isFull ch = true.
Proof. intros <-%decode_encode. apply encode_full. Qed.

(** A property of all white space characters is checked on the list. *)
Lemma white_forall (P : string -> bool) :
  forallb P (encode <$> whiteSpaces) = true ->
  forall ch : string, isWhiteSpace ch = true -> P ch = true.
Proof.
  intros H ch. unfold isWhiteSpace. destruct (decode ch) as [n|] eqn:E; [|discriminate].
  intros (m & Hin & ->%N.eqb_eq)%existsb_exists.
  rewrite forallb_forall in H. apply H.
  rewrite <- (decode_encode _ _ E). now apply in_map.
Qed.

Lemma white_full (ch : string) : isWhiteSpace ch = true -> isFull ch = true.
Proof. unfold isWhiteSpace. destruct (decode ch) eqn:E; [|discriminate]. intros _. eapply decode_full, E. Qed.

Lemma span_spec (n : N) (e : N * N * N * N) : inRange n e = true -> In n (span e).
Proof.
  destruct e as [[[first last] step] image]. unfold inRange, span.
  intros [[H1%N.leb_le H2%N.leb_le]%andb_true_iff H3%N.eqb_eq]%andb_true_iff.
  pose proof (N.Div0.div_mod (n - first) step) as Hd. rewrite H3 in Hd.
  assert (Hle : ((n - first) / step <= (last - first) / step)%N)
    by (apply N.Div0.div_le_mono; lia).
  generalize dependent ((last - first) / step)%N. intros k.
  generalize dependent ((n - first) / step)%N. intros q Hd Hle.
  apply in_map_iff. exists (N.to_nat q). split.
  - rewrite N2Nat.id. lia.
  - apply in_seq. lia.
Qed.

Lemma upperCodes_source (n : N) (l : list N) :
  upperCodes n = Some l -> In n upperSources.
Proof.
  unfold upperCodes, upperSources. intros H. apply in_or_app.
  destruct (find _ upperSpecial) as [e|] eqn:E1.
  - left. apply find_some in E1 as [Hin <-%N.eqb_eq]. now apply in_map.
  - right. destruct (find (inRange n) upperRanges) as [e|] eqn:E2; [|discriminate].
    apply find_some in E2 as [Hin Hr]. apply in_flat_map. exists e.
    split; [exact Hin | now apply span_spec].
Qed.

(** A property of all characters with an upper case of their own is
    checked on the table. *)
Lemma upper_forall (P : N -> list N -> bool) :
  forallb (fun n => match upperCodes n with Some l => P n l | None => true end)
    upperSources = true ->
  forall (n : N) (l : list N), upperCodes n = Some l -> P n l = true.
Proof.
  intros H n l Hn. rewrite forallb_forall in H.
  specialize (H n (upperCodes_source n l Hn)). now rewrite Hn in H.
Qed.

End CodingFacts.

(** ** White space and case *)

Section CaseFacts.

Import JsString.

(** The table of upper case mappings: a character with an upper case of
    its own is neither white space nor a colon, and its upper case is a
    list, not empty, of characters that are their own upper case, are not
    white space and are no colon. *)
Lemma upper_table :
  forallb
    (fun n =>
       match upperCodes n with
       | Some l =>
           negb (isWhiteSpace (encode n)) && negb (includes (encode n) ":")
           && negb (Nat.eqb (length l) 0)
           && forallb
                (fun m =>
                   match upperCodes m with Some _ => false | None => true end
                   && match decode (encode m) with
                      | Some k => N.eqb k m
                      | None => false
                      end
                   && negb (isWhiteSpace (encode m))
                   && negb (includes (encode m) ":")) l
       | None => true
       end) upperSources = true.
Proof. vm_compute. reflexivity. Qed.

Local Abbreviation Stable :=
  (fun p : string =>
     upperOf p = [p] /\ isWhiteSpace p = false /\ includes p ":" = false
     /\ isFull p = true).

Lemma upperOf_cases (ch : string) :
  upperOf ch = [ch]
  \/ isWhiteSpace ch = false /\ includes ch ":" = false
     /\ upperOf ch <> [] /\ Forall Stable (upperOf ch).
Proof.
  unfold upperOf. destruct (decode ch) as [n|] eqn:E; [|now left].
  destruct (upperCodes n) as [l|] eqn:El; [|now left]. right.
  apply decode_encode in E. subst ch.
  pose proof (upper_forall _ upper_table n l El) as H.
  apply andb_true_iff in H as [[[H0 H1]%andb_true_iff H3]%andb_true_iff H4].
  apply negb_true_iff in H0, H1. repeat split; auto.
  - destruct l; [discriminate|discriminate].
  - clear El H3. rewrite forallb_forall in H4. apply Forall_forall.
    intros p (m & -> & Hm%list_elem_of_In)%list_elem_of_fmap. specialize (H4 m Hm).
    apply andb_true_iff in H4 as [[[Ha Hb]%andb_true_iff Hc]%andb_true_iff Hd].
    apply negb_true_iff in Hc, Hd.
    destruct (upperCodes m) eqn:Em; [discriminate|].
    destruct (decode (encode m)) as [k|] eqn:Ek; [|discriminate].
    apply N.eqb_eq in Hb. subst k.
    repeat split; auto using encode_full.
    unfold upperOf. now rewrite ?Ek, Em.
Qed.

Lemma flat_map_stable (l : list string) :
  Forall Stable l -> flat_map upperOf l = l.
Proof.
  induction 1 as [|p l [Hp _] _ IH]; [reflexivity|]. simpl. now rewrite Hp, IH.
Qed.

Lemma upperOf_idem (ch : string) : flat_map upperOf (upperOf ch) = upperOf ch.
Proof.
  destruct (upperOf_cases ch) as [H | (_ & _ & _ & H)].
  - rewrite H. simpl. now rewrite H.
  - now apply flat_map_stable.
Qed.

Lemma upper_idem (l : list string) :
  flat_map upperOf (flat_map upperOf l) = flat_map upperOf l.
Proof.
  induction l as [|ch l IH]; [reflexivity|]. simpl.
  now rewrite flat_map_app, upperOf_idem, IH.
Qed.

Lemma upperOf_white (ch : string) : isWhiteSpace ch = true -> upperOf ch = [ch].
Proof.
  intros H. destruct (upperOf_cases ch) as [E | (E & _)]; [exact E | congruence].
Qed.

Lemma upper_white (l : list string) :
  forallb isWhiteSpace l = true -> flat_map upperOf l = l.
Proof.
  induction l as [|ch l IH]; [reflexivity|]. cbn [forallb].
  intros [Hc Hl]%andb_true_iff. simpl. now rewrite (upperOf_white _ Hc), IH.
Qed.

Lemma upperOf_not_white (ch : string) :
  isWhiteSpace ch = false ->
  upperOf ch <> [] /\ Forall (fun p => isWhiteSpace p = false) (upperOf ch).
Proof.
  intros H. destruct (upperOf_cases ch) as [E | (_ & _ & Hne & Hs)].
  - rewrite E. split; [discriminate | now repeat constructor].
  - split; [exact Hne|]. eapply Forall_impl; [exact Hs|]. now intros p (_ & Hp & _).
Qed.

Lemma areChars_upper (l : list string) :
  areChars l = true -> areChars (flat_map upperOf l) = true.
Proof.
  induction l as [|ch l IH]; [reflexivity|]. cbn [areChars flat_map].
  intros [[Hc Hf]%andb_true_iff Hl]%andb_true_iff. specialize (IH Hl).
  destruct (upperOf_cases ch) as [E | (_ & _ & _ & Hs)].
  - rewrite E. cbn [app areChars]. rewrite Hc, IH, andb_true_r.
    destruct (isFull ch); simpl in *; [reflexivity|].
    destruct l; [reflexivity|discriminate].
  - apply areChars_full_app; [|exact IH]. apply forallb_forall.
    rewrite Forall_forall in Hs. intros p Hp%list_elem_of_In.
    now destruct (Hs p Hp) as (_ & _ & _ & H).
Qed.

(** *** Removing white space from a list of characters *)

Local Abbreviation headed :=
  (fun l : list string =>
     match l with
     | [] => True
     | ch :: _ => isWhiteSpace ch = false
     end).

Lemma dropWhite_headed (l : list string) : headed (dropWhite l).
Proof.
  induction l as [|ch l IH]; simpl; [exact I|].
  destruct (isWhiteSpace ch) eqn:E; [exact IH | exact E].
Qed.

Lemma headed_dropWhite (l : list string) : headed l -> dropWhite l = l.
Proof. destruct l as [|ch l]; simpl; [reflexivity|]. now intros ->. Qed.

Lemma headed_app_l (a b : list string) : headed (a ++ b) -> headed a.
Proof. now destruct a. Qed.

Lemma dropWhite_suffix (l : list string) :
  exists a, l = a ++ dropWhite l /\ forallb isWhiteSpace a = true.
Proof.
  induction l as [|ch l (a & IH & Ha)]; simpl; [now exists []|].
  destruct (isWhiteSpace ch) eqn:E.
  - exists (ch :: a). simpl. rewrite E, Ha. split; [now f_equal | reflexivity].
  - now exists [].
Qed.

Lemma dropWhiteEnd_prefix (l : list string) :
  exists b, l = dropWhiteEnd l ++ b /\ forallb isWhiteSpace b = true.
Proof.
  unfold dropWhiteEnd. destruct (dropWhite_suffix (rev l)) as (a & Ha & Hw).
  exists (rev a). split.
  - rewrite <- rev_app_distr, <- Ha. now rewrite rev_involutive.
  - rewrite forallb_forall in *. intros x Hx%in_rev. auto.
Qed.

Lemma dropWhite_white_app (a l : list string) :
  forallb isWhiteSpace a = true -> dropWhite (a ++ l) = dropWhite l.
Proof.
  induction a as [|ch a IH]; [reflexivity|]. cbn [forallb].
  intros [Hc Ha]%andb_true_iff. simpl. rewrite Hc. auto.
Qed.

Lemma dropWhite_white (a : list string) :
  forallb isWhiteSpace a = true -> dropWhite a = [].
Proof.
  intros H. rewrite <- (app_nil_r a). now rewrite dropWhite_white_app.
Qed.

Lemma dropWhite_nil_white (l : list string) :
  dropWhite l = [] -> forallb isWhiteSpace l = true.
Proof.
  induction l as [|ch l IH]; [reflexivity|]. simpl.
  destruct (isWhiteSpace ch); [exact IH | discriminate].
Qed.

Lemma forallb_rev (f : string -> bool) (l : list string) :
  forallb f (rev l) = forallb f l.
Proof.
  destruct (forallb f l) eqn:E.
  - rewrite forallb_forall in *. intros x Hx%in_rev. auto.
  - destruct (forallb f (rev l)) eqn:E'; [|reflexivity].
    rewrite <- E. symmetry. rewrite forallb_forall in *.
    intros x Hx%in_rev. auto.
Qed.

Lemma dropWhiteEnd_app_white (l b : list string) :
  forallb isWhiteSpace b = true -> dropWhiteEnd (l ++ b) = dropWhiteEnd l.
Proof.
  intros H. unfold dropWhiteEnd. rewrite rev_app_distr.
  rewrite dropWhite_white_app; [reflexivity|]. now rewrite forallb_rev.
Qed.

Lemma dropWhiteEnd_snoc (l : list string) (ch : string) :
  isWhiteSpace ch = false -> dropWhiteEnd (l ++ [ch]) = l ++ [ch].
Proof.
  intros H. unfold dropWhiteEnd. rewrite rev_app_distr. simpl. rewrite H.
  simpl. now rewrite rev_involutive.
Qed.

Lemma dropWhiteEnd_nil_white (l : list string) :
  dropWhiteEnd l = [] -> forallb isWhiteSpace l = true.
Proof.
  unfold dropWhiteEnd. intros H. rewrite <- forallb_rev.
  apply dropWhite_nil_white. apply (f_equal (@rev string)) in H.
  now rewrite rev_involutive in H.
Qed.

Lemma dropWhite_upper (l : list string) :
  dropWhite (flat_map upperOf l) = flat_map upperOf (dropWhite l).
Proof.
  induction l as [|ch l IH]; [reflexivity|]. cbn [flat_map dropWhite].
  destruct (isWhiteSpace ch) eqn:E.
  - rewrite (upperOf_white _ E). simpl. now rewrite E.
  - destruct (upperOf_not_white _ E) as [Hne Hall]. cbn [flat_map].
    destruct (upperOf ch) as [|p ps]; [congruence|].
    inversion Hall; subst. simpl. now rewrite H1.
Qed.

Lemma dropWhiteEnd_upper (l : list string) :
  dropWhiteEnd (flat_map upperOf l) = flat_map upperOf (dropWhiteEnd l).
Proof.
  induction l as [|ch l IH] using rev_ind; [reflexivity|].
  rewrite flat_map_app. cbn [flat_map]. rewrite app_nil_r.
  destruct (isWhiteSpace ch) eqn:E.
  - rewrite (upperOf_white _ E).
    rewrite !dropWhiteEnd_app_white by (simpl; now rewrite E). exact IH.
  - rewrite (dropWhiteEnd_snoc _ _ E), flat_map_app. cbn [flat_map].
    rewrite app_nil_r. destruct (upperOf_not_white _ E) as [Hne Hall].
    destruct (exists_last Hne) as (ps & p & Hlast). rewrite Hlast in *.
    apply Forall_app in Hall as [_ Hp]. inversion Hp; subst.
    rewrite app_assoc. now apply dropWhiteEnd_snoc.
Qed.

Lemma trimChars_upper (l : list string) :
  trimChars (flat_map upperOf l) = flat_map upperOf (trimChars l).
Proof. unfold trimChars. now rewrite dropWhite_upper, dropWhiteEnd_upper. Qed.

Lemma dropWhiteEnd_idem (l : list string) :
  dropWhiteEnd (dropWhiteEnd l) = dropWhiteEnd l.
Proof.
  unfold dropWhiteEnd. rewrite rev_involutive.
  now rewrite (headed_dropWhite _ (dropWhite_headed _)).
Qed.

Lemma trimChars_headed (l : list string) : headed (trimChars l).
Proof.
  unfold trimChars. destruct (dropWhiteEnd_prefix (dropWhite l)) as (b & Hb & _).
  apply (headed_app_l _ b). rewrite <- Hb. apply dropWhite_headed.
Qed.

Lemma trimChars_idem (l : list string) : trimChars (trimChars l) = trimChars l.
Proof.
  unfold trimChars at 1. rewrite (headed_dropWhite _ (trimChars_headed l)).
  unfold trimChars. apply dropWhiteEnd_idem.
Qed.

Lemma trimChars_white (l : list string) :
  forallb isWhiteSpace l = true -> trimChars l = [].
Proof. intros H. unfold trimChars. now rewrite (dropWhite_white _ H). Qed.

Lemma trimChars_nil_white (l : list string) :
  trimChars l = [] -> forallb isWhiteSpace l = true.
Proof.
  unfold trimChars. intros H%dropWhiteEnd_nil_white.
  destruct (dropWhite_suffix l) as (a & Ha & Hw). rewrite Ha.
  rewrite forallb_app. now rewrite Hw, H.
Qed.

(** White space on either side of a list is removed with the list's own. *)
Lemma trimChars_padded (a l b : list string) :
  forallb isWhiteSpace a = true -> forallb isWhiteSpace b = true ->
  trimChars (a ++ l ++ b) = trimChars l.
Proof.
  intros Ha Hb. unfold trimChars. rewrite (dropWhite_white_app _ _ Ha).
  destruct (dropWhite_suffix l) as (a' & Hl & Ha').
  destruct (dropWhite l) as [|ch m] eqn:E.
  - rewrite app_nil_r in Hl. subst a'.
    rewrite <- (app_nil_r (l ++ b)), dropWhite_white_app; [reflexivity|].
    rewrite forallb_app. now rewrite Ha', Hb.
  - rewrite Hl at 1. rewrite <- app_assoc, (dropWhite_white_app _ _ Ha').
    pose proof (dropWhite_headed l) as Hh. rewrite E in Hh.
    rewrite (headed_dropWhite ((ch :: m) ++ b)) by exact Hh.
    now apply dropWhiteEnd_app_white.
Qed.

Lemma areChars_trimChars (l : list string) :
  areChars l = true -> areChars (trimChars l) = true.
Proof.
  intros H. unfold trimChars.
  destruct (dropWhite_suffix l) as (a & Ha & _).
  destruct (dropWhiteEnd_prefix (dropWhite l)) as (b & Hb & _).
  rewrite Ha in H. apply areChars_app_r in H. rewrite Hb in H.
  now apply areChars_app_l in H.
Qed.

(** *** The characters of trimmed and upper case strings *)

Lemma chars_toUpperCase (s : string) :
  chars (toUpperCase s) = flat_map upperOf (chars s).
Proof. apply chars_join, areChars_upper, areChars_chars. Qed.

Lemma chars_trim (s : string) : chars (trim s) = trimChars (chars s).
Proof. apply chars_join, areChars_trimChars, areChars_chars. Qed.

Lemma toUpperCase_idem (s : string) : toUpperCase (toUpperCase s) = toUpperCase s.
Proof.
  unfold toUpperCase at 1. rewrite chars_toUpperCase. now rewrite upper_idem.
Qed.

Lemma trim_idem (s : string) : trim (trim s) = trim s.
Proof. unfold trim at 1. rewrite chars_trim. now rewrite trimChars_idem. Qed.

Lemma toUpperCase_trim (s : string) :
  toUpperCase (trim s) = trim (toUpperCase s).
Proof.
  unfold toUpperCase at 1. rewrite chars_trim. unfold trim.
  now rewrite chars_toUpperCase, trimChars_upper.
Qed.

(** The normalised text of a value is its own normalised text. *)
Lemma normalised_idem (t : string) :
  trim (toUpperCase (trim (toUpperCase t))) = trim (toUpperCase t).
Proof. now rewrite toUpperCase_trim, toUpperCase_idem, trim_idem. Qed.

Lemma toUpperCase_blank (s : string) : isBlank s = true -> toUpperCase s = s.
Proof.
  unfold isBlank, toUpperCase. intros H.
  now rewrite (upper_white _ H), join_chars.
Qed.

Lemma trim_blank (s : string) : isBlank s = true -> trim s = "".
Proof. unfold isBlank, trim. intros H. now rewrite (trimChars_white _ H). Qed.

(** [trim] gives the empty string exactly on blank strings. *)
Lemma trim_empty_iff (s : string) : trim s = "" <-> isBlank s = true.
Proof.
  split; [|apply trim_blank]. unfold trim, isBlank. intros H.
  apply trimChars_nil_white. apply join_empty; [|exact H].
  apply areChars_nonempty, areChars_trimChars, areChars_chars.
Qed.

Lemma blank_full (s : string) :
  isBlank s = true -> forallb isFull (chars s) = true.
Proof.
  unfold isBlank. rewrite !forallb_forall. intros H ch Hch.
  apply white_full. auto.
Qed.

(** White space around a text whose characters are all full is trimmed
    away with the text's own. *)
Lemma trim_padded (a u b : string) :
  isBlank a = true -> isBlank b = true ->
  forallb isFull (chars u) = true ->
  trim (a +:+ u +:+ b) = trim u.
Proof.
  intros Ha Hb Hu. unfold trim.
  rewrite (chars_app a _ (blank_full a Ha)), (chars_app u b Hu).
  now rewrite (trimChars_padded _ _ _ Ha Hb).
Qed.

Lemma toUpperCase_padded (a u b : string) :
  isBlank a = true -> isBlank b = true ->
  forallb isFull (chars u) = true ->
  toUpperCase (a +:+ u +:+ b) = a +:+ toUpperCase u +:+ b.
Proof.
  intros Ha Hb Hu. unfold toUpperCase.
  rewrite (chars_app a _ (blank_full a Ha)), (chars_app u b Hu).
  rewrite !flat_map_app, !join_app.
  now rewrite (upper_white _ Ha), (upper_white _ Hb), !join_chars.
Qed.

End CaseFacts.

(** ** Texts *)

Section TextFacts.

Import JsString.

Lemma full_upper (l : list string) :
  forallb isFull l = true -> forallb isFull (flat_map upperOf l) = true.
Proof.
  induction l as [|ch l IH]; [reflexivity|]. cbn [forallb flat_map].
  intros [Hc Hl]%andb_true_iff. rewrite forallb_app, (IH Hl), andb_true_r.
  destruct (upperOf_cases ch) as [E | (_ & _ & _ & Hs)].
  - rewrite E. simpl. now rewrite Hc.
  - apply forallb_forall. rewrite Forall_forall in Hs.
    intros p Hp%list_elem_of_In. now destruct (Hs p Hp) as (_ & _ & _ & H).
Qed.

(** A string whose upper case has full characters only has full characters
    only. *)
Lemma full_of_upper (w : string) :
  forallb isFull (chars (toUpperCase w)) = true ->
  forallb isFull (chars w) = true.
Proof.
  rewrite chars_toUpperCase. pose proof (areChars_chars w) as H.
  induction (chars w) as [|ch l IH]; [reflexivity|].
  cbn [areChars flat_map forallb] in *.
  apply andb_true_iff in H as [[Hc Hf]%andb_true_iff Hl].
  rewrite forallb_app. intros [Hu Hrest]%andb_true_iff.
  rewrite (IH Hl Hrest), andb_true_r.
  destruct (isFull ch) eqn:E; [reflexivity|].
  unfold upperOf in Hu. destruct (decode ch) as [n|] eqn:Ed.
  - apply decode_full in Ed. congruence.
  - simpl in Hu. now rewrite E in Hu.
Qed.

Lemma upper_nil (l : list string) : flat_map upperOf l = [] -> l = [].
Proof.
  destruct l as [|ch l]; [reflexivity|]. simpl. intros [H _]%app_eq_nil.
  destruct (upperOf_cases ch) as [E | (_ & _ & Hne & _)]; congruence.
Qed.

Lemma toUpperCase_empty (s : string) : toUpperCase s = "" -> s = "".
Proof.
  intros H. apply (f_equal chars) in H. rewrite chars_toUpperCase in H.
  apply upper_nil in H. rewrite <- (join_chars s). now rewrite H.
Qed.

(** The trimmed string lies inside the string. *)
Lemma trim_infix (s : string) : exists a b, s = a +:+ trim s +:+ b.
Proof.
  destruct (dropWhite_suffix (chars s)) as (a & Ha & _).
  destruct (dropWhiteEnd_prefix (dropWhite (chars s))) as (b & Hb & _).
  exists (join a), (join b). rewrite <- (join_chars s) at 1.
  rewrite Ha, Hb at 1. now rewrite !join_app.
Qed.

Lemma includes_trim (s p : string) :
  includes (trim s) p = true -> includes s p = true.
Proof.
  rewrite !includes_spec. intros (a & b & H).
  destruct (trim_infix s) as (a0 & b0 & E).
  exists (a0 +:+ a), (b +:+ b0). rewrite E at 1. rewrite H.
  now rewrite !append_assoc.
Qed.

Lemma includes_colon_app (a b : string) :
  includes (a +:+ b) ":" = includes a ":" || includes b ":".
Proof.
  induction a as [|c a IH]; [reflexivity|].
  change (String c a +:+ b) with (String c (a +:+ b)).
  cbn [includes isPrefix]. rewrite IH. now rewrite !andb_true_r, orb_assoc.
Qed.

Lemma includes_colon_join (l : list string) :
  includes (join l) ":" = existsb (fun ch => includes ch ":") l.
Proof.
  induction l as [|ch l IH]; [reflexivity|]. simpl join.
  now rewrite includes_colon_app, IH.
Qed.

(** The upper case of a text has a colon only if the text has one. *)
Lemma includes_toUpperCase_colon (s : string) :
  includes (toUpperCase s) ":" = true -> includes s ":" = true.
Proof.
  unfold toUpperCase. rewrite <- (join_chars s) at 2.
  rewrite !includes_colon_join.
  intros (p & (ch & Hch & Hp)%in_flat_map & Hcolon)%existsb_exists.
  apply existsb_exists. exists ch. split; [exact Hch|].
  destruct (upperOf_cases ch) as [E | (_ & _ & _ & Hs)].
  - rewrite E in Hp. destruct Hp as [<- | []]. exact Hcolon.
  - rewrite Forall_forall in Hs. apply list_elem_of_In in Hp.
    destruct (Hs p Hp) as (_ & _ & H & _). congruence.
Qed.

(** White space has no letter s. *)
Lemma white_no_s :
  forallb
    (fun ch => forallb (fun c => negb (Ascii.eqb "s" c)) (list_ascii_of_string ch))
    (encode <$> whiteSpaces) = true.
Proof. vm_compute. reflexivity. Qed.

Lemma includes_skip (w x p : string) :
  forallb (fun c => negb (Ascii.eqb "s" c)) (list_ascii_of_string w) = true ->
  includes (w +:+ x) (String "s" p) = includes x (String "s" p).
Proof.
  induction w as [|c w IH]; [reflexivity|]. cbn [list_ascii_of_string forallb].
  intros [Hc Hw]%andb_true_iff. apply negb_true_iff in Hc.
  change (String c w +:+ x) with (String c (w +:+ x)).
  cbn [includes isPrefix]. now rewrite Hc, (IH Hw).
Qed.

Lemma includes_blank_s (gap x p : string) :
  isBlank gap = true ->
  includes (gap +:+ x) (String "s" p) = includes x (String "s" p).
Proof.
  unfold isBlank. rewrite <- (join_chars gap) at 2.
  induction (chars gap) as [|ch l IH]; [reflexivity|]. cbn [forallb join].
  intros [Hc Hl]%andb_true_iff. rewrite append_assoc.
  rewrite (includes_skip ch _ p (white_forall _ white_no_s ch Hc)). auto.
Qed.

Lemma blank_empty : isBlank "" = true.
Proof. reflexivity. Qed.

Lemma blank_nonempty (s : string) : isBlank s = false -> s <> "".
Proof. now intros H ->. Qed.

End TextFacts.

(** ** Status classification *)

Section StatusFacts.

Import Js.

Lemma getStatusInfo_classify (a : value) :
  (forall x, a = VNum x -> JsNumber.truthy x = true) ->
  Express.getStatusInfo a = Spec.classify a.
Proof.
  intros Hnum. unfold Express.getStatusInfo, Spec.classify.
  assert (Hcascade :
    (let strValue := JsString.trim (JsString.toUpperCase (toString a)) in
     if JsString.arrayIncludes ["ACTIVE"; "PASS"; "ENABLED"; "UNSUSPENDED"] strValue
     then {| status := strValue; color := "#00B050"; type := "success" |}
     else if JsString.arrayIncludes ["OFF"; "FAILED"; "INACTIVE"; "SUSPENDED"] strValue
     then {| status := strValue; color := "#FF0000"; type := "error" |}
     else if JsString.arrayIncludes ["PENDING"] strValue
     then {| status := strValue; color := "#FFC000"; type := "warning" |}
     else if Regex.test Regex.timePattern strValue then
       if String.eqb strValue "00:00"
       then {| status := strValue; color := "#d9d9d9"; type := "default" |}
       else {| status := strValue; color := "#0070C0"; type := "processing" |}
     else if Regex.test Regex.datePattern strValue
     then {| status := strValue; color := "#7030A0"; type := "purple" |}
     else if String.eqb strValue "NA"
     then {| status := "NA"; color := "#d9d9d9"; type := "default" |}
     else {| status := strValue; color := "#0070C0"; type := "info" |})
    = Spec.firstMatch Spec.rules (Spec.bundle "#0070C0" "info") (Spec.normalised a)).
  { unfold Spec.normalised, Spec.rules, Spec.firstMatch, Spec.bundle. cbv zeta.
    set (S := JsString.trim (JsString.toUpperCase (toString a))).
    rewrite <- !arrayIncludes_oneOf, timePattern_spec, datePattern_spec.
    replace (JsString.arrayIncludes ["NA"] S) with (String.eqb S "NA")
      by (unfold JsString.arrayIncludes; simpl; now rewrite orb_false_r).
    destruct (JsString.arrayIncludes ["ACTIVE"; "PASS"; "ENABLED"; "UNSUSPENDED"] S);
      [reflexivity|].
    destruct (JsString.arrayIncludes ["OFF"; "FAILED"; "INACTIVE"; "SUSPENDED"] S);
      [reflexivity|].
    destruct (JsString.arrayIncludes ["PENDING"] S); [reflexivity|].
    destruct (Spec.isTimeText S); simpl.
    - destruct (String.eqb S "00:00"); reflexivity.
    - destruct (Spec.isDateText S); [reflexivity|].
      destruct (String.eqb S "NA"); reflexivity. }
  destruct a as [s|x].
  - destruct s as [|c s]; [reflexivity|]. exact Hcascade.
  - simpl truthy. rewrite (Hnum x eq_refl). exact Hcascade.
Qed.

End StatusFacts.

(** ** Cell formatting: what a resolved value can be *)

Section ResolvedFacts.

Import Js.

Lemma resolved_number_truthy (worksheet : XLSX.worksheet) (row col : nat)
  (x : JsNumber.number) :
  XLSX.wfCell (worksheet row col) = true ->
  Express.getFormattedCellValue worksheet row col = VNum x ->
  JsNumber.truthy x = true.
Proof.
  unfold Express.getFormattedCellValue, XLSX.wfCell, XLSX.wfNumber.
  destruct (worksheet row col) as [cell|]; [|discriminate].
  intros Hwf.
  assert (Hraw :
    match XLSX.v cell with
    | Some (VNum y) =>
        if JsNumber.geb y (JsNumber.ofZ 0) && JsNumber.ltb y (JsNumber.ofZ 1)
        then Express.convertExcelTime (VNum y) else VNum y
    | Some (VStr t) => VStr t
    | None => VStr ""
    end = VNum x -> JsNumber.truthy x = true).
  { destruct (XLSX.v cell) as [[t|y]|]; try discriminate.
    apply andb_true_iff in Hwf as [_ Hnan].
    destruct (JsNumber.geb y (JsNumber.ofZ 0) && JsNumber.ltb y (JsNumber.ofZ 1)) eqn:E.
    - simpl. discriminate.
    - intros [= <-]. destruct y as [sg|sg| |sg m e]; try reflexivity.
      + destruct sg; discriminate.
      + discriminate. }
  destruct (XLSX.w cell) as [t|]; [|exact Hraw].
  destruct (truthy (VStr t)); [discriminate | exact Hraw].
Qed.

End ResolvedFacts.

(** * The claims *)

(** C2. Status classification applies the rules of the specification in
    their order, first match wins, on the uppercased and trimmed text: for
    every resolved cell value (and for every text) the code computes the
    rule table [Spec.classify]; a text whose upper case is "ACTIVE", that
    is "active" in any letter case, with any white space of JavaScript
    around it (NO-BREAK SPACE and the other Unicode spaces included), is
    classified ACTIVE, #00B050, success; the text "05-Jan" is classified
    purple, #7030A0. *)
Theorem status_classification_first_match :
  (forall (worksheet : XLSX.worksheet) (row col : nat),
     XLSX.wfCell (worksheet row col) = true ->
     Express.getStatusInfo (Express.getFormattedCellValue worksheet row col)
     = Spec.classify (Express.getFormattedCellValue worksheet row col))
  /\ (forall s : string,
        Express.getStatusInfo (Js.VStr s) = Spec.classify (Js.VStr s))
  /\ (forall before word after : string,
        JsString.isBlank before = true ->
        JsString.isBlank after = true ->
        JsString.toUpperCase word = "ACTIVE" ->
        Express.getStatusInfo (Js.VStr (before +:+ word +:+ after))
        = {| status := "ACTIVE"; color := "#00B050"; type := "success" |})
  /\ Express.getStatusInfo (Js.VStr "05-Jan")
     = {| status := "05-JAN"; color := "#7030A0"; type := "purple" |}.
Proof.
  split; [|split; [|split]].
  - intros worksheet row col Hwf. apply getStatusInfo_classify.
    intros x Hx. now apply (resolved_number_truthy worksheet row col).
  - intros s. apply getStatusInfo_classify. intros x [=].
  - intros before word after Hb Ha Hw.
    assert (Hfull : forallb JsString.isFull (JsString.chars word) = true).
    { apply full_of_upper. now rewrite Hw. }
    assert (Hnorm : JsString.trim (JsString.toUpperCase (before +:+ word +:+ after))
                    = "ACTIVE").
    { rewrite (toUpperCase_padded _ _ _ Hb Ha Hfull), Hw.
      now rewrite (trim_padded _ _ _ Hb Ha). }
    unfold Express.getStatusInfo.
    replace (Js.truthy (Js.VStr (before +:+ word +:+ after))) with true.
    + simpl Js.toString. rewrite Hnorm. reflexivity.
    + simpl. destruct before; [|reflexivity]. simpl.
      destruct word; [discriminate | reflexivity].
  - reflexivity.
Qed.

Lemma status_classification_first_match_witness :
  Express.getStatusInfo (Express.getFormattedCellValue Sample.sheet 1 3)
  = Spec.classify (Express.getFormattedCellValue Sample.sheet 1 3).
Proof.
  apply (proj1 status_classification_first_match Sample.sheet 1 3).
  reflexivity.
Defined.

(** ** Canonical field names *)

Section FieldFacts.

Import Js.

Lemma orb_includes (label a b : string) :
  JsString.includes label a || JsString.includes label b
  || String.eqb label a = JsString.includes label a || JsString.includes label b.
Proof.
  destruct (JsString.includes label a) eqn:Ea; [reflexivity|].
  destruct (JsString.includes label b); [reflexivity|]. simpl.
  destruct (String.eqb label a) eqn:E; [|reflexivity].
  apply String.eqb_eq in E. subst label.
  apply includes_false in Ea. elim Ea. exists "", "".
  now rewrite append_empty_r.
Qed.

Lemma gap_detail_no_serial (gap p : string) :
  JsString.isBlank gap = true ->
  JsString.includes "detail" (String "s" p) = false ->
  JsString.includes (gap +:+ "detail") (String "s" p) = false.
Proof. intros Hgap Hd. now rewrite includes_blank_s. Qed.

Lemma cleanHeader_job_detail (header gap : string) :
  JsString.isBlank gap = true ->
  JsString.toLowerCase header = "job" +:+ gap +:+ "detail" ->
  Express.cleanHeader header = "Job Details".
Proof.
  intros Hgap Hlow. unfold Express.cleanHeader. rewrite Hlow, orb_includes.
  assert (H1 : JsString.includes ("job" +:+ gap +:+ "detail") "s.no" = false).
  { simpl "+:+". cbn [JsString.includes JsString.isPrefix]. simpl.
    now apply gap_detail_no_serial. }
  assert (H2 : JsString.includes ("job" +:+ gap +:+ "detail") "s no" = false).
  { simpl "+:+". cbn [JsString.includes JsString.isPrefix]. simpl.
    now apply gap_detail_no_serial. }
  assert (H3 : JsString.includes ("job" +:+ gap +:+ "detail") "detail" = true).
  { apply includes_spec. exists ("job" +:+ gap), "".
    now rewrite append_empty_r, append_assoc. }
  rewrite H1, H2, H3. reflexivity.
Qed.

Lemma subkey_not_proto (name suffix : string) :
  suffix = "_status" \/ suffix = "_color" \/ suffix = "_type" ->
  String.eqb (name +:+ suffix) "__proto__" = false.
Proof.
  intros H. apply String.eqb_neq. intros E.
  destruct H as [-> | [-> | ->]];
    do 10 (destruct name as [|? name]; [discriminate E|]; try discriminate E).
Qed.

Lemma set_lookup_same (o : gmap string value) (k : string) (a : value) :
  k <> "__proto__" -> set o k a !! k = Some a.
Proof.
  intros H. unfold set. apply String.eqb_neq in H. rewrite H.
  apply lookup_insert_eq.
Qed.

Lemma set_lookup_other (o : gmap string value) (k k' : string) (a : value) :
  k <> k' -> set o k a !! k' = o !! k'.
Proof.
  intros H. unfold set. destruct (String.eqb k "__proto__"); [reflexivity|].
  now apply lookup_insert_ne.
Qed.

Lemma set_subkey (o : gmap string value) (name suffix : string) (a : value) :
  suffix = "_status" \/ suffix = "_color" \/ suffix = "_type" ->
  set o (name +:+ suffix) a = <[name +:+ suffix := a]> o.
Proof. intros H. unfold set. now rewrite subkey_not_proto. Qed.

Lemma name_not_subkey (name suffix : string) :
  suffix <> "" -> name <> name +:+ suffix.
Proof.
  intros Hs E. induction name as [|c name IH]; simpl in E.
  - now subst.
  - injection E as E. now apply IH.
Qed.

Lemma append_inj_l (name s1 s2 : string) :
  name +:+ s1 = name +:+ s2 -> s1 = s2.
Proof.
  induction name as [|c name IH]; simpl; [auto|]. intros [= E]. now apply IH.
Qed.

End FieldFacts.

(** C7. The canonical field name of a header label is decided by
    case-insensitive substring rules, first match wins: "s.no" or "s no"
    gives S.No; otherwise "job" together with "detail" gives Job Details;
    otherwise "comment" gives Comments; otherwise the label itself.  A label
    that reads "job", any white space, "detail" in any case maps to Job
    Details.  Exactly the three canonical names are stored without a status
    bundle: storing under one of them changes no other key, storing under
    any other name also sets its _status, _color and _type keys from
    [getStatusInfo]. *)
Theorem canonical_field_name_rules :
  (forall header : string,
     let label := JsString.toLowerCase header in
     (Spec.Contains label "s.no" \/ Spec.Contains label "s no" ->
      Express.cleanHeader header = "S.No")
     /\ (~ Spec.Contains label "s.no" -> ~ Spec.Contains label "s no" ->
         Spec.Contains label "job" -> Spec.Contains label "detail" ->
         Express.cleanHeader header = "Job Details")
     /\ (~ Spec.Contains label "s.no" -> ~ Spec.Contains label "s no" ->
         ~ (Spec.Contains label "job" /\ Spec.Contains label "detail") ->
         Spec.Contains label "comment" ->
         Express.cleanHeader header = "Comments")
     /\ (~ Spec.Contains label "s.no" -> ~ Spec.Contains label "s no" ->
         ~ (Spec.Contains label "job" /\ Spec.Contains label "detail") ->
         ~ Spec.Contains label "comment" ->
         Express.cleanHeader header = header))
  /\ (forall header gap : string,
        JsString.isBlank gap = true ->
        JsString.toLowerCase header = "job" +:+ gap +:+ "detail" ->
        Express.cleanHeader header = "Job Details")
  /\ (forall (rowData : gmap string Js.value) (header : string)
        (cellValue : Js.value),
        let name := Express.cleanHeader header in
        let stored := Express.storeCell rowData header cellValue in
        (name <> "__proto__" ->
         stored !! name = Some (Js.or cellValue (Js.VStr "")))
        /\ (name ∈ ["S.No"; "Job Details"; "Comments"] ->
            forall key, key <> name -> stored !! key = rowData !! key)
        /\ (name ∉ ["S.No"; "Job Details"; "Comments"] ->
            stored !! (name +:+ "_status")
            = Some (Js.VStr (status (Express.getStatusInfo cellValue)))
            /\ stored !! (name +:+ "_color")
               = Some (Js.VStr (color (Express.getStatusInfo cellValue)))
            /\ stored !! (name +:+ "_type")
               = Some (Js.VStr (type (Express.getStatusInfo cellValue))))).
Proof.
  split; [|split].
  - intros header label. unfold Express.cleanHeader. fold label.
    rewrite orb_includes.
    repeat split.
    + intros [H|H]; apply includes_spec in H; rewrite H; [reflexivity|].
      now rewrite orb_true_r.
    + intros H1%includes_false H2%includes_false H3%includes_spec H4%includes_spec.
      now rewrite H1, H2, H3, H4.
    + intros H1%includes_false H2%includes_false H3 H4%includes_spec.
      rewrite H1, H2, H4. simpl.
      destruct (JsString.includes label "job") eqn:Ej;
        destruct (JsString.includes label "detail") eqn:Ed; try reflexivity.
      elim H3. split; now apply includes_spec.
    + intros H1%includes_false H2%includes_false H3 H4%includes_false.
      rewrite H1, H2, H4. simpl.
      destruct (JsString.includes label "job") eqn:Ej;
        destruct (JsString.includes label "detail") eqn:Ed; try reflexivity.
      elim H3. split; now apply includes_spec.
  - apply cleanHeader_job_detail.
  - intros rowData header cellValue name stored. subst stored.
    unfold Express.storeCell. fold name.
    assert (Hsub : forall sfx, sfx = "_status" \/ sfx = "_color" \/ sfx = "_type" ->
                               name <> name +:+ sfx).
    { intros sfx H. apply name_not_subkey. destruct H as [->|[->| ->]]; discriminate. }
    destruct (JsString.arrayIncludes ["S.No"; "Job Details"; "Comments"] name) eqn:E;
      simpl negb; cbv iota.
    + apply arrayIncludes_spec in E. split; [|split].
      * intros Hn. now apply set_lookup_same.
      * intros _ key Hk. apply set_lookup_other. congruence.
      * intros Hn. elim Hn. now apply list_elem_of_In.
    + assert (Hn : name ∉ ["S.No"; "Job Details"; "Comments"]).
      { intros H%list_elem_of_In%arrayIncludes_spec. congruence. }
      rewrite !set_subkey by auto. split; [|split].
      * intros Hp. rewrite !lookup_insert_ne by (apply not_eq_sym, Hsub; auto).
        now apply set_lookup_same.
      * intros H. contradiction.
      * intros _. split; [|split].
        -- rewrite !lookup_insert_ne by (intros H%append_inj_l; discriminate H).
           apply lookup_insert_eq.
        -- rewrite lookup_insert_ne by (intros H%append_inj_l; discriminate H).
           apply lookup_insert_eq.
        -- apply lookup_insert_eq.
Qed.

Lemma canonical_field_name_rules_witness :
  Express.cleanHeader "Job   Detail" = "Job Details".
Proof.
  apply (proj1 (proj2 canonical_field_name_rules) "Job   Detail" "   ");
    reflexivity.
Defined.

(** C6. Header extraction yields one label per column of the range, in
    column order: the resolved value of the header-row cell, or, when that
    value is the empty string (the cell is empty or absent), the placeholder
    "Column" followed by the column's 1-based number in the sheet. *)
Theorem header_extraction_labels :
  forall (worksheet : XLSX.worksheet) (range : XLSX.range),
    let first := XLSX.c (XLSX.s range) in
    let width := XLSX.c (XLSX.e range) + 1 - first in
    length (Express.extractHeaders worksheet range) = width
    /\ forall i : nat,
         i < width ->
         XLSX.wfCell (worksheet (XLSX.r (XLSX.s range)) (first + i)) = true ->
         Express.extractHeaders worksheet range !! i
         = Some
             match Express.getFormattedCellValue worksheet
                     (XLSX.r (XLSX.s range)) (first + i) with
             | Js.VStr EmptyString =>
                 Js.VStr ("Column" +:+ JsString.ofNat (first + i + 1))
             | resolved => resolved
             end.
Proof.
  intros worksheet range first width.
  unfold Express.extractHeaders, Express.columns. fold first. fold width.
  split.
  - now rewrite length_fmap, length_seq.
  - intros i Hi Hwf. rewrite list_lookup_fmap, (lookup_seq_lt _ _ _ Hi). simpl.
    destruct (Express.getFormattedCellValue worksheet (XLSX.r (XLSX.s range))
                (first + i)) as [t|x] eqn:E.
    + destruct t; reflexivity.
    + unfold Js.or. simpl.
      now rewrite (resolved_number_truthy _ _ _ _ Hwf E).
Qed.

Lemma header_extraction_labels_witness :
  Express.extractHeaders Sample.sheet Sample.range !! 2 = Some (Js.VStr "Column3").
Proof.
  apply (proj2 (header_extraction_labels Sample.sheet Sample.range) 2).
  - simpl. lia.
  - reflexivity.
Defined.

(** ** Keys of a candidate row record *)

#[local] Arguments JsString.startsWith : simpl never.

Section RowFacts.

Import Js.

Lemma dom_set (o : gmap string value) (k key : string) (a : value) :
  key ∈ dom (set o k a) <-> key ∈ dom o \/ (key = k /\ k <> "__proto__").
Proof.
  unfold set. destruct (String.eqb k "__proto__") eqn:E.
  - apply String.eqb_eq in E. split; [auto | intros [H|[_ H]]; [exact H | contradiction]].
  - apply String.eqb_neq in E. rewrite dom_insert, elem_of_union, elem_of_singleton.
    split; intros [H|H]; auto. destruct H as [-> _]. now left.
Qed.

Lemma dom_storeCell (rowData : gmap string value) (header key : string)
  (cellValue : value) :
  key ∈ dom (Express.storeCell rowData header cellValue) <->
  key ∈ dom rowData
  \/ (key = Express.cleanHeader header /\ Express.cleanHeader header <> "__proto__")
  \/ ((Express.cleanHeader header ∉ ["S.No"; "Job Details"; "Comments"])
      /\ (key = Express.cleanHeader header +:+ "_status"
          \/ key = Express.cleanHeader header +:+ "_color"
          \/ key = Express.cleanHeader header +:+ "_type")).
Proof.
  unfold Express.storeCell. set (name := Express.cleanHeader header).
  destruct (JsString.arrayIncludes ["S.No"; "Job Details"; "Comments"] name) eqn:E;
    simpl negb; cbv iota.
  - apply arrayIncludes_spec, list_elem_of_In in E. rewrite dom_set. tauto.
  - assert (Hn : name ∉ ["S.No"; "Job Details"; "Comments"]).
    { intros H%list_elem_of_In%arrayIncludes_spec. congruence. }
    rewrite !set_subkey by auto.
    rewrite !dom_insert, !elem_of_union, !elem_of_singleton, dom_set. tauto.
Qed.

Lemma forEach_app {A S : Type} (body : S -> A -> outcome S) (l1 l2 : list A)
  (st : S) :
  forEach body (l1 ++ l2) st = bind (forEach body l1 st) (forEach body l2).
Proof.
  revert st. induction l1 as [|a l1 IH]; intros st; simpl; [reflexivity|].
  destruct (body st a); simpl; [apply IH | reflexivity].
Qed.

(** What one column adds to the record under construction. *)
Lemma processColumn_dom (worksheet : XLSX.worksheet) (headers : list value)
  (range : XLSX.range) (row col : nat) (rowData rowData' : gmap string value)
  (key : string) :
  Express.processColumn worksheet headers range row rowData col = Returned rowData' ->
  (key ∈ dom rowData' <->
   key ∈ dom rowData
   \/ exists header,
        headers !! (col - XLSX.c (XLSX.s range)) = Some (VStr header)
        /\ header <> ""
        /\ JsString.startsWith header "Column" = false
        /\ ((key = Express.cleanHeader header
             /\ Express.cleanHeader header <> "__proto__")
            \/ ((Express.cleanHeader header ∉ ["S.No"; "Job Details"; "Comments"])
                /\ (key = Express.cleanHeader header +:+ "_status"
                    \/ key = Express.cleanHeader header +:+ "_color"
                    \/ key = Express.cleanHeader header +:+ "_type")))).
Proof.
  unfold Express.processColumn. intros H.
  destruct (headers !! (col - XLSX.c (XLSX.s range))) as [[h|x]|] eqn:Eh;
    cbn [truthyOpt truthy] in H.
  - destruct (String.eqb h "") eqn:Ee; cbn [negb] in H.
    + apply String.eqb_eq in Ee. injection H as <-. split; [auto|].
      intros [Hk|(header & [= <-] & Hne & _)]; [exact Hk | contradiction].
    + apply String.eqb_neq in Ee.
      destruct (JsString.startsWith h "Column") eqn:Es; injection H as <-.
      * split; [auto|].
        intros [Hk|(header & [= <-] & _ & Hs & _)]; [exact Hk | congruence].
      * rewrite dom_storeCell. split.
        -- intros [Hk|Hk]; [now left | right]. exists h. auto.
        -- intros [Hk|(header & [= <-] & _ & _ & Hk)]; [now left | now right].
  - destruct (JsNumber.truthy x); cbn [negb] in H; [discriminate|].
    injection H as <-. split; [auto|]. intros [Hk|(header & [=] & _)]. exact Hk.
  - cbn [negb] in H. injection H as <-. split; [auto|].
    intros [Hk|(header & [=] & _)]. exact Hk.
Qed.

Lemma forEach_processColumn_dom (worksheet : XLSX.worksheet)
  (headers : list value) (range : XLSX.range) (row : nat) (cols : list nat)
  (rowData rowData' : gmap string value) (key : string) :
  forEach (Express.processColumn worksheet headers range row) cols rowData
  = Returned rowData' ->
  (key ∈ dom rowData' <->
   key ∈ dom rowData
   \/ exists col header,
        col ∈ cols
        /\ headers !! (col - XLSX.c (XLSX.s range)) = Some (VStr header)
        /\ header <> ""
        /\ JsString.startsWith header "Column" = false
        /\ ((key = Express.cleanHeader header
             /\ Express.cleanHeader header <> "__proto__")
            \/ ((Express.cleanHeader header ∉ ["S.No"; "Job Details"; "Comments"])
                /\ (key = Express.cleanHeader header +:+ "_status"
                    \/ key = Express.cleanHeader header +:+ "_color"
                    \/ key = Express.cleanHeader header +:+ "_type")))).
Proof.
  revert rowData. induction cols as [|col cols IH]; intros rowData; simpl.
  - intros [= <-]. split; [auto|]. intros [H|(col & header & Hin & _)]; [exact H|].
    now apply not_elem_of_nil in Hin.
  - destruct (Express.processColumn worksheet headers range row rowData col)
      as [mid|] eqn:E; simpl; [|discriminate].
    intros H. rewrite (IH _ H), (processColumn_dom _ _ _ _ _ _ _ key E). split.
    + intros [[Hk|(header & Hh)]|(c' & header & Hin & Hh)].
      * now left.
      * right. exists col, header. split; [apply elem_of_cons; now left | exact Hh].
      * right. exists c', header. split; [apply elem_of_cons; now right | exact Hh].
    + intros [Hk|(c' & header & Hin & Hh)].
      * left. now left.
      * apply elem_of_cons in Hin as [->|Hin].
        -- left. right. now exists header.
        -- right. now exists c', header.
Qed.

Lemma processColumn_returns (worksheet : XLSX.worksheet) (headers : list value)
  (range : XLSX.range) (row col : nat) (rowData : gmap string value) :
  (forall h, h ∈ headers -> exists t, h = VStr t) ->
  exists rowData',
    Express.processColumn worksheet headers range row rowData col = Returned rowData'.
Proof.
  intros Hstr. unfold Express.processColumn.
  destruct (headers !! (col - XLSX.c (XLSX.s range))) as [h|] eqn:Eh; simpl.
  - destruct (Hstr h) as [t ->]; [now apply list_elem_of_lookup_2 in Eh|].
    destruct (truthy (VStr t)); simpl; [|eauto].
    destruct (JsString.startsWith t "Column"); eauto.
  - eauto.
Qed.

Lemma buildRow_returns (worksheet : XLSX.worksheet) (headers : list value)
  (range : XLSX.range) (row : nat) :
  (forall h, h ∈ headers -> exists t, h = VStr t) ->
  exists rowData, Express.buildRow worksheet headers range row = Returned rowData.
Proof.
  intros Hstr. unfold Express.buildRow. generalize (∅ : gmap string value).
  induction (Express.columns range) as [|col cols IH]; intros rd; simpl; [eauto|].
  destruct (processColumn_returns worksheet headers range row col rd Hstr) as [rd' ->].
  simpl. apply IH.
Qed.

Lemma placeholder_startsWith (n : nat) :
  JsString.startsWith ("Column" +:+ JsString.ofNat n) "Column" = true.
Proof. reflexivity. Qed.

End RowFacts.

(** X23. What the column loop writes.  Every synthesized placeholder
    starts with "Column", and the guard of the loop is that prefix test: the
    keys of a candidate row record are exactly those written for the columns
    whose header is a non-empty text not starting with "Column", namely the
    canonical name (the key __proto__ excepted, which an assignment cannot
    create) and, unless the name is S.No, Job Details or Comments, its three
    status sub-keys.  The record is built whenever every header is a
    text. *)
Theorem columns_skipped_by_prefix :
  forall (worksheet : XLSX.worksheet) (headers : list Js.value)
    (range : XLSX.range) (row : nat),
    (forall n : nat,
       JsString.startsWith ("Column" +:+ JsString.ofNat n) "Column" = true)
    /\ ((forall h, h ∈ headers -> exists t, h = Js.VStr t) ->
        exists rowData,
          Express.buildRow worksheet headers range row = Js.Returned rowData)
    /\ forall rowData : gmap string Js.value,
         Express.buildRow worksheet headers range row = Js.Returned rowData ->
         forall key : string,
           key ∈ dom rowData <->
           exists (col : nat) (header : string),
             col ∈ Express.columns range
             /\ headers !! (col - XLSX.c (XLSX.s range)) = Some (Js.VStr header)
             /\ header <> ""
             /\ JsString.startsWith header "Column" = false
             /\ ((key = Express.cleanHeader header
                  /\ Express.cleanHeader header <> "__proto__")
                 \/ ((Express.cleanHeader header ∉ ["S.No"; "Job Details"; "Comments"])
                     /\ (key = Express.cleanHeader header +:+ "_status"
                         \/ key = Express.cleanHeader header +:+ "_color"
                         \/ key = Express.cleanHeader header +:+ "_type"))).
Proof.
  intros worksheet headers range row. split; [|split].
  - apply placeholder_startsWith.
  - apply buildRow_returns.
  - intros rowData H key. unfold Express.buildRow in H.
    rewrite (forEach_processColumn_dom _ _ _ _ _ _ _ key H).
    rewrite dom_empty. split; [|auto].
    intros [Hk|Hk]; [now apply not_elem_of_empty in Hk | exact Hk].
Qed.

Lemma columns_skipped_by_prefix_witness :
  exists rowData,
    Express.buildRow Sample.sheet
      (Express.extractHeaders Sample.sheet Sample.range) Sample.range 1
    = Js.Returned rowData.
Proof.
  apply (proj1 (proj2 (columns_skipped_by_prefix Sample.sheet
           (Express.extractHeaders Sample.sheet Sample.range) Sample.range 1))).
  intros h Hh. vm_compute in Hh.
  repeat (apply elem_of_cons in Hh as [->|Hh]; [eexists; reflexivity|]).
  now apply not_elem_of_nil in Hh.
Defined.

(** C4. The code departs from the specification, which skips a column only
    when its header is empty or a synthesized "Column{N}" placeholder and has
    every other column contribute its field.  The guard of the column loop
    tests the prefix "Column", meant for the placeholders, and so drops real
    labels too: the header cell of column 5 of the sample sheet holds the
    label "Column Total", not empty and not synthesized, and the record of
    data row 1, whose cell in that column reads "x", has neither a field nor
    status sub-keys for it. *)
Theorem real_header_column_skipped :
  Express.getFormattedCellValue Sample.sheet 0 5 = Js.VStr "Column Total"
  /\ Express.getFormattedCellValue Sample.sheet 1 5 = Js.VStr "x"
  /\ Js.bind
       (Express.buildRow Sample.sheet
          (Express.extractHeaders Sample.sheet Sample.range) Sample.range 1)
       (fun rowData =>
          Js.Returned (rowData !! "Column Total", rowData !! "Column Total_status"))
     = Js.Returned (None, None).
Proof. vm_compute. repeat split. Qed.

(** ** The row loop and the sort *)

Section PipelineFacts.

Import Js.

Lemma forEach_processRow (worksheet : XLSX.worksheet) (headers : list value)
  (range : XLSX.range) (clock : nat -> string) (rows : list nat)
  (acc out : list (gmap string value)) :
  forEach (Express.processRow worksheet headers range clock) rows acc = Returned out ->
  out = acc ++ (rows ≫= Rows.candidate worksheet headers range clock)
  /\ forall row, row ∈ rows ->
       exists rowData, Express.buildRow worksheet headers range row = Returned rowData.
Proof.
  revert acc. induction rows as [|row rows IH]; intros acc; simpl.
  - intros [= <-]. split; [now rewrite app_nil_r|].
    intros row H. now apply not_elem_of_nil in H.
  - unfold Express.processRow at 1, Rows.candidate at 1.
    destruct (Express.buildRow worksheet headers range row) as [rd|] eqn:E;
      simpl; [|discriminate].
    destruct (Express.admitted (rd !! "S.No") (rd !! "Job Details")); simpl;
      intros H; apply IH in H as [-> Hall]; (split; [now rewrite <- ?app_assoc|]);
      intros r [->|Hr]%elem_of_cons; eauto.
Qed.

Lemma forEach_processRow_returns (worksheet : XLSX.worksheet)
  (headers : list value) (range : XLSX.range) (clock : nat -> string)
  (rows : list nat) (acc : list (gmap string value)) :
  (forall h, h ∈ headers -> exists t, h = VStr t) ->
  exists out,
    forEach (Express.processRow worksheet headers range clock) rows acc = Returned out.
Proof.
  intros Hstr. revert acc. induction rows as [|row rows IH]; intros acc; simpl.
  - eauto.
  - unfold Express.processRow at 1.
    destruct (buildRow_returns worksheet headers range row Hstr) as [rd ->]. simpl.
    destruct (Express.admitted (rd !! "S.No") (rd !! "Job Details")); simpl; apply IH.
Qed.

Lemma insert_perm {A : Type} (cmp : A -> A -> JsNumber.number) (a : A)
  (l : list A) : Permutation (a :: l) (insert cmp a l).
Proof.
  induction l as [|b l IH]; simpl; [reflexivity|].
  destruct (sortOrder (cmp a b)); try reflexivity.
  rewrite perm_swap. now constructor.
Qed.

Lemma sort_perm {A : Type} (cmp : A -> A -> JsNumber.number) (l : list A) :
  Permutation l (sort cmp l).
Proof.
  induction l as [|a l IH]; simpl; [reflexivity|].
  rewrite <- insert_perm. now constructor.
Qed.

(** The pipeline returns the headers and the sorted admitted records. *)
Lemma normalize_returned (worksheet : XLSX.worksheet) (range : XLSX.range)
  (clock : nat -> string) (headers : list value)
  (out : list (gmap string value)) :
  Express.normalize worksheet range clock = Returned (headers, out) ->
  headers = Express.extractHeaders worksheet range
  /\ out = sort Express.byRowNumber (Rows.admittedInOrder worksheet range clock)
  /\ forall row, row ∈ Express.dataRows range ->
       exists rowData,
         Express.buildRow worksheet headers range row = Returned rowData.
Proof.
  unfold Express.normalize, Rows.admittedInOrder.
  destruct (forEach _ (Express.dataRows range) []) as [jsonData|] eqn:E;
    simpl; [|discriminate].
  intros [= <- <-]. apply forEach_processRow in E as [-> Hall]. auto.
Qed.

Lemma kept_or (a : value) : Rows.kept (or a (VStr "")).
Proof.
  unfold Rows.kept, or. destruct (truthy a) eqn:E; [|discriminate].
  intros x ->. exact E.
Qed.

Lemma storeCell_kept (rowData : gmap string value) (header : string)
  (cellValue : value) :
  (forall k a, rowData !! k = Some a -> Rows.kept a) ->
  forall k a, Express.storeCell rowData header cellValue !! k = Some a -> Rows.kept a.
Proof.
  intros Hinv k a. unfold Express.storeCell.
  assert (Hset : forall (o : gmap string value) key b,
             (forall k a, o !! k = Some a -> Rows.kept a) -> Rows.kept b ->
             forall k a, set o key b !! k = Some a -> Rows.kept a).
  { intros o key b Ho Hb k' a'. unfold set.
    destruct (String.eqb key "__proto__"); [apply Ho|].
    destruct (decide (key = k')) as [->|Hne].
    - rewrite lookup_insert_eq. now intros [= <-].
    - rewrite lookup_insert_ne by exact Hne. apply Ho. }
  assert (Hstr : forall t, Rows.kept (VStr t)) by (intros t x [=]).
  destruct (negb _); [|eapply Hset; eauto using kept_or].
  repeat (eapply Hset; eauto using kept_or).
Qed.

Lemma buildRow_kept (worksheet : XLSX.worksheet) (headers : list value)
  (range : XLSX.range) (row : nat) (rowData : gmap string value) :
  Express.buildRow worksheet headers range row = Returned rowData ->
  forall k a, rowData !! k = Some a -> Rows.kept a.
Proof.
  unfold Express.buildRow.
  assert (H0 : forall k a, (∅ : gmap string value) !! k = Some a -> Rows.kept a).
  { intros k a. now rewrite lookup_empty. }
  revert H0. generalize (∅ : gmap string value).
  induction (Express.columns range) as [|col cols IH]; intros rd Hrd; simpl.
  - now intros [= <-].
  - destruct (Express.processColumn worksheet headers range row rd col)
      as [mid|] eqn:E; simpl; [|discriminate].
    apply IH. unfold Express.processColumn in E.
    destruct (negb _); [now injection E as <-|].
    destruct (headers !! _) as [[h|x]|]; try discriminate.
    destruct (JsString.startsWith h "Column"); injection E as <-; [exact Hrd|].
    now apply storeCell_kept.
Qed.

(** On a candidate record the test of the code is the admission predicate of
    the specification. *)
Lemma admitted_Admissible (rowData : gmap string value) :
  (forall k a, rowData !! k = Some a -> Rows.kept a) ->
  Express.admitted (rowData !! "S.No") (rowData !! "Job Details") = true
  <-> Spec.Admissible rowData.
Proof.
  intros Hinv. unfold Express.admitted, Spec.Admissible.
  destruct (rowData !! "S.No") as [sNo|] eqn:Es.
  2:{ split; [discriminate | intros (? & ? & [=] & _)]. }
  destruct (rowData !! "Job Details") as [job|] eqn:Ej.
  2:{ destruct sNo; (split; [discriminate | intros (? & ? & _ & _ & _ & [=] & _)]). }
  rewrite !andb_true_iff, !negb_true_iff. split.
  - intros [[[Ht _] Hn] Hb]. exists sNo, job. repeat split; auto.
    + intros ->. discriminate.
    + now apply String.eqb_neq.
  - intros (s' & j' & [= <-] & Hne & Hn & [= <-] & Hb).
    repeat split; auto.
    + destruct sNo as [t|x]; simpl.
      * destruct t; [contradiction | reflexivity].
      * now apply (Hinv _ _ Es).
    + destruct job as [t|x]; simpl.
      * destruct t; [simpl in Hb; contradiction | reflexivity].
      * now apply (Hinv _ _ Ej).
    + now apply String.eqb_neq.
Qed.

Lemma elem_of_candidate (worksheet : XLSX.worksheet) (headers : list value)
  (range : XLSX.range) (clock : nat -> string) (row : nat)
  (record : gmap string value) :
  record ∈ Rows.candidate worksheet headers range clock row <->
  exists rowData,
    Express.buildRow worksheet headers range row = Returned rowData
    /\ Spec.Admissible rowData
    /\ record = Express.addMetadata rowData (rowData !! "S.No") (clock row).
Proof.
  unfold Rows.candidate.
  destruct (Express.buildRow worksheet headers range row) as [rd|] eqn:E.
  - pose proof (admitted_Admissible rd (buildRow_kept _ _ _ _ _ E)) as Hadm.
    destruct (Express.admitted (rd !! "S.No") (rd !! "Job Details")).
    + rewrite list_elem_of_singleton. split.
      * intros ->. exists rd. repeat split. now apply Hadm.
      * now intros (rd' & [= <-] & _ & ->).
    + split; [intros H; now apply not_elem_of_nil in H|].
      intros (rd' & [= <-] & Ha & _). apply Hadm in Ha. discriminate.
  - split; [intros H; now apply not_elem_of_nil in H|].
    intros (rd' & [=] & _).
Qed.

(** Which records the output holds. *)
Lemma output_membership (worksheet : XLSX.worksheet) (range : XLSX.range)
  (clock : nat -> string) (headers : list value)
  (out : list (gmap string value)) :
  Express.normalize worksheet range clock = Returned (headers, out) ->
  forall record : gmap string value,
    record ∈ out <->
    exists (row : nat) (rowData : gmap string value),
      row ∈ Express.dataRows range
      /\ Express.buildRow worksheet headers range row = Returned rowData
      /\ Spec.Admissible rowData
      /\ record = Express.addMetadata rowData (rowData !! "S.No") (clock row).
Proof.
  intros H record.
  apply normalize_returned in H as (-> & -> & Hall).
  rewrite <- (sort_perm Express.byRowNumber). unfold Rows.admittedInOrder.
  rewrite list_elem_of_bind. split.
  - intros (row & Hrec & Hrow). apply elem_of_candidate in Hrec as (rd & Hrd).
    now exists row, rd.
  - intros (row & rd & Hrow & Hrd). exists row. split; [|exact Hrow].
    apply elem_of_candidate. now exists rd.
Qed.

End PipelineFacts.

(** C1. A row record is in the normalised output exactly when the S.No
    field of its candidate record is present, is not empty and converts to
    a number, and its Job Details field is present and not blank once
    trimmed.  Rows failing the test are left out without an error: the
    pipeline returns whenever every header is a text.  A candidate with
    S.No "3" and Job Details "  " is rejected, and so is one with S.No "abc"
    and Job Details "Fix pump". *)
Theorem row_admission_predicate :
  forall (worksheet : XLSX.worksheet) (range : XLSX.range) (clock : nat -> string),
    ((forall h, h ∈ Express.extractHeaders worksheet range ->
                exists t, h = Js.VStr t) ->
     exists out,
       Express.normalize worksheet range clock
       = Js.Returned (Express.extractHeaders worksheet range, out))
    /\ (forall headers out,
          Express.normalize worksheet range clock = Js.Returned (headers, out) ->
          forall record : gmap string Js.value,
            record ∈ out <->
            exists (row : nat) (rowData : gmap string Js.value),
              row ∈ Express.dataRows range
              /\ Express.buildRow worksheet headers range row = Js.Returned rowData
              /\ Spec.Admissible rowData
              /\ record
                 = Express.addMetadata rowData (rowData !! "S.No") (clock row))
    /\ (forall rowData : gmap string Js.value,
          rowData !! "S.No" = Some (Js.VStr "3") ->
          rowData !! "Job Details" = Some (Js.VStr "  ") ->
          ~ Spec.Admissible rowData
          /\ Express.admitted (rowData !! "S.No") (rowData !! "Job Details") = false)
    /\ (forall rowData : gmap string Js.value,
          rowData !! "S.No" = Some (Js.VStr "abc") ->
          rowData !! "Job Details" = Some (Js.VStr "Fix pump") ->
          ~ Spec.Admissible rowData
          /\ Express.admitted (rowData !! "S.No") (rowData !! "Job Details") = false).
Proof.
  intros worksheet range clock. split; [|split; [|split]].
  - intros Hstr. unfold Express.normalize.
    destruct (forEach_processRow_returns worksheet _ range clock
                (Express.dataRows range) [] Hstr) as [jsonData ->].
    simpl. eauto.
  - intros headers out H. now apply output_membership.
  - intros rowData Hs Hj. split.
    + intros (sNo & job & _ & _ & _ & Hj' & Hb). rewrite Hj in Hj'.
      injection Hj' as <-. now apply Hb.
    + now rewrite Hs, Hj.
  - intros rowData Hs Hj. split.
    + intros (sNo & job & Hs' & _ & Hn & _). rewrite Hs in Hs'.
      injection Hs' as <-. discriminate Hn.
    + now rewrite Hs, Hj.
Qed.

Lemma row_admission_predicate_witness :
  exists out,
    Express.normalize Sample.sheet Sample.range Sample.clock
    = Js.Returned (Express.extractHeaders Sample.sheet Sample.range, out).
Proof.
  apply (proj1 (row_admission_predicate Sample.sheet Sample.range Sample.clock)).
  intros h Hh. vm_compute in Hh.
  repeat (apply elem_of_cons in Hh as [->|Hh]; [eexists; reflexivity|]).
  now apply not_elem_of_nil in Hh.
Defined.

(** C10. A candidate row whose S.No field is a non-empty string of white
    space only and whose Job Details is not blank is admitted: its finished
    record is in the output, with [rowNumber] 0 and [id] "row-" followed by
    that white space, because [Number] of a blank string is 0. *)
Theorem blank_serial_number_admitted :
  forall (worksheet : XLSX.worksheet) (range : XLSX.range) (clock : nat -> string)
    (headers : list Js.value) (out : list (gmap string Js.value))
    (row : nat) (rowData : gmap string Js.value) (blank : string)
    (jobDetails : Js.value),
    Express.normalize worksheet range clock = Js.Returned (headers, out) ->
    row ∈ Express.dataRows range ->
    Express.buildRow worksheet headers range row = Js.Returned rowData ->
    rowData !! "S.No" = Some (Js.VStr blank) ->
    blank <> "" ->
    JsString.isBlank blank = true ->
    rowData !! "Job Details" = Some jobDetails ->
    JsString.trim (Js.toString jobDetails) <> "" ->
    exists record : gmap string Js.value,
      record ∈ out
      /\ record = Express.addMetadata rowData (Some (Js.VStr blank)) (clock row)
      /\ record !! "rowNumber" = Some (Js.VNum (S754_zero false))
      /\ record !! "id" = Some (Js.VStr ("row-" +:+ blank)).
Proof.
  intros worksheet range clock headers out row rowData blank job
    Hnorm Hrow Hbuild Hs Hne Hblank Hj Hjob.
  exists (Express.addMetadata rowData (Some (Js.VStr blank)) (clock row)).
  split; [|split; [reflexivity|]].
  - apply (output_membership worksheet range clock headers out Hnorm).
    exists row, rowData. repeat split; auto.
    + exists (Js.VStr blank), job. repeat split; auto.
      * intros [= ->]. contradiction.
      * simpl. unfold JsNumber.ofString. now rewrite (trim_blank blank Hblank).
    + now rewrite Hs.
  - unfold Express.addMetadata. split.
    + rewrite set_lookup_other by discriminate.
      rewrite set_lookup_same by discriminate.
      simpl. unfold JsNumber.ofString. now rewrite (trim_blank blank Hblank).
    + rewrite !set_lookup_other by discriminate.
      now rewrite set_lookup_same by discriminate.
Qed.

Lemma blank_serial_number_admitted_witness :
  exists record : gmap string Js.value,
    record ∈ Js.sort Express.byRowNumber
               (Rows.admittedInOrder Sample.sheet Sample.range Sample.clock)
    /\ record = Express.addMetadata (Sample.record 5) (Some (Js.VStr "  "))
                  (Sample.clock 5)
    /\ record !! "rowNumber" = Some (Js.VNum (S754_zero false))
    /\ record !! "id" = Some (Js.VStr "row-  ").
Proof.
  apply (blank_serial_number_admitted Sample.sheet Sample.range Sample.clock
           (Express.extractHeaders Sample.sheet Sample.range)
           (Js.sort Express.byRowNumber
              (Rows.admittedInOrder Sample.sheet Sample.range Sample.clock))
           5 (Sample.record 5) "  " (Js.VStr "Tidy up")).
  - reflexivity.
  - vm_compute. do 4 apply list_elem_of_further. apply list_elem_of_here.
  - reflexivity.
  - reflexivity.
  - discriminate.
  - reflexivity.
  - reflexivity.
  - vm_compute. discriminate.
Defined.

(** C8. The serverless handler and the Express route normalise alike, stage by
    stage and as a whole: on every input they resolve a cell to the same
    value, give the same header labels, classify a value the same way, build
    and admit the same row record, compare two records the same way when
    sorting, and so return the same headers and the same ordered row records,
    or raise the same exception. *)
Theorem handlers_normalize_alike :
  forall (worksheet : XLSX.worksheet) (range : XLSX.range) (clock : nat -> string),
    (forall row col : nat,
        Serverless.getFormattedCellValue worksheet row col
        = Express.getFormattedCellValue worksheet row col)
    /\ Serverless.extractHeaders worksheet range
       = Express.extractHeaders worksheet range
    /\ (forall value : Js.value,
           Serverless.getStatusInfo value = Express.getStatusInfo value)
    /\ (forall (headers : list Js.value) (row : nat),
           Serverless.buildRow worksheet headers range row
           = Express.buildRow worksheet headers range row)
    /\ (forall sNo jobDetails : option Js.value,
           Serverless.admitted sNo jobDetails = Express.admitted sNo jobDetails)
    /\ (forall a b : gmap string Js.value,
           Serverless.byRowNumber a b = Express.byRowNumber a b)
    /\ Serverless.normalize worksheet range clock
       = Express.normalize worksheet range clock.
Proof.
  intros worksheet range clock.
  assert (Hheaders : Serverless.extractHeaders worksheet range
                     = Express.extractHeaders worksheet range)
    by reflexivity.
  repeat (split; [reflexivity|]).
  unfold Serverless.normalize, Express.normalize.
  rewrite Hheaders. reflexivity.
Qed.

(** ** The temporary file *)

#[local] Arguments JsString.arrayIncludes : simpl never.

Section CleanupFacts.

Import Js.

(** The Express route never leaves the upload behind. *)
Lemma express_handler_removes_upload (file : Http.upload) (clock : nat -> string)
  (now : string) (files : gset string) :
  Http.path file ∉ fst (Express.handler (Some file) clock now files).
Proof.
  unfold Express.handler, Express.tryBlock, Http.existsSync, Http.unlinkSync.
  assert (Hcatch :
    Http.path file ∉
      (if bool_decide (Http.path file ∈ files)
       then match (if bool_decide (Http.path file ∈ files)
                   then Returned (files ∖ {[Http.path file]})
                   else Thrown (Http.noSuchFile "unlink" (Http.path file))) with
            | Returned files' => files'
            | Thrown _ => files
            end
       else files)).
  { destruct (bool_decide (Http.path file ∈ files)) eqn:E.
    - apply not_elem_of_difference. right. now apply elem_of_singleton.
    - now apply bool_decide_eq_false in E. }
  destruct (Http.decoded file) as [[worksheet range]|e]; [|exact Hcatch].
  destruct (Express.normalize worksheet range clock) as [[hs jsonData]|e];
    [|exact Hcatch].
  destruct (bool_decide (Http.path file ∈ files)) eqn:E; simpl.
  - apply not_elem_of_difference; right; now apply elem_of_singleton.
  - rewrite E. now apply bool_decide_eq_false in E.
Qed.

(** The serverless handler removes it on success and on a rejected type. *)
Lemma serverless_handler_removes_upload (file : Http.upload)
  (clock : nat -> string) (now : string) (files : gset string) :
  Http.path file ∈ files ->
  (JsString.arrayIncludes Http.allowedMimes (Http.mimetype file) = false
   \/ exists worksheet range out,
        Http.decoded file = Returned (worksheet, range)
        /\ Serverless.normalize worksheet range clock = Returned out) ->
  Http.path file ∉
    fst (Serverless.handler
           {| Serverless.method := "POST";
              Serverless.parsed := Returned (Some file) |} clock now files).
Proof.
  intros Hin H. unfold Serverless.handler, Serverless.tryBlock, Http.unlinkSync.
  simpl. apply (bool_decide_eq_true_2 _) in Hin.
  destruct (JsString.arrayIncludes Http.allowedMimes (Http.mimetype file)); simpl.
  - destruct H as [H|(worksheet & range & [hs out] & -> & ->)]; [discriminate|].
    rewrite Hin. simpl. apply not_elem_of_difference; right; now apply elem_of_singleton.
  - rewrite Hin. simpl. apply not_elem_of_difference; right; now apply elem_of_singleton.
Qed.

(** It keeps it when decoding or processing throws. *)
Lemma serverless_handler_keeps_upload (file : Http.upload)
  (clock : nat -> string) (now : string) (files : gset string) :
  JsString.arrayIncludes Http.allowedMimes (Http.mimetype file) = true ->
  (exists e', Http.decoded file = Thrown e')
  \/ (exists worksheet range e',
        Http.decoded file = Returned (worksheet, range)
        /\ Serverless.normalize worksheet range clock = Thrown e') ->
  fst (Serverless.handler
         {| Serverless.method := "POST";
            Serverless.parsed := Returned (Some file) |} clock now files)
  = files.
Proof.
  intros Hmime H. unfold Serverless.handler, Serverless.tryBlock. simpl.
  rewrite Hmime. simpl.
  destruct H as [[e' ->]|(worksheet & range & e' & -> & ->)]; reflexivity.
Qed.

End CleanupFacts.

(** C9, at a failing input.  An upload of an allowed type that the decoder
    cannot read: the serverless handler answers 500 and the temporary file
    is still there, whereas the Express route removes it. *)
Theorem serverless_handler_leaves_upload_on_failure :
  Serverless.handler Sample.corruptRequest Sample.clock
    "2024-01-01T00:00:09.000Z" {[ "/tmp/upload_1.xlsx" ]}
  = ({[ "/tmp/upload_1.xlsx" ]},
     {| Http.statusCode := 500;
        Http.payload := Http.Failure "Failed to process Excel file"
                          (Some "File is password-protected") |})
  /\ Express.handler (Some Sample.corrupt) Sample.clock
       "2024-01-01T00:00:09.000Z" {[ "/tmp/upload_1.xlsx" ]}
     = (∅,
        {| Http.statusCode := 500;
           Http.payload := Http.Failure "Failed to process Excel file"
                             (Some "File is password-protected") |}).
Proof. split; reflexivity. Qed.

(** ** Rounding to binary64 *)

Section RoundingFacts.

Local Open Scope Z_scope.

Local Abbreviation fexp := (SpecFloat.fexp JsNumber.prec JsNumber.emax).

Lemma fexp_eq (e : Z) : fexp e = Z.max (e - 53) (-1074).
Proof. reflexivity. Qed.

Lemma digits2_bounds (m : positive) :
  2 ^ (Zpos (digits2_pos m) - 1) <= Zpos m < 2 ^ Zpos (digits2_pos m).
Proof.
  induction m as [m IH|m IH|]; cbn [digits2_pos].
  - rewrite Pos2Z.inj_succ.
    replace (Z.succ (Zpos (digits2_pos m)) - 1)
      with (Z.succ (Zpos (digits2_pos m) - 1)) by lia.
    rewrite !Z.pow_succ_r by lia. lia.
  - rewrite Pos2Z.inj_succ.
    replace (Z.succ (Zpos (digits2_pos m)) - 1)
      with (Z.succ (Zpos (digits2_pos m) - 1)) by lia.
    rewrite !Z.pow_succ_r by lia. lia.
  - simpl. lia.
Qed.

Lemma Zdigits2_bounds (m : Z) :
  0 < m -> 2 ^ (Zdigits2 m - 1) <= m < 2 ^ Zdigits2 m.
Proof. destruct m as [|p|p]; try lia. intros _. apply digits2_bounds. Qed.

Lemma Zdigits2_pos (m : Z) : 0 < m -> 0 < Zdigits2 m.
Proof. destruct m; simpl; lia. Qed.

(** More digits cannot give a smaller number. *)
Lemma Zdigits2_le (a b c : Z) :
  0 < a -> 0 < b -> 0 <= c -> a <= b * 2 ^ c -> Zdigits2 a <= Zdigits2 b + c.
Proof.
  intros Ha Hb Hc Hab.
  pose proof (Zdigits2_bounds a Ha) as [Ha1 _].
  pose proof (Zdigits2_bounds b Hb) as [_ Hb2].
  pose proof (Zdigits2_pos a Ha). pose proof (Zdigits2_pos b Hb).
  destruct (Z_le_gt_dec (Zdigits2 a) (Zdigits2 b + c)) as [|Hgt]; [assumption|].
  exfalso.
  assert (2 ^ (Zdigits2 b + c) <= 2 ^ (Zdigits2 a - 1))
    by (apply Z.pow_le_mono_r; lia).
  rewrite Z.pow_add_r in * by lia.
  assert (0 < 2 ^ c) by (apply Z.pow_pos_nonneg; lia).
  nia.
Qed.

Lemma iter_pos_nat {A : Type} (f : A -> A) (p : positive) (x : A) :
  SpecFloat.iter_pos f p x = Nat.iter (Pos.to_nat p) f x.
Proof.
  revert x. induction p as [p IH|p IH|]; intros x; cbn [SpecFloat.iter_pos].
  - rewrite !IH, Pos2Nat.inj_xI.
    replace (S (2 * Pos.to_nat p))%nat with (Pos.to_nat p + S (Pos.to_nat p))%nat by lia.
    rewrite Nat.iter_add. f_equal. now rewrite Nat.iter_succ_r.
  - rewrite !IH, Pos2Nat.inj_xO.
    replace (2 * Pos.to_nat p)%nat with (Pos.to_nat p + Pos.to_nat p)%nat by lia.
    now rewrite Nat.iter_add.
  - reflexivity.
Qed.

Lemma shr_1_spec (mrs : shr_record) :
  0 <= shr_m mrs ->
  shr_m (shr_1 mrs) = shr_m mrs / 2
  /\ shr_r (shr_1 mrs) = Z.odd (shr_m mrs)
  /\ shr_s (shr_1 mrs) = shr_r mrs || shr_s mrs.
Proof.
  destruct mrs as [m r s]. cbn [shr_m shr_r shr_s]. intros Hm.
  rewrite <- Z.div2_div.
  destruct m as [|[p|p|]|p]; try lia; cbn; auto.
Qed.

(** [k] halvings of an exact record. *)
Lemma shr_iter (k : nat) (m : Z) :
  0 <= m ->
  shr_m (Nat.iter k shr_1 {| shr_m := m; shr_r := false; shr_s := false |})
  = m / 2 ^ Z.of_nat k
  /\ (m mod 2 ^ Z.of_nat k = 0 ->
      shr_r (Nat.iter k shr_1 {| shr_m := m; shr_r := false; shr_s := false |}) = false
      /\ shr_s (Nat.iter k shr_1 {| shr_m := m; shr_r := false; shr_s := false |}) = false).
Proof.
  intros Hm. induction k as [|k IH]; [|rewrite !Nat.iter_succ].
  - cbn [Nat.iter shr_m shr_r shr_s]. rewrite Z.pow_0_r, Z.div_1_r. auto.
  - destruct IH as [IHm IHrs].
    set (res := Nat.iter k shr_1 _) in *.
    assert (H2k : 0 < 2 ^ Z.of_nat k) by (apply Z.pow_pos_nonneg; lia).
    assert (Hres : 0 <= shr_m res) by (rewrite IHm; apply Z.div_pos; lia).
    destruct (shr_1_spec res Hres) as (H1 & H2 & H3).
    rewrite Nat2Z.inj_succ, Z.pow_succ_r by lia.
    split.
    + rewrite H1, IHm, Z.div_div by lia. f_equal. lia.
    + intros Hmod.
      assert (Hdiv : m = 2 ^ Z.of_nat k * (2 * (m / (2 * 2 ^ Z.of_nat k)))).
      { pose proof (Z.div_mod m (2 * 2 ^ Z.of_nat k)). lia. }
      assert (Hmodk : m mod 2 ^ Z.of_nat k = 0).
      { rewrite Hdiv at 1. rewrite Z.mul_comm. now apply Z.mod_mul; lia. }
      destruct (IHrs Hmodk) as [Hr Hs]. rewrite H2, H3, Hr, Hs, IHm. split; [|reflexivity].
      rewrite Hdiv at 1. rewrite Z.mul_comm, Z.div_mul by lia.
      rewrite Z.odd_mul. reflexivity.
Qed.

Lemma shr_spec (m e n : Z) :
  0 <= m ->
  let res := shr {| shr_m := m; shr_r := false; shr_s := false |} e n in
  snd res = e + Z.max n 0
  /\ shr_m (fst res) = m / 2 ^ Z.max n 0
  /\ (m mod 2 ^ Z.max n 0 = 0 -> loc_of_shr_record (fst res) = loc_Exact).
Proof.
  intros Hm res. subst res. unfold shr. destruct n as [|p|p]; cbn [fst snd].
  - cbn. rewrite Z.div_1_r. repeat split; lia.
  - rewrite iter_pos_nat. replace (Z.max (Zpos p) 0) with (Z.of_nat (Pos.to_nat p)) by lia.
    destruct (shr_iter (Pos.to_nat p) m Hm) as [H1 H2].
    split; [lia|]. split; [exact H1|].
    intros Hmod. destruct (H2 Hmod) as [Hr Hs].
    destruct (Nat.iter _ _ _) as [m' r' s']. cbn in Hr, Hs. now subst.
  - cbn. rewrite Z.div_1_r. repeat split; lia.
Qed.

Lemma round_nearest_even_bounds (m : Z) (l : location) :
  m <= round_nearest_even m l <= m + 1.
Proof.
  unfold round_nearest_even. destruct l as [|[]]; try lia.
  destruct (Z.even m); lia.
Qed.

Lemma shr_fexp_spec (m e : Z) :
  0 <= m ->
  let e' := Z.max e (fexp (Zdigits2 m + e)) in
  let res := shr_fexp JsNumber.prec JsNumber.emax m e loc_Exact in
  snd res = e'
  /\ shr_m (fst res) = m / 2 ^ (e' - e)
  /\ (m mod 2 ^ (e' - e) = 0 -> loc_of_shr_record (fst res) = loc_Exact).
Proof.
  intros Hm e' res. subst res. unfold shr_fexp. cbn [shr_record_of_loc].
  destruct (shr_spec m e (SpecFloat.fexp JsNumber.prec JsNumber.emax (Zdigits2 m + e) - e))
    as (H1 & H2 & H3); [lia|].
  replace (e' - e) with (Z.max (fexp (Zdigits2 m + e) - e) 0) by (subst e'; lia).
  repeat split; auto. subst e'. lia.
Qed.

(** The shape of a rounded exact product, sum or integer. *)
Lemma round_aux_exact (sx : bool) (M : positive) (E : Z) :
  let e1 := Z.max E (fexp (Zpos (digits2_pos M) + E)) in
  exists mr : Z,
    Zpos M / 2 ^ (e1 - E) <= mr <= Zpos M / 2 ^ (e1 - E) + 1
    /\ (Zpos M mod 2 ^ (e1 - E) = 0 -> mr = Zpos M / 2 ^ (e1 - E))
    /\ binary_round_aux JsNumber.prec JsNumber.emax sx (Zpos M) E loc_Exact
       = let e2 := Z.max e1 (fexp (Zdigits2 mr + e1)) in
         match mr / 2 ^ (e2 - e1) with
         | Z0 => S754_zero sx
         | Zpos m =>
             if e2 <=? JsNumber.emax - JsNumber.prec then S754_finite sx m e2
             else S754_infinity sx
         | Zneg _ => S754_nan
         end.
Proof.
  intros e1. unfold binary_round_aux.
  destruct (shr_fexp_spec (Zpos M) E ltac:(lia)) as (H1 & H2 & H3).
  cbn [Zdigits2] in H1, H2, H3. fold e1 in H1, H2, H3.
  destruct (shr_fexp JsNumber.prec JsNumber.emax (Zpos M) E loc_Exact) as [mrs' e'].
  cbn [fst snd] in H1, H2, H3. subst e'.
  set (mr := round_nearest_even (shr_m mrs') (loc_of_shr_record mrs')).
  exists mr.
  pose proof (round_nearest_even_bounds (shr_m mrs') (loc_of_shr_record mrs')) as Hb.
  fold mr in Hb. rewrite H2 in Hb.
  split; [exact Hb|]. split.
  { intros Hmod. unfold mr. rewrite (H3 Hmod). exact H2. }
  assert (H2pos : 0 < 2 ^ (e1 - E)) by (apply Z.pow_pos_nonneg; subst e1; lia).
  assert (Hmr : 0 <= mr).
  { pose proof (Z.div_pos (Zpos M) (2 ^ (e1 - E))). lia. }
  destruct (shr_fexp_spec mr e1 Hmr) as (G1 & G2 & _).
  destruct (shr_fexp JsNumber.prec JsNumber.emax mr e1 loc_Exact) as [mrs'' e''].
  cbn [fst snd] in G1, G2. subst e''. rewrite G2. reflexivity.
Qed.

End RoundingFacts.

(** ** Bounds on rounded results *)

Section RoundedBounds.

Local Open Scope Z_scope.

Local Abbreviation fexp := (SpecFloat.fexp JsNumber.prec JsNumber.emax).

Lemma pow2_pos (n : Z) : 0 <= n -> 0 < 2 ^ n.
Proof. intros H. apply Z.pow_pos_nonneg; lia. Qed.

Lemma pow2_split (a b : Z) : 0 <= a -> 0 <= b -> 2 ^ (a + b) = 2 ^ a * 2 ^ b.
Proof. intros Ha Hb. now rewrite Z.pow_add_r. Qed.

(** Rounding a quotient that does not exceed an integer bound. *)
Lemma rounded_quotient_le (M s N mr : Z) :
  0 <= M -> 0 <= s -> M <= N * 2 ^ s ->
  M / 2 ^ s <= mr <= M / 2 ^ s + 1 ->
  (M mod 2 ^ s = 0 -> mr = M / 2 ^ s) ->
  mr <= N.
Proof.
  intros HM Hs Hle Hmr Hexact.
  pose proof (pow2_pos s Hs) as Hp.
  assert (Hq : M / 2 ^ s <= N) by (apply Z.div_le_upper_bound; nia).
  destruct (Z.eq_dec (M / 2 ^ s) N) as [Heq|Hne]; [|lia].
  pose proof (Z.div_mod M (2 ^ s) ltac:(lia)) as Hdm.
  pose proof (Z.mod_pos_bound M (2 ^ s) Hp) as Hmod.
  assert (M mod 2 ^ s = 0) by nia.
  rewrite Hexact; lia.
Qed.

(** The exponent of a result is at most that of a bound with full
    mantissa. *)
Lemma fexp_le_bound (m e N eb : Z) :
  0 < m -> 0 < N -> Zdigits2 N <= 53 -> -1074 <= eb -> e <= eb ->
  m <= N * 2 ^ (eb - e) -> fexp (Zdigits2 m + e) <= eb.
Proof.
  intros Hm HN Hd Heb He Hle. rewrite fexp_eq.
  pose proof (Zdigits2_le m N (eb - e) Hm HN ltac:(lia) Hle). lia.
Qed.

(** An exact product or sum below a representable bound rounds below it. *)
Lemma round_aux_upper (sx : bool) (M : positive) (E N eb : Z) :
  0 < N -> Zdigits2 N <= 53 -> -1074 <= eb <= 971 -> E <= eb ->
  Zpos M <= N * 2 ^ (eb - E) ->
  binary_round_aux JsNumber.prec JsNumber.emax sx (Zpos M) E loc_Exact
  = S754_zero sx
  \/ exists m e,
       binary_round_aux JsNumber.prec JsNumber.emax sx (Zpos M) E loc_Exact
       = S754_finite sx m e
       /\ -1074 <= e <= eb
       /\ Zpos m <= N * 2 ^ (eb - e).
Proof.
  intros HN Hd Heb HE Hle.
  destruct (round_aux_exact sx M E) as (mr & Hmr & Hexact & ->).
  set (e1 := Z.max E (fexp (Zpos (digits2_pos M) + E))) in *.
  assert (He1 : E <= e1 <= eb).
  { pose proof (fexp_le_bound (Zpos M) E N eb ltac:(lia) HN Hd ltac:(lia) HE Hle).
    cbn [Zdigits2] in H. subst e1. lia. }
  assert (Hmr_le : mr <= N * 2 ^ (eb - e1)).
  { apply (rounded_quotient_le (Zpos M) (e1 - E)); try lia.
    rewrite <- Z.mul_assoc, <- pow2_split by lia.
    now replace (eb - e1 + (e1 - E)) with (eb - E) by lia. }
  assert (Hmr0 : 0 <= mr).
  { pose proof (Z.div_pos (Zpos M) (2 ^ (e1 - E)) ltac:(lia) (pow2_pos (e1 - E) ltac:(lia))).
    lia. }
  cbv zeta. set (e2 := Z.max e1 (fexp (Zdigits2 mr + e1))).
  destruct (Z.eq_dec mr 0) as [->|Hnz].
  { left. now rewrite Z.div_0_l by (pose proof (pow2_pos (e2 - e1)); subst e2; lia). }
  assert (He2 : e1 <= e2 <= eb).
  { pose proof (fexp_le_bound mr e1 N eb ltac:(lia) HN Hd ltac:(lia) ltac:(lia) Hmr_le).
    subst e2. lia. }
  assert (He2min : -1074 <= e2) by (subst e2; rewrite fexp_eq; lia).
  assert (Hm2 : 0 <= mr / 2 ^ (e2 - e1) <= N * 2 ^ (eb - e2)).
  { pose proof (pow2_pos (e2 - e1) ltac:(lia)). split.
    - apply Z.div_pos; lia.
    - apply Z.div_le_upper_bound; [lia|].
      rewrite Z.mul_comm, <- Z.mul_assoc, <- pow2_split by lia.
      now replace (eb - e2 + (e2 - e1)) with (eb - e1) by lia. }
  destruct (mr / 2 ^ (e2 - e1)) as [|m2|m2] eqn:Em2; [now left | | lia].
  right. exists m2, e2.
  replace (e2 <=? JsNumber.emax - JsNumber.prec) with true
    by (symmetry; apply Z.leb_le; unfold JsNumber.emax, JsNumber.prec; lia).
  repeat split; lia.
Qed.

(** A quotient by a power of two below the size of the number is positive. *)
Lemma shifted_pos (m s : Z) : 0 < m -> 0 <= s < Zdigits2 m -> 0 < m / 2 ^ s.
Proof.
  intros Hm Hs. pose proof (Zdigits2_bounds m Hm) as [Hlo _].
  apply Z.div_str_pos. split; [now apply pow2_pos|].
  transitivity (2 ^ (Zdigits2 m - 1)); [apply Z.pow_le_mono_r; lia | exact Hlo].
Qed.

(** Whatever is rounded, a finite result has the mantissa and the exponent
    of a double. *)
Lemma shr_fexp_inRange (m e : Z) (l : location) :
  let res := shr_fexp JsNumber.prec JsNumber.emax m e l in
  -1074 <= snd res.
Proof.
  cbv zeta. unfold shr_fexp, shr.
  destruct (SpecFloat.fexp JsNumber.prec JsNumber.emax (Zdigits2 m + e) - e)
    as [|p|p] eqn:E; cbn [snd]; rewrite fexp_eq in E; lia.
Qed.

End RoundedBounds.

(** ** Time serials *)

Section TimeFacts.

Local Open Scope Z_scope.

Import Js.

Lemma ofZ_0 : JsNumber.ofZ 0 = S754_zero false.
Proof. reflexivity. Qed.

Lemma ofZ_1 : JsNumber.ofZ 1 = S754_finite false 4503599627370496 (-52).
Proof. reflexivity. Qed.

Lemma ofZ_24 : JsNumber.ofZ 24 = S754_finite false 6755399441055744 (-48).
Proof. reflexivity. Qed.

Lemma ofZ_60 : JsNumber.ofZ 60 = S754_finite false 8444249301319680 (-47).
Proof. reflexivity. Qed.

(** A double in [0, 1) is a zero or a positive mantissa below 2^53 with an
    exponent of at most -53. *)
Lemma ltb_one_shape (m : positive) (e : Z) :
  SFltb (S754_finite false m e) (S754_finite false 4503599627370496 (-52)) = true ->
  e < -52 \/ (e = -52 /\ Zpos m < 4503599627370496).
Proof.
  unfold SFltb. cbn [SFcompare].
  destruct (Z.compare_spec e (-52)) as [He|He|He]; try discriminate.
  - rewrite Pos.compare_cont_spec. unfold Pos.switch_Eq.
    destruct (Pos.compare_spec m 4503599627370496) as [Ec|Ec|Ec]; try discriminate.
    intros _. right. split; [exact He|]. now apply Pos2Z.pos_lt_pos in Ec.
  - intros _. now left.
Qed.

Lemma bounded_shape (m : positive) (e : Z) :
  bounded JsNumber.prec JsNumber.emax m e = true ->
  Zpos (digits2_pos m) <= 53 /\ -1074 <= e <= 971
  /\ (e = -1074 \/ Zpos (digits2_pos m) = 53).
Proof.
  unfold bounded, canonical_mantissa.
  intros [Hcan He]%andb_true_iff. apply Z.eqb_eq in Hcan. apply Z.leb_le in He.
  rewrite fexp_eq in Hcan. unfold JsNumber.emax, JsNumber.prec in He. lia.
Qed.

Lemma digits_53 (m : positive) :
  Zpos (digits2_pos m) <= 53 -> Zpos m < 9007199254740992.
Proof.
  intros Hd. pose proof (digits2_bounds m) as [_ Hhi].
  eapply Z.lt_le_trans; [exact Hhi|].
  change 9007199254740992 with (2 ^ 53). apply Z.pow_le_mono_r; lia.
Qed.

Lemma digits_53_full (m : positive) :
  Zpos (digits2_pos m) = 53 -> 4503599627370496 <= Zpos m.
Proof.
  intros Hd. pose proof (digits2_bounds m) as [Hlo _]. rewrite Hd in Hlo.
  exact Hlo.
Qed.

Lemma unit_interval_shape (x : JsNumber.number) :
  valid_binary JsNumber.prec JsNumber.emax x = true ->
  JsNumber.geb x (JsNumber.ofZ 0) = true ->
  JsNumber.ltb x (JsNumber.ofZ 1) = true ->
  (exists s, x = S754_zero s)
  \/ exists m e,
       x = S754_finite false m e /\ Zpos m < 9007199254740992 /\ -1074 <= e <= -53.
Proof.
  rewrite ofZ_0, ofZ_1.
  destruct x as [s|s| |s m e].
  - intros _ _ _. left. now exists s.
  - intros _ Hge Hlt. destruct s; [vm_compute in Hge | vm_compute in Hlt]; discriminate.
  - intros _ H. vm_compute in H. discriminate H.
  - intros Hvalid Hge Hlt. right.
    destruct s; [vm_compute in Hge; discriminate Hge|].
    apply bounded_shape in Hvalid as (Hd & He & Hfull).
    apply ltb_one_shape in Hlt.
    exists m, e. split; [reflexivity|]. split; [now apply digits_53|].
    destruct Hlt as [Hlt|[-> Hlt]]; [lia|].
    destruct Hfull as [Hfull|Hfull]; [lia|].
    apply digits_53_full in Hfull. lia.
Qed.

(** The product of a double of [0, 1) by 24, then by 60, is a double of
    [0, 1440] with an exponent of at most -42. *)
Lemma times_24_shape (m : positive) (e : Z) :
  Zpos m < 9007199254740992 -> -1074 <= e <= -53 ->
  let y := SFmul JsNumber.prec JsNumber.emax (S754_finite false m e)
             (S754_finite false 6755399441055744 (-48)) in
  y = S754_zero false
  \/ exists m1 e1,
       y = S754_finite false m1 e1 /\ -1074 <= e1 <= -48
       /\ Zpos m1 <= 6755399441055744 * 2 ^ (-48 - e1).
Proof.
  intros Hm He y. subst y. cbn [SFmul xorb].
  apply (round_aux_upper false (m * 6755399441055744) (e + -48)
           6755399441055744 (-48)).
  - reflexivity.
  - vm_compute. discriminate.
  - split; vm_compute; discriminate.
  - lia.
  - replace (-48 - (e + -48)) with (- e) by lia.
    assert (H : 9007199254740992 <= 2 ^ (- e)).
    { change 9007199254740992 with (2 ^ 53). apply Z.pow_le_mono_r; lia. }
    rewrite Pos2Z.inj_mul, Z.mul_comm.
    apply Z.mul_le_mono_nonneg_l; [discriminate | lia].
Qed.

Lemma times_60_shape (m1 : positive) (e1 : Z) :
  -1074 <= e1 <= -48 ->
  Zpos m1 <= 6755399441055744 * 2 ^ (-48 - e1) ->
  let y := SFmul JsNumber.prec JsNumber.emax (S754_finite false m1 e1)
             (S754_finite false 8444249301319680 (-47)) in
  y = S754_zero false
  \/ exists m2 e2,
       y = S754_finite false m2 e2 /\ -1074 <= e2 <= -42
       /\ Zpos m2 <= 6333186975989760 * 2 ^ (-42 - e2).
Proof.
  intros He1 Hm1 y. subst y. cbn [SFmul xorb].
  apply (round_aux_upper false (m1 * 8444249301319680) (e1 + -47)
           6333186975989760 (-42)).
  - reflexivity.
  - vm_compute. discriminate.
  - split; vm_compute; discriminate.
  - lia.
  - replace (-42 - (e1 + -47)) with (53 + (-48 - e1)) by lia.
    rewrite pow2_split by lia.
    set (P := 2 ^ (-48 - e1)) in *.
    change (2 ^ 53) with 9007199254740992.
    rewrite Pos2Z.inj_mul.
    transitivity (6755399441055744 * P * 8444249301319680).
    + apply Z.mul_le_mono_nonneg_r; [discriminate | exact Hm1].
    + apply Z.eq_le_incl. ring.
Qed.

Lemma minutes_product_shape (x : JsNumber.number) :
  valid_binary JsNumber.prec JsNumber.emax x = true ->
  JsNumber.geb x (JsNumber.ofZ 0) = true ->
  JsNumber.ltb x (JsNumber.ofZ 1) = true ->
  let y := JsNumber.mul (JsNumber.mul x (JsNumber.ofZ 24)) (JsNumber.ofZ 60) in
  (exists s, y = S754_zero s)
  \/ exists m e,
       y = S754_finite false m e /\ -1074 <= e <= -42
       /\ Zpos m <= 1440 * 2 ^ (- e).
Proof.
  intros Hvalid Hge Hlt y. subst y. rewrite ofZ_24, ofZ_60. unfold JsNumber.mul.
  destruct (unit_interval_shape x Hvalid Hge Hlt) as [[s ->]|(m & e & -> & Hm & He)].
  { left. exists s. destruct s; reflexivity. }
  destruct (times_24_shape m e Hm He) as [->|(m1 & e1 & -> & He1 & Hm1)].
  { left. now exists false. }
  destruct (times_60_shape m1 e1 He1 Hm1) as [->|(m2 & e2 & -> & He2 & Hm2)].
  { left. now exists false. }
  right. exists m2, e2. split; [reflexivity|]. split; [exact He2|].
  replace (- e2) with (42 + (-42 - e2)) by lia. rewrite pow2_split by lia.
  change (2 ^ 42) with 4398046511104.
  etransitivity; [exact Hm2|]. apply Z.eq_le_incl. ring.
Qed.

(** So [Math.round] of it is an integer from 0 to 1440. *)
Lemma total_minutes_range (x : JsNumber.number) :
  valid_binary JsNumber.prec JsNumber.emax x = true ->
  JsNumber.geb x (JsNumber.ofZ 0) = true ->
  JsNumber.ltb x (JsNumber.ofZ 1) = true ->
  let t := JsNumber.Math_round
             (JsNumber.mul (JsNumber.mul x (JsNumber.ofZ 24)) (JsNumber.ofZ 60)) in
  t = S754_zero true \/ exists n, 0 <= n <= 1440 /\ t = JsNumber.ofZ n.
Proof.
  intros Hvalid Hge Hlt t. subst t.
  destruct (minutes_product_shape x Hvalid Hge Hlt)
    as [[s ->]|(m & e & -> & He & Hm)].
  { destruct s; [now left | right]. exists 0. split; [lia | reflexivity]. }
  right. unfold JsNumber.Math_round.
  replace (0 <=? e) with false by (symmetry; apply Z.leb_gt; lia).
  cbn [cond_Zopp].
  replace (1 - e) with (1 + - e) by lia. rewrite pow2_split by lia.
  change (2 ^ 1) with 2.
  pose proof (pow2_pos (- e) ltac:(lia)) as Hp.
  set (Q := 2 ^ (- e)) in *. set (r := (2 * Zpos m + Q) / (2 * Q)).
  assert (Hr : 0 <= r <= 1440).
  { subst r. split.
    - apply Z.div_pos; lia.
    - apply Z.lt_succ_r, Z.div_lt_upper_bound; lia. }
  exists r. split; [exact Hr|].
  destruct (r =? 0) eqn:E; [|reflexivity].
  apply Z.eqb_eq in E. now rewrite E.
Qed.

(** What [convertExcelTime] prints once the total of minutes is known. *)
Local Abbreviation render t :=
  (JsString.padStart
     (JsNumber.toString
        (JsNumber.rem (JsNumber.Math_floor (JsNumber.div t (JsNumber.ofZ 60)))
           (JsNumber.ofZ 24))) 2 "0"
   +:+ ":"
   +:+ JsString.padStart
         (JsNumber.toString (JsNumber.rem t (JsNumber.ofZ 60))) 2 "0").

(** The 1441 possible totals, each run through the floating-point division,
    the floor, the remainders and the printing of the code. *)
Lemma clock_text_table :
  forallb
    (fun k : nat =>
       let n := Z.of_nat k in
       String.eqb (render (JsNumber.ofZ n)) (Spec.clockText n)
       && JsNumber.strictEq (JsNumber.ofZ n) (JsNumber.ofZ n))
    (seq 0 1441) = true.
Proof. vm_compute. reflexivity. Qed.

Lemma clock_text_of_minutes (n : Z) :
  0 <= n <= 1440 ->
  render (JsNumber.ofZ n) = Spec.clockText n
  /\ JsNumber.strictEq (JsNumber.ofZ n) (JsNumber.ofZ n) = true.
Proof.
  intros Hn. pose proof clock_text_table as H.
  rewrite forallb_forall in H. specialize (H (Z.to_nat n)).
  cbv zeta in H. rewrite Z2Nat.id in H by lia.
  apply andb_true_iff in H as [H1 H2].
  - split; [now apply String.eqb_eq | exact H2].
  - apply in_seq. lia.
Qed.

Lemma convertExcelTime_clock (x : JsNumber.number) :
  valid_binary JsNumber.prec JsNumber.emax x = true ->
  JsNumber.geb x (JsNumber.ofZ 0) = true ->
  JsNumber.ltb x (JsNumber.ofZ 1) = true ->
  exists n : Z,
    0 <= n <= 1440
    /\ JsNumber.strictEq
         (JsNumber.Math_round
            (JsNumber.mul (JsNumber.mul x (JsNumber.ofZ 24)) (JsNumber.ofZ 60)))
         (JsNumber.ofZ n) = true
    /\ Express.convertExcelTime (VNum x) = VStr (Spec.clockText n).
Proof.
  intros Hvalid Hge Hlt. unfold Express.convertExcelTime. cbv zeta.
  destruct (total_minutes_range x Hvalid Hge Hlt) as [Ht|(n & Hn & Ht)];
    cbv zeta in Ht; rewrite Ht.
  - exists 0. split; [lia|]. split; reflexivity.
  - exists n. destruct (clock_text_of_minutes n Hn) as [H1 H2].
    split; [exact Hn|]. split; [exact H2|]. now rewrite H1.
Qed.

End TimeFacts.

(** C3, as the code has it.  A cell with no formatted text whose raw value
    is a number [v] with [0 <= v < 1] resolves to the zero-padded [HH:MM] of
    [totalMinutes], hours [floor(totalMinutes / 60) mod 24] and minutes
    [totalMinutes mod 60], where [totalMinutes], between 0 and 1440, is
    [Math.round] of the double-precision product [(v * 24) * 60], each
    multiplication rounded to the nearest double.  The raw value 0.5 resolves
    to "12:00" and 0.0 to "00:00"; an absent cell resolves to the empty
    string; any other raw value passes through unchanged. *)
Theorem time_serial_resolution :
  forall (worksheet : XLSX.worksheet) (row col : nat),
    (worksheet row col = None ->
     Express.getFormattedCellValue worksheet row col = Js.VStr "")
    /\ (forall (cell : XLSX.cell) (x : JsNumber.number),
          worksheet row col = Some cell ->
          XLSX.w cell = None \/ XLSX.w cell = Some "" ->
          XLSX.v cell = Some (Js.VNum x) ->
          valid_binary JsNumber.prec JsNumber.emax x = true ->
          JsNumber.geb x (JsNumber.ofZ 0) = true ->
          JsNumber.ltb x (JsNumber.ofZ 1) = true ->
          exists totalMinutes : Z,
            (0 <= totalMinutes <= 1440)%Z
            /\ JsNumber.strictEq
                 (JsNumber.Math_round
                    (JsNumber.mul (JsNumber.mul x (JsNumber.ofZ 24))
                       (JsNumber.ofZ 60)))
                 (JsNumber.ofZ totalMinutes) = true
            /\ Express.getFormattedCellValue worksheet row col
               = Js.VStr (Spec.clockText totalMinutes))
    /\ (forall (cell : XLSX.cell),
          worksheet row col = Some cell ->
          XLSX.w cell = None \/ XLSX.w cell = Some "" ->
          (XLSX.v cell = Some (Js.VNum Sample.half) ->
           Express.getFormattedCellValue worksheet row col = Js.VStr "12:00")
          /\ (XLSX.v cell = Some (Js.VNum Sample.zero) ->
              Express.getFormattedCellValue worksheet row col = Js.VStr "00:00"))
    /\ (forall (cell : XLSX.cell) (raw : Js.value),
          worksheet row col = Some cell ->
          XLSX.w cell = None \/ XLSX.w cell = Some "" ->
          XLSX.v cell = Some raw ->
          (forall x, raw = Js.VNum x ->
                     JsNumber.geb x (JsNumber.ofZ 0)
                     && JsNumber.ltb x (JsNumber.ofZ 1) = false) ->
          Express.getFormattedCellValue worksheet row col = raw).
Proof.
  intros worksheet row col. unfold Express.getFormattedCellValue.
  split; [|split; [|split]].
  - now intros ->.
  - intros cell x -> Hw -> Hvalid Hge Hlt. rewrite Hge, Hlt. cbn [andb].
    destruct (convertExcelTime_clock x Hvalid Hge Hlt) as (n & Hn & Heq & Htext).
    exists n. split; [exact Hn|]. split; [exact Heq|].
    destruct Hw as [-> | ->]; exact Htext.
  - intros cell -> Hw. split; intros ->; destruct Hw as [-> | ->]; reflexivity.
  - intros cell raw -> Hw -> Hraw.
    destruct raw as [t|x].
    + destruct Hw as [-> | ->]; reflexivity.
    + rewrite (Hraw x eq_refl). destruct Hw as [-> | ->]; reflexivity.
Qed.

Lemma time_serial_resolution_witness :
  exists totalMinutes : Z,
    (0 <= totalMinutes <= 1440)%Z
    /\ JsNumber.strictEq
         (JsNumber.Math_round
            (JsNumber.mul (JsNumber.mul Sample.half (JsNumber.ofZ 24))
               (JsNumber.ofZ 60)))
         (JsNumber.ofZ totalMinutes) = true
    /\ Express.getFormattedCellValue Sample.sheet 1 4
       = Js.VStr (Spec.clockText totalMinutes).
Proof.
  apply (proj1 (proj2 (time_serial_resolution Sample.sheet 1 4))
           {| XLSX.w := None; XLSX.v := Some (Js.VNum Sample.half) |}
           Sample.half).
  - reflexivity.
  - left. reflexivity.
  - reflexivity.
  - reflexivity.
  - reflexivity.
  - reflexivity.
Defined.

(** C3, as the specification states it, fails.  The double
    [0x1.dddddddddddddp-8] lies just below 10.5 / 1440: [round(v * 1440)] is
    10, in exact arithmetic and also with the one double multiplication
    [v * 1440], and the claim gives "00:10"; the code multiplies by 24 and
    then by 60, gets 10.5 exactly, rounds it to 11 and prints "00:11". *)
Lemma time_serial_total_differs :
  valid_binary JsNumber.prec JsNumber.emax Sample.tenAndAHalfMinutes = true
  /\ JsNumber.geb Sample.tenAndAHalfMinutes (JsNumber.ofZ 0) = true
  /\ JsNumber.ltb Sample.tenAndAHalfMinutes (JsNumber.ofZ 1) = true
  /\ Spec.exactTotalMinutes Sample.tenAndAHalfMinutes = 10%Z
  /\ JsNumber.Math_round (JsNumber.mul Sample.tenAndAHalfMinutes (JsNumber.ofZ 1440))
     = JsNumber.ofZ 10
  /\ Spec.clockText 10 = "00:10"
  /\ JsNumber.Math_round
       (JsNumber.mul (JsNumber.mul Sample.tenAndAHalfMinutes (JsNumber.ofZ 24))
          (JsNumber.ofZ 60))
     = JsNumber.ofZ 11
  /\ Express.getFormattedCellValue Sample.timeSheet 1 0 = Js.VStr "00:11".
Proof. vm_compute. repeat split. Qed.

(** ** Results of rounding are doubles *)

Section RangeFacts.

Local Open Scope Z_scope.

Local Abbreviation fexp := (SpecFloat.fexp JsNumber.prec JsNumber.emax).

Lemma shr_1_nonpos (mrs : shr_record) :
  shr_m mrs <= 0 -> shr_m (shr_1 mrs) <= 0.
Proof.
  destruct mrs as [m r s]. cbn [shr_m]. intros Hm.
  destruct m as [|p|[p|p|]]; cbn; lia.
Qed.

Lemma shr_nonpos (mrs : shr_record) (e n : Z) :
  shr_m mrs <= 0 -> shr_m (fst (shr mrs e n)) <= 0.
Proof.
  intros Hm. unfold shr. destruct n as [|p|p]; cbn [fst]; try exact Hm.
  rewrite iter_pos_nat. apply Nat.iter_invariant; [|exact Hm].
  intros x. apply shr_1_nonpos.
Qed.

(** The second shift of [binary_round_aux] leaves a mantissa below 2^53
    and an exponent of at least -1074. *)
Lemma shr_fexp_final (mr e1 : Z) (m : positive) :
  let res := shr_fexp JsNumber.prec JsNumber.emax mr e1 loc_Exact in
  shr_m (fst res) = Zpos m ->
  Zpos m < 9007199254740992 /\ -1074 <= snd res /\ 0 < mr
  /\ snd res = Z.max e1 (fexp (Zdigits2 mr + e1))
  /\ Zpos m = mr / 2 ^ (snd res - e1).
Proof.
  cbv zeta. intros Hm.
  destruct (Z_lt_le_dec mr 0) as [Hneg|Hnn].
  { exfalso. unfold shr_fexp in Hm. cbn [shr_record_of_loc] in Hm.
    pose proof (shr_nonpos {| shr_m := mr; shr_r := false; shr_s := false |} e1
                  (fexp (Zdigits2 mr + e1) - e1)) as H.
    cbn [shr_m] in H. specialize (H ltac:(lia)). lia. }
  destruct (shr_fexp_spec mr e1 Hnn) as (H1 & H2 & _).
  rewrite H1, H2 in *. clear H1 H2.
  set (e2 := Z.max e1 (fexp (Zdigits2 mr + e1))) in *.
  assert (Hmr : 0 < mr).
  { destruct (Z.eq_dec mr 0) as [->|]; [|lia]. rewrite Z.div_0_l in Hm; [lia|].
    pose proof (pow2_pos (e2 - e1)). subst e2. lia. }
  pose proof (Zdigits2_bounds mr Hmr) as [_ Hhi].
  pose proof (Zdigits2_pos mr Hmr) as Hd.
  assert (Hs : Zdigits2 mr - 53 <= e2 - e1) by (subst e2; rewrite fexp_eq; lia).
  assert (He2 : -1074 <= e2) by (subst e2; rewrite fexp_eq; lia).
  assert (Hs0 : 0 <= e2 - e1) by (subst e2; lia).
  repeat split; auto.
  rewrite <- Hm. clear Hm.
  change 9007199254740992 with (2 ^ 53).
  destruct (Z_le_gt_dec (Zdigits2 mr) 53) as [Hsmall|Hbig].
  - apply Z.le_lt_trans with mr.
    + apply Z.div_le_upper_bound; [now apply pow2_pos|].
      pose proof (pow2_pos (e2 - e1) Hs0). nia.
    + eapply Z.lt_le_trans; [exact Hhi|]. apply Z.pow_le_mono_r; lia.
  - apply Z.div_lt_upper_bound; [now apply pow2_pos|].
    rewrite <- pow2_split by lia.
    eapply Z.lt_le_trans; [exact Hhi|]. apply Z.pow_le_mono_r; lia.
Qed.

Lemma round_aux_inRange (sx : bool) (mx ex : Z) (lx : location) :
  JsNumber.inRange (binary_round_aux JsNumber.prec JsNumber.emax sx mx ex lx).
Proof.
  unfold binary_round_aux.
  destruct (shr_fexp JsNumber.prec JsNumber.emax mx ex lx) as [mrs' e'].
  set (mr := round_nearest_even (shr_m mrs') (loc_of_shr_record mrs')).
  pose proof (shr_fexp_final mr e') as H. cbv zeta in H.
  destruct (shr_fexp JsNumber.prec JsNumber.emax mr e' loc_Exact) as [mrs'' e''].
  cbn [fst snd] in H.
  destruct (shr_m mrs'') as [|m|m]; cbn [JsNumber.inRange]; auto.
  destruct (e'' <=? JsNumber.emax - JsNumber.prec) eqn:E; cbn [JsNumber.inRange]; auto.
  apply Z.leb_le in E. unfold JsNumber.emax, JsNumber.prec in E.
  destruct (H m eq_refl) as (Hm & He & _).
  change (2 ^ 53) with 9007199254740992. lia.
Qed.

(** With an exponent of at least -1074 an exact non-zero value does not
    round to zero. *)
Lemma round_aux_nonzero (sx : bool) (M : positive) (E : Z) :
  -1074 <= E ->
  binary_round_aux JsNumber.prec JsNumber.emax sx (Zpos M) E loc_Exact
  = S754_infinity sx
  \/ exists m e,
       binary_round_aux JsNumber.prec JsNumber.emax sx (Zpos M) E loc_Exact
       = S754_finite sx m e.
Proof.
  intros HE.
  destruct (round_aux_exact sx M E) as (mr & Hmr & _ & ->).
  set (e1 := Z.max E (fexp (Zpos (digits2_pos M) + E))) in *.
  assert (Hs1 : 0 <= e1 - E < Zdigits2 (Zpos M)).
  { subst e1. rewrite fexp_eq. cbn [Zdigits2]. lia. }
  pose proof (shifted_pos (Zpos M) (e1 - E) ltac:(lia) Hs1) as Hq.
  assert (Hmr0 : 0 < mr) by lia.
  cbv zeta. set (e2 := Z.max e1 (fexp (Zdigits2 mr + e1))).
  assert (Hs2 : 0 <= e2 - e1 < Zdigits2 mr).
  { pose proof (Zdigits2_pos mr Hmr0). subst e2 e1. rewrite !fexp_eq. lia. }
  pose proof (shifted_pos mr (e2 - e1) Hmr0 Hs2) as Hq2.
  destruct (mr / 2 ^ (e2 - e1)) as [|m2|m2]; try lia.
  destruct (e2 <=? JsNumber.emax - JsNumber.prec); [right; eauto | now left].
Qed.

Lemma ofZ_inRange (n : Z) : JsNumber.inRange (JsNumber.ofZ n).
Proof.
  unfold JsNumber.ofZ, binary_normalize, binary_round.
  destruct n as [|p|p]; [exact I| |];
    destruct (shl_align _ _ _) as [mz ez]; apply round_aux_inRange.
Qed.

Lemma ofRatio_inRange (p q : Z) : JsNumber.inRange (JsNumber.ofRatio p q).
Proof.
  unfold JsNumber.ofRatio.
  destruct (SFdiv_core_binary _ _ _ _ _ _) as [[m e] l]. apply round_aux_inRange.
Qed.

Lemma ofDecimal_inRange (s n : Z) : JsNumber.inRange (JsNumber.ofDecimal s n).
Proof.
  unfold JsNumber.ofDecimal. destruct (s =? 0); [exact I|].
  destruct (0 <=? n); [apply ofZ_inRange | apply ofRatio_inRange].
Qed.

Lemma neg_inRange (x : JsNumber.number) :
  JsNumber.inRange x -> JsNumber.inRange (JsNumber.neg x).
Proof. destruct x; auto. Qed.

Lemma unsignedDecimal_inRange (s : string) :
  JsNumber.inRange (JsNumber.unsignedDecimal s).
Proof.
  unfold JsNumber.unsignedDecimal.
  destruct (String.eqb s "Infinity"); [exact I|].
  destruct (JsNumber.spanDigits JsString.isDigit s) as [ip r1].
  destruct (match r1 with
            | String "." t => JsNumber.spanDigits JsString.isDigit t
            | _ => (EmptyString, r1)
            end) as [fp r2].
  destruct (String.eqb (ip +:+ fp) ""); [exact I|].
  destruct (JsNumber.exponentPart r2); [apply ofDecimal_inRange | exact I].
Qed.

Lemma radixLiteral_inRange (ok : ascii -> bool) (base : Z) (s : string) :
  JsNumber.inRange (JsNumber.radixLiteral ok base s).
Proof.
  unfold JsNumber.radixLiteral.
  destruct (JsNumber.spanDigits ok s) as [[|c d] [|c' r]]; try exact I.
  apply ofZ_inRange.
Qed.

Lemma ofString_inRange (s : string) : JsNumber.inRange (JsNumber.ofString s).
Proof.
  unfold JsNumber.ofString.
  repeat match goal with
         | |- JsNumber.inRange (match ?x with _ => _ end) => destruct x
         | |- JsNumber.inRange (if ?x then _ else _) => destruct x
         end;
    first [ exact I
          | apply unsignedDecimal_inRange
          | apply neg_inRange, unsignedDecimal_inRange
          | apply radixLiteral_inRange ].
Qed.

End RangeFacts.

(** ** The comparator orders numbers by their value *)

Section OrderFacts.

Local Open Scope Z_scope.

Import Js.

Lemma pos_iter_xO (m d : positive) :
  Zpos (Pos.iter xO m d) = Zpos m * 2 ^ Zpos d.
Proof.
  induction d as [|d IH] using Pos.peano_ind.
  - cbn [Pos.iter]. change (2 ^ 1) with 2. lia.
  - rewrite Pos.iter_succ, Pos2Z.inj_succ, Z.pow_succ_r by lia.
    change (Zpos (Pos.iter xO m d)~0) with (2 * Zpos (Pos.iter xO m d)).
    rewrite IH. ring.
Qed.

Lemma shl_align_value (m : positive) (e e' : Z) :
  e' <= e ->
  Zpos (fst (shl_align m e e')) = Zpos m * 2 ^ (e - e')
  /\ snd (shl_align m e e') = e'.
Proof.
  intros He. unfold shl_align. destruct (e' - e) as [|d|d] eqn:Ed; cbn [fst snd].
  - replace (e - e') with 0 by lia. split; lia.
  - lia.
  - rewrite pos_iter_xO. replace (e - e') with (Zpos d) by lia. auto.
Qed.

Lemma shl_align_exponent (m : positive) (e e' : Z) :
  -1074 <= e -> -1074 <= e' -> -1074 <= snd (shl_align m e e').
Proof.
  intros He He'. unfold shl_align. destruct (e' - e); cbn [snd]; lia.
Qed.

(** An integer multiple of [2^e], [e >= -1074], that is not zero rounds to a
    number of its sign. *)
Lemma binary_normalize_sign (M e : Z) :
  -1074 <= e ->
  sortOrder (binary_normalize JsNumber.prec JsNumber.emax M e false)
  = Z.compare M 0.
Proof.
  intros He. unfold binary_normalize, binary_round.
  destruct M as [|p|p]; [reflexivity| |].
  - pose proof (shl_align_exponent p e
                  (SpecFloat.fexp JsNumber.prec JsNumber.emax (Zpos (digits2_pos p) + e))
                  He ltac:(rewrite fexp_eq; lia)) as Hz.
    destruct (shl_align _ _ _) as [mz ez]. cbn [snd] in Hz.
    destruct (round_aux_nonzero false mz ez Hz) as [->|(m' & e' & ->)]; reflexivity.
  - pose proof (shl_align_exponent p e
                  (SpecFloat.fexp JsNumber.prec JsNumber.emax (Zpos (digits2_pos p) + e))
                  He ltac:(rewrite fexp_eq; lia)) as Hz.
    destruct (shl_align _ _ _) as [mz ez]. cbn [snd] in Hz.
    destruct (round_aux_nonzero true mz ez Hz) as [->|(m' & e' & ->)]; reflexivity.
Qed.

Lemma ord_finite_bound (s : bool) (m : positive) (e : Z) :
  JsNumber.inRange (S754_finite s m e) ->
  - 2 ^ 2100 < JsNumber.ord (S754_finite s m e) < 2 ^ 2100
  /\ (if s then JsNumber.ord (S754_finite s m e) < 0
      else 0 < JsNumber.ord (S754_finite s m e)).
Proof.
  cbn [JsNumber.inRange JsNumber.ord]. intros [Hm He].
  pose proof (pow2_pos (e + 1074) ltac:(lia)) as Hp.
  assert (Hle : 2 ^ (e + 1074) <= 2 ^ 2045) by (apply Z.pow_le_mono_r; lia).
  assert (Hbig : 2 ^ 53 * 2 ^ 2045 < 2 ^ 2100).
  { rewrite <- pow2_split by lia. apply Z.pow_lt_mono_r; lia. }
  assert (Hprod : Zpos m * 2 ^ (e + 1074) < 2 ^ 2100).
  { eapply Z.le_lt_trans; [|exact Hbig].
    apply Z.mul_le_mono_nonneg; lia. }
  assert (Hpos : 0 < Zpos m * 2 ^ (e + 1074)) by (apply Z.mul_pos_pos; lia).
  destruct s; cbn [cond_Zopp]; lia.
Qed.

Lemma compare_cond_Zopp_0 (s : bool) (a : Z) :
  0 < a -> Z.compare (cond_Zopp s a) 0 = if s then Lt else Gt.
Proof.
  intros Ha. destruct s; cbn [cond_Zopp].
  - apply Z.compare_lt_iff. lia.
  - apply Z.compare_gt_iff. lia.
Qed.

(** The sign of [x - y] is how the values of [x] and [y] compare. *)
Lemma sub_sortOrder (x y : JsNumber.number) :
  JsNumber.inRange x -> JsNumber.inRange y ->
  JsNumber.isNaN x = false -> JsNumber.isNaN y = false ->
  sortOrder (JsNumber.sub x y) = Z.compare (JsNumber.ord x) (JsNumber.ord y).
Proof.
  intros Hx Hy Hnx Hny. unfold JsNumber.sub.
  assert (Hbig : 0 < 2 ^ 2100) by (apply pow2_pos; lia).
  destruct x as [sx|sx| |sx mx ex]; try discriminate;
    destruct y as [sy|sy| |sy my ey]; try discriminate;
    cbn [SFsub].
  - destruct sx, sy; reflexivity.
  - cbn [sortOrder JsNumber.ord]. symmetry. destruct sy; cbn [negb cond_Zopp].
    + apply Z.compare_gt_iff. lia.
    + apply Z.compare_lt_iff. lia.
  - destruct (ord_finite_bound sy my ey Hy) as [_ Hs].
    cbn [sortOrder]. change (JsNumber.ord (S754_zero sx)) with 0. symmetry.
    destruct sy; cbn [negb].
    + apply Z.compare_gt_iff. lia.
    + apply Z.compare_lt_iff. lia.
  - cbn [sortOrder JsNumber.ord]. symmetry. now apply compare_cond_Zopp_0.
  - cbn [JsNumber.ord]. destruct sx, sy; cbn [sortOrder cond_Zopp]; symmetry.
    + apply Z.compare_refl.
    + apply Z.compare_lt_iff. lia.
    + apply Z.compare_gt_iff. lia.
    + apply Z.compare_refl.
  - destruct (ord_finite_bound sy my ey Hy) as [Hb _].
    cbn [sortOrder]. cbn [JsNumber.ord] in *. symmetry.
    destruct sx; cbn [cond_Zopp].
    + apply Z.compare_lt_iff. lia.
    + apply Z.compare_gt_iff. lia.
  - destruct (ord_finite_bound sx mx ex Hx) as [_ Hs].
    cbn [sortOrder]. change (JsNumber.ord (S754_zero sy)) with 0. symmetry.
    destruct sx.
    + apply Z.compare_lt_iff. lia.
    + apply Z.compare_gt_iff. lia.
  - destruct (ord_finite_bound sx mx ex Hx) as [Hb _].
    cbn [sortOrder]. cbn [JsNumber.ord] in *. symmetry.
    destruct sy; cbn [negb cond_Zopp].
    + apply Z.compare_gt_iff. lia.
    + apply Z.compare_lt_iff. lia.
  - cbn [JsNumber.inRange] in Hx, Hy. destruct Hx as [_ Hex], Hy as [_ Hey].
    cbv zeta. set (ez := Z.min ex ey).
    destruct (shl_align_value mx ex ez ltac:(subst ez; lia)) as [Hvx _].
    destruct (shl_align_value my ey ez ltac:(subst ez; lia)) as [Hvy _].
    rewrite Hvx, Hvy, binary_normalize_sign by (subst ez; lia).
    cbn [JsNumber.ord].
    pose proof (pow2_pos (ez + 1074) ltac:(subst ez; lia)) as Hp.
    replace (ex + 1074) with ((ex - ez) + (ez + 1074)) by lia.
    replace (ey + 1074) with ((ey - ez) + (ez + 1074)) by lia.
    rewrite (pow2_split (ex - ez) (ez + 1074)), (pow2_split (ey - ez) (ez + 1074))
      by (subst ez; lia).
    set (P := 2 ^ (ez + 1074)) in *.
    set (X := Zpos mx * 2 ^ (ex - ez)). set (Y := Zpos my * 2 ^ (ey - ez)).
    rewrite !Z.mul_assoc. fold X Y.
    assert (HX : cond_Zopp sx (X * P) = cond_Zopp sx X * P)
      by (destruct sx; cbn [cond_Zopp]; ring).
    assert (HY : cond_Zopp sy (Y * P) = cond_Zopp sy Y * P)
      by (destruct sy; cbn [cond_Zopp]; ring).
    rewrite HX, HY.
    generalize (cond_Zopp sx X) (cond_Zopp sy Y). intros a b.
    destruct (Z.compare_spec (a - b) 0); symmetry.
    + apply Z.compare_eq_iff. nia.
    + apply Z.compare_lt_iff. nia.
    + apply Z.compare_gt_iff. nia.
Qed.

End OrderFacts.

(** ** A stable insertion sort *)

Section SortFacts.

Local Open Scope Z_scope.

Import Js.

Context {A : Type}.
Variable cmp : A -> A -> JsNumber.number.
Variable key : A -> Z.
Variable good : A -> Prop.
Hypothesis cmp_key :
  forall a b, good a -> good b -> sortOrder (cmp a b) = Z.compare (key a) (key b).

Lemma insert_good (a : A) (l : list A) :
  good a -> Forall good l -> Forall good (insert cmp a l).
Proof.
  intros Ha Hl. eapply Permutation_Forall; [apply insert_perm|]. now constructor.
Qed.

Lemma sort_good (l : list A) : Forall good l -> Forall good (sort cmp l).
Proof.
  intros Hl. eapply Permutation_Forall; [apply sort_perm | exact Hl].
Qed.

Lemma insert_sorted (a : A) (l : list A) :
  good a -> Forall good l ->
  StronglySorted (fun x y => key x <= key y) l ->
  StronglySorted (fun x y => key x <= key y) (insert cmp a l).
Proof.
  intros Ha Hl Hs. induction Hs as [|b l Hs IH Hb]; cbn [insert].
  - constructor; constructor.
  - apply Forall_cons_iff in Hl as [Hgb Hl].
    rewrite (cmp_key a b Ha Hgb).
    destruct (Z.compare_spec (key a) (key b)) as [Heq|Hlt|Hgt].
    + constructor; [now constructor|]. constructor; [lia|].
      eapply Forall_impl; [exact Hb|]. cbv beta. intros c Hc. lia.
    + constructor; [now constructor|]. constructor; [lia|].
      eapply Forall_impl; [exact Hb|]. cbv beta. intros c Hc. lia.
    + constructor; [now apply IH|].
      eapply Permutation_Forall; [apply insert_perm|].
      constructor; [lia | exact Hb].
Qed.

Lemma sort_sorted (l : list A) :
  Forall good l -> StronglySorted (fun x y => key x <= key y) (sort cmp l).
Proof.
  induction l as [|a l IH]; cbn [sort]; intros Hl; [constructor|].
  apply Forall_cons_iff in Hl as [Ha Hl].
  apply insert_sorted; auto using sort_good.
Qed.

Lemma insert_filter (k : Z) (a : A) (l : list A) :
  good a -> Forall good l ->
  List.filter (fun c => key c =? k) (insert cmp a l)
  = List.filter (fun c => key c =? k) (a :: l).
Proof.
  intros Ha Hl. induction l as [|b l IH]; cbn [insert]; [reflexivity|].
  apply Forall_cons_iff in Hl as [Hgb Hl].
  rewrite (cmp_key a b Ha Hgb).
  destruct (Z.compare_spec (key a) (key b)) as [Heq|Hlt|Hgt]; try reflexivity.
  cbn [List.filter] in *. rewrite (IH Hl).
  destruct (key b =? k) eqn:Eb; [|reflexivity].
  replace (key a =? k) with false; [reflexivity|].
  symmetry. apply Z.eqb_neq. apply Z.eqb_eq in Eb. lia.
Qed.

Lemma sort_filter (k : Z) (l : list A) :
  Forall good l ->
  List.filter (fun c => key c =? k) (sort cmp l)
  = List.filter (fun c => key c =? k) l.
Proof.
  induction l as [|a l IH]; cbn [sort]; intros Hl; [reflexivity|].
  apply Forall_cons_iff in Hl as [Ha Hl].
  rewrite insert_filter by auto using sort_good.
  cbn [List.filter]. now rewrite (IH Hl).
Qed.

End SortFacts.

(** ** The records being sorted *)

Section FinishedFacts.

Local Open Scope Z_scope.

Import Js.

Lemma valid_inRange (x : JsNumber.number) :
  valid_binary JsNumber.prec JsNumber.emax x = true -> JsNumber.inRange x.
Proof.
  destruct x as [s|s| |s m e]; try (intros; exact I).
  cbn [valid_binary JsNumber.inRange]. intros H.
  apply bounded_shape in H as (Hd & He & _). apply digits_53 in Hd.
  change (2 ^ 53) with 9007199254740992. lia.
Qed.

Lemma resolved_number_inRange (worksheet : XLSX.worksheet) (row col : nat)
  (x : JsNumber.number) :
  XLSX.wfCell (worksheet row col) = true ->
  Express.getFormattedCellValue worksheet row col = VNum x ->
  JsNumber.inRange x.
Proof.
  unfold Express.getFormattedCellValue, XLSX.wfCell, XLSX.wfNumber.
  destruct (worksheet row col) as [cell|]; [|discriminate].
  intros Hwf.
  assert (Hraw :
    match XLSX.v cell with
    | Some (VNum y) =>
        if JsNumber.geb y (JsNumber.ofZ 0) && JsNumber.ltb y (JsNumber.ofZ 1)
        then Express.convertExcelTime (VNum y) else VNum y
    | Some (VStr t) => VStr t
    | None => VStr ""
    end = VNum x -> JsNumber.inRange x).
  { destruct (XLSX.v cell) as [[t|y]|]; try discriminate.
    apply andb_true_iff in Hwf as [Hvalid _].
    destruct (JsNumber.geb y (JsNumber.ofZ 0) && JsNumber.ltb y (JsNumber.ofZ 1)).
    - discriminate.
    - intros [= <-]. now apply valid_inRange. }
  destruct (XLSX.w cell) as [t|]; [|exact Hraw].
  destruct (truthy (VStr t)); [discriminate | exact Hraw].
Qed.

Lemma wfSheet_cell (worksheet : XLSX.worksheet) (range : XLSX.range)
  (row col : nat) :
  XLSX.wfSheet worksheet range = true ->
  row ∈ Express.dataRows range -> col ∈ Express.columns range ->
  XLSX.wfCell (worksheet row col) = true.
Proof.
  unfold XLSX.wfSheet, Express.dataRows, Express.columns.
  intros H Hrow Hcol. rewrite forallb_forall in H.
  apply list_elem_of_In, in_seq in Hrow. apply list_elem_of_In in Hcol.
  specialize (H row). rewrite forallb_forall in H.
  apply H; [|exact Hcol]. apply in_seq. lia.
Qed.

(** Every number kept in a candidate record is a double. *)
Lemma buildRow_inRange (worksheet : XLSX.worksheet) (headers : list value)
  (range : XLSX.range) (row : nat) (rowData : gmap string value) :
  (forall col, col ∈ Express.columns range ->
               XLSX.wfCell (worksheet row col) = true) ->
  Express.buildRow worksheet headers range row = Returned rowData ->
  forall k x, rowData !! k = Some (VNum x) -> JsNumber.inRange x.
Proof.
  unfold Express.buildRow. intros Hwf.
  assert (H0 : forall k x, (∅ : gmap string value) !! k = Some (VNum x) ->
                           JsNumber.inRange x).
  { intros k x. now rewrite lookup_empty. }
  revert H0 Hwf. generalize (∅ : gmap string value).
  induction (Express.columns range) as [|col cols IH]; intros rd Hrd Hwf; simpl.
  - now intros [= <-].
  - destruct (Express.processColumn worksheet headers range row rd col)
      as [mid|] eqn:E; simpl; [|discriminate].
    apply IH; [|intros c Hc; apply Hwf; now apply list_elem_of_further].
    unfold Express.processColumn in E.
    destruct (negb _); [now injection E as <-|].
    destruct (headers !! _) as [[h|y]|]; try discriminate.
    destruct (JsString.startsWith h "Column"); injection E as <-; [exact Hrd|].
    assert (Hcell : forall x, or (Express.getFormattedCellValue worksheet row col)
                                (VStr "") = VNum x -> JsNumber.inRange x).
    { intros x. unfold or.
      destruct (truthy (Express.getFormattedCellValue worksheet row col));
        [|discriminate].
      apply resolved_number_inRange, Hwf, list_elem_of_here. }
    assert (Hset : forall (o : gmap string value) key b,
               (forall k x, o !! k = Some (VNum x) -> JsNumber.inRange x) ->
               (forall x, b = VNum x -> JsNumber.inRange x) ->
               forall k x, set o key b !! k = Some (VNum x) -> JsNumber.inRange x).
    { intros o key b Ho Hb k' x'. unfold set.
      destruct (String.eqb key "__proto__"); [apply Ho|].
      destruct (decide (key = k')) as [->|Hne].
      - rewrite lookup_insert_eq. intros [= ->]. now apply Hb.
      - rewrite lookup_insert_ne by exact Hne. apply Ho. }
    unfold Express.storeCell.
    destruct (negb _); [|apply Hset; [exact Hrd | exact Hcell]].
    apply Hset; [|discriminate]. apply Hset; [|discriminate].
    apply Hset; [|discriminate]. apply Hset; [exact Hrd | exact Hcell].
Qed.

Lemma candidate_finished (worksheet : XLSX.worksheet) (headers : list value)
  (range : XLSX.range) (clock : nat -> string) (row : nat) :
  (forall col, col ∈ Express.columns range ->
               XLSX.wfCell (worksheet row col) = true) ->
  Forall Rows.finished (Rows.candidate worksheet headers range clock row).
Proof.
  intros Hwf. unfold Rows.candidate.
  destruct (Express.buildRow worksheet headers range row) as [rd|] eqn:E;
    [|constructor].
  destruct (Express.admitted (rd !! "S.No") (rd !! "Job Details")) eqn:Ea;
    [|constructor].
  constructor; [|constructor].
  unfold Express.admitted in Ea.
  destruct (rd !! "S.No") as [sNo|] eqn:Es; [|discriminate].
  destruct (rd !! "Job Details") as [job|]; [|discriminate].
  apply andb_true_iff in Ea as [Ea _]. apply andb_true_iff in Ea as [_ Hn].
  apply negb_true_iff in Hn.
  exists (toNumber sNo). split; [|split; [|exact Hn]].
  - unfold Express.addMetadata. rewrite set_lookup_other by discriminate.
    now rewrite set_lookup_same by discriminate.
  - destruct sNo as [t|x]; cbn [toNumber].
    + apply ofString_inRange.
    + apply (buildRow_inRange _ _ _ _ _ Hwf E _ _ Es).
Qed.

Lemma admittedInOrder_finished (worksheet : XLSX.worksheet)
  (range : XLSX.range) (clock : nat -> string) :
  XLSX.wfSheet worksheet range = true ->
  Forall Rows.finished (Rows.admittedInOrder worksheet range clock).
Proof.
  intros Hwf. unfold Rows.admittedInOrder.
  apply Forall_forall. intros record Hrec.
  apply list_elem_of_bind in Hrec as (row & Hrec & Hrow).
  pose proof (candidate_finished worksheet
                (Express.extractHeaders worksheet range) range clock row) as H.
  rewrite Forall_forall in H. apply H.
  - intros col Hcol. now apply (wfSheet_cell worksheet range).
  - exact Hrec.
Qed.

(** On finished records the comparator of the code orders by [sortKey]. *)
Lemma byRowNumber_sortKey (a b : gmap string value) :
  Rows.finished a -> Rows.finished b ->
  sortOrder (Express.byRowNumber a b)
  = Z.compare (Rows.sortKey a) (Rows.sortKey b).
Proof.
  intros (x & Hx & Hrx & Hnx) (y & Hy & Hry & Hny).
  unfold Express.byRowNumber, Rows.sortKey, Rows.rowIndex.
  rewrite Hx, Hy. cbn [orOpt toNumberOpt toNumber].
  assert (Hor : forall z, JsNumber.inRange z -> JsNumber.isNaN z = false ->
            let z' := toNumber (or (VNum z) (VNum (JsNumber.ofZ 0))) in
            JsNumber.inRange z' /\ JsNumber.isNaN z' = false
            /\ JsNumber.ord z' = JsNumber.ord z).
  { intros z Hz Hn. unfold or. cbn [truthy].
    destruct z as [s|s| |s m e]; try discriminate; cbn; auto. }
  destruct (Hor x Hrx Hnx) as (H1 & H2 & H3).
  destruct (Hor y Hry Hny) as (G1 & G2 & G3).
  cbv zeta in *. rewrite sub_sortOrder by assumption. now rewrite H3, G3.
Qed.

End FinishedFacts.

(** ** [ord] agrees with the comparison of doubles *)

Section OrdFacts.

Local Open Scope Z_scope.

Lemma ord_lt_by_exponent (m1 m2 : positive) (e1 e2 : Z) :
  bounded JsNumber.prec JsNumber.emax m1 e1 = true ->
  bounded JsNumber.prec JsNumber.emax m2 e2 = true ->
  e1 < e2 ->
  Zpos m1 * 2 ^ (e1 + 1074) < Zpos m2 * 2 ^ (e2 + 1074).
Proof.
  intros H1 H2 He.
  apply bounded_shape in H1 as (Hd1 & He1 & _).
  apply bounded_shape in H2 as (_ & He2 & Hfull).
  apply digits_53 in Hd1.
  destruct Hfull as [Hfull|Hfull]; [lia|]. apply digits_53_full in Hfull.
  replace (e2 + 1074) with ((e2 - e1 - 1) + (1 + (e1 + 1074))) by lia.
  rewrite (pow2_split (e2 - e1 - 1) (1 + (e1 + 1074))) by lia.
  rewrite (pow2_split 1 (e1 + 1074)) by lia. change (2 ^ 1) with 2.
  pose proof (pow2_pos (e1 + 1074) ltac:(lia)) as Hp.
  pose proof (pow2_pos (e2 - e1 - 1) ltac:(lia)) as Hq.
  set (P := 2 ^ (e1 + 1074)) in *. set (Q := 2 ^ (e2 - e1 - 1)) in *.
  apply Z.lt_le_trans with (9007199254740992 * P).
  - apply Z.mul_lt_mono_pos_r; assumption.
  - transitivity (4503599627370496 * (1 * (2 * P))); [apply Z.eq_le_incl; ring|].
    apply Z.mul_le_mono_nonneg; try lia.
    apply Z.mul_le_mono_nonneg_r; lia.
Qed.

Lemma compare_scaled (a b P : Z) : 0 < P -> (a * P ?= b * P) = (a ?= b).
Proof.
  intros HP. destruct (Z.compare_spec a b) as [->|H|H].
  - apply Z.compare_refl.
  - apply Z.compare_lt_iff. now apply Z.mul_lt_mono_pos_r.
  - apply Z.compare_gt_iff. now apply Z.mul_lt_mono_pos_r.
Qed.

Lemma compare_positive_finite (m1 m2 : positive) (e1 e2 : Z) :
  bounded JsNumber.prec JsNumber.emax m1 e1 = true ->
  bounded JsNumber.prec JsNumber.emax m2 e2 = true ->
  (Zpos m1 * 2 ^ (e1 + 1074) ?= Zpos m2 * 2 ^ (e2 + 1074))
  = match e1 ?= e2 with
    | Lt => Lt
    | Gt => Gt
    | Eq => Pos.compare_cont Eq m1 m2
    end.
Proof.
  intros H1 H2. destruct (Z.compare_spec e1 e2) as [->|He|He].
  - apply bounded_shape in H2 as (_ & He2 & _).
    rewrite compare_scaled by (apply pow2_pos; lia).
    rewrite Pos.compare_cont_spec. change (Z.pos m1 ?= Z.pos m2) with (m1 ?= m2)%positive.
    now destruct (m1 ?= m2)%positive.
  - apply Z.compare_lt_iff. now apply ord_lt_by_exponent.
  - apply Z.compare_gt_iff. now apply ord_lt_by_exponent.
Qed.

Lemma compare_opp (a b : Z) : (- a ?= - b) = CompOpp (a ?= b).
Proof. rewrite Z.compare_opp. apply Z.compare_antisym. Qed.

(** On doubles the order of [ord] is the order of the IEEE comparison. *)
Lemma ord_compare (x y : JsNumber.number) :
  valid_binary JsNumber.prec JsNumber.emax x = true ->
  valid_binary JsNumber.prec JsNumber.emax y = true ->
  JsNumber.isNaN x = false -> JsNumber.isNaN y = false ->
  SFcompare x y = Some (Z.compare (JsNumber.ord x) (JsNumber.ord y)).
Proof.
  intros Hx Hy Hnx Hny.
  assert (Hbig : 0 < 2 ^ 2100) by (apply pow2_pos; lia).
  destruct x as [sx|sx| |sx mx ex]; try discriminate;
    destruct y as [sy|sy| |sy my ey]; try discriminate;
    cbn [SFcompare]; apply f_equal; symmetry.
  - reflexivity.
  - cbn [JsNumber.ord]. destruct sy; cbn [cond_Zopp].
    + apply Z.compare_gt_iff. lia.
    + apply Z.compare_lt_iff. lia.
  - destruct (ord_finite_bound sy my ey (valid_inRange _ Hy)) as [_ Hs].
    change (JsNumber.ord (S754_zero sx)) with 0. destruct sy.
    + apply Z.compare_gt_iff. lia.
    + apply Z.compare_lt_iff. lia.
  - cbn [JsNumber.ord]. destruct sx; cbn [cond_Zopp].
    + apply Z.compare_lt_iff. lia.
    + apply Z.compare_gt_iff. lia.
  - cbn [JsNumber.ord]. destruct sx, sy; cbn [cond_Zopp].
    + apply Z.compare_refl.
    + apply Z.compare_lt_iff. lia.
    + apply Z.compare_gt_iff. lia.
    + apply Z.compare_refl.
  - destruct (ord_finite_bound sy my ey (valid_inRange _ Hy)) as [Hb _].
    cbn [JsNumber.ord] in *. destruct sx; cbn [cond_Zopp].
    + apply Z.compare_lt_iff. lia.
    + apply Z.compare_gt_iff. lia.
  - destruct (ord_finite_bound sx mx ex (valid_inRange _ Hx)) as [_ Hs].
    change (JsNumber.ord (S754_zero sy)) with 0. destruct sx.
    + apply Z.compare_lt_iff. lia.
    + apply Z.compare_gt_iff. lia.
  - destruct (ord_finite_bound sx mx ex (valid_inRange _ Hx)) as [Hb _].
    cbn [JsNumber.ord] in *. destruct sy; cbn [cond_Zopp].
    + apply Z.compare_gt_iff. lia.
    + apply Z.compare_lt_iff. lia.
  - destruct (ord_finite_bound sx mx ex (valid_inRange _ Hx)) as [_ Hsx].
    destruct (ord_finite_bound sy my ey (valid_inRange _ Hy)) as [_ Hsy].
    cbn [valid_binary] in Hx, Hy.
    pose proof (compare_positive_finite mx my ex ey Hx Hy) as Hc.
    cbn [JsNumber.ord] in *. destruct sx, sy; cbn [cond_Zopp] in *.
    + rewrite compare_opp, Hc. destruct (ex ?= ey); reflexivity.
    + apply Z.compare_lt_iff. lia.
    + apply Z.compare_gt_iff. lia.
    + exact Hc.
Qed.

End OrdFacts.

(** C5. The output is sorted ascending by [rowNumber], and the sort is
    stable: the output is a permutation of the admitted records, each next
    record has a [rowNumber] at least as large, and the records of any one
    [rowNumber] come in the order in which they were admitted. *)
Theorem output_sorted_and_stable :
  forall (worksheet : XLSX.worksheet) (range : XLSX.range) (clock : nat -> string)
    (headers : list Js.value) (out : list (gmap string Js.value)),
    XLSX.wfSheet worksheet range = true ->
    Express.normalize worksheet range clock = Js.Returned (headers, out) ->
    Permutation (Rows.admittedInOrder worksheet range clock) out
    /\ StronglySorted (fun a b => (Rows.sortKey a <= Rows.sortKey b)%Z) out
    /\ forall k : Z,
         List.filter (fun a => (Rows.sortKey a =? k)%Z) out
         = List.filter (fun a => (Rows.sortKey a =? k)%Z)
             (Rows.admittedInOrder worksheet range clock).
Proof.
  intros worksheet range clock headers out Hwf H.
  apply normalize_returned in H as (_ & -> & _).
  pose proof (admittedInOrder_finished worksheet range clock Hwf) as Hfin.
  split; [apply sort_perm|]. split.
  - apply (sort_sorted _ _ Rows.finished byRowNumber_sortKey _ Hfin).
  - intros k. apply (sort_filter _ _ Rows.finished byRowNumber_sortKey _ _ Hfin).
Qed.

Lemma output_sorted_and_stable_witness :
  let out := Js.sort Express.byRowNumber
               (Rows.admittedInOrder Sample.sheet Sample.range Sample.clock) in
  Permutation (Rows.admittedInOrder Sample.sheet Sample.range Sample.clock) out
  /\ StronglySorted (fun a b => (Rows.sortKey a <= Rows.sortKey b)%Z) out
  /\ forall k : Z,
       List.filter (fun a => (Rows.sortKey a =? k)%Z) out
       = List.filter (fun a => (Rows.sortKey a =? k)%Z)
           (Rows.admittedInOrder Sample.sheet Sample.range Sample.clock).
Proof.
  apply (output_sorted_and_stable Sample.sheet Sample.range Sample.clock
           (Express.extractHeaders Sample.sheet Sample.range)).
  - reflexivity.
  - reflexivity.
Defined.

(** * Further properties of the code *)

(** ** Header labels *)

Section HeaderFacts.

Import Js.

Lemma or_truthy (a b : value) : truthy b = true -> truthy (or a b) = true.
Proof. intros Hb. unfold or. now destruct (truthy a) eqn:E. Qed.

Lemma extractHeaders_truthy (worksheet : XLSX.worksheet) (range : XLSX.range)
  (h : value) :
  h ∈ Express.extractHeaders worksheet range -> truthy h = true.
Proof.
  unfold Express.extractHeaders. intros (col & -> & _)%list_elem_of_fmap.
  now apply or_truthy.
Qed.

Lemma extractHeaders_length (worksheet : XLSX.worksheet) (range : XLSX.range) :
  length (Express.extractHeaders worksheet range)
  = XLSX.c (XLSX.e range) + 1 - XLSX.c (XLSX.s range).
Proof.
  unfold Express.extractHeaders, Express.columns.
  now rewrite length_fmap, length_seq.
Qed.

Lemma elem_of_columns (range : XLSX.range) (col : nat) :
  col ∈ Express.columns range
  <-> XLSX.c (XLSX.s range) <= col <= XLSX.c (XLSX.e range).
Proof.
  unfold Express.columns. rewrite list_elem_of_In, in_seq. lia.
Qed.

Lemma elem_of_dataRows (range : XLSX.range) (row : nat) :
  row ∈ Express.dataRows range
  <-> XLSX.r (XLSX.s range) < row <= XLSX.r (XLSX.e range).
Proof.
  unfold Express.dataRows. rewrite list_elem_of_In, in_seq. lia.
Qed.

Lemma header_of_column (worksheet : XLSX.worksheet) (range : XLSX.range)
  (col : nat) :
  col ∈ Express.columns range ->
  exists h,
    Express.extractHeaders worksheet range !! (col - XLSX.c (XLSX.s range)) = Some h
    /\ truthy h = true.
Proof.
  intros Hcol%elem_of_columns.
  destruct (lookup_lt_is_Some_2 (Express.extractHeaders worksheet range)
              (col - XLSX.c (XLSX.s range))) as [h Hh].
  { rewrite extractHeaders_length. lia. }
  exists h. split; [exact Hh|].
  apply (extractHeaders_truthy worksheet range). eapply list_elem_of_lookup_2, Hh.
Qed.

Lemma column_of_header (worksheet : XLSX.worksheet) (range : XLSX.range)
  (h : value) :
  h ∈ Express.extractHeaders worksheet range ->
  exists col,
    col ∈ Express.columns range
    /\ Express.extractHeaders worksheet range !! (col - XLSX.c (XLSX.s range))
       = Some h.
Proof.
  intros [i Hi]%list_elem_of_lookup_1.
  pose proof (lookup_lt_Some _ _ _ Hi) as Hlt. rewrite extractHeaders_length in Hlt.
  exists (XLSX.c (XLSX.s range) + i). split.
  - apply elem_of_columns. lia.
  - now replace (XLSX.c (XLSX.s range) + i - XLSX.c (XLSX.s range)) with i by lia.
Qed.

End HeaderFacts.

(** X1. Every header label is truthy, and every column of the range has
    one: the lookup [headers[col - range.s.c]] of the column loop is never
    [undefined], and the [!header] half of its skip test never holds. *)
Theorem header_labels_never_empty :
  forall (worksheet : XLSX.worksheet) (range : XLSX.range),
    Forall (fun h => Js.truthy h = true) (Express.extractHeaders worksheet range)
    /\ Forall
         (fun col =>
            exists h,
              Express.extractHeaders worksheet range !! (col - XLSX.c (XLSX.s range))
              = Some h
              /\ negb (Js.truthyOpt (Some h)) = false)
         (Express.columns range).
Proof.
  intros worksheet range. split.
  - apply Forall_forall. intros h. apply extractHeaders_truthy.
  - apply Forall_forall. intros col Hcol.
    destruct (header_of_column worksheet range col Hcol) as (h & Hh & Ht).
    exists h. split; [exact Hh|]. simpl. now rewrite Ht.
Qed.

(** ** When the normalisation throws *)

Section ThrowFacts.

Import Js.

Lemma processColumn_thrown (worksheet : XLSX.worksheet) (headers : list value)
  (range : XLSX.range) (row col : nat) (rowData : gmap string value) (e : exn) :
  Express.processColumn worksheet headers range row rowData col = Thrown e ->
  e = TypeError "header.startsWith is not a function".
Proof.
  unfold Express.processColumn. destruct (negb _); [discriminate|].
  destruct (headers !! _) as [[h|x]|]; try (now intros [= <-]).
  destruct (JsString.startsWith h "Column"); discriminate.
Qed.

Lemma processColumn_numeric (worksheet : XLSX.worksheet) (headers : list value)
  (range : XLSX.range) (row col : nat) (rowData : gmap string value)
  (x : JsNumber.number) :
  headers !! (col - XLSX.c (XLSX.s range)) = Some (VNum x) ->
  truthy (VNum x) = true ->
  Express.processColumn worksheet headers range row rowData col
  = Thrown (TypeError "header.startsWith is not a function").
Proof.
  intros Hh Ht. unfold Express.processColumn. rewrite Hh. simpl in *.
  now rewrite Ht.
Qed.

Lemma forEach_processColumn_numeric (worksheet : XLSX.worksheet)
  (headers : list value) (range : XLSX.range) (row : nat) (cols : list nat)
  (rowData : gmap string value) (col : nat) (x : JsNumber.number) :
  col ∈ cols ->
  headers !! (col - XLSX.c (XLSX.s range)) = Some (VNum x) ->
  truthy (VNum x) = true ->
  forEach (Express.processColumn worksheet headers range row) cols rowData
  = Thrown (TypeError "header.startsWith is not a function").
Proof.
  intros Hin Hh Ht. revert rowData.
  induction cols as [|c cols IH]; intros rowData; [now apply elem_of_nil in Hin|].
  simpl.
  destruct (Express.processColumn worksheet headers range row rowData c)
    as [mid|e] eqn:E; simpl.
  - apply elem_of_cons in Hin as [->|Hin]; [|now apply IH].
    now rewrite (processColumn_numeric _ _ _ _ _ _ x Hh Ht) in E.
  - now rewrite (processColumn_thrown _ _ _ _ _ _ _ E).
Qed.

Lemma numericHeader_true (headers : list value) :
  Fields.numericHeader headers = true <-> exists x, VNum x ∈ headers.
Proof.
  unfold Fields.numericHeader. rewrite existsb_exists. split.
  - intros ([t|x] & Hin & H); [discriminate|].
    exists x. now apply list_elem_of_In.
  - intros [x Hx]. exists (VNum x). split; [now apply list_elem_of_In|reflexivity].
Qed.

Lemma numericHeader_false (headers : list value) :
  Fields.numericHeader headers = false ->
  forall h, h ∈ headers -> exists t, h = VStr t.
Proof.
  intros H [t|x] Hin; [now exists t|].
  assert (Fields.numericHeader headers = true) as Ht
    by (apply numericHeader_true; now exists x).
  congruence.
Qed.

Lemma dataRows_nil (range : XLSX.range) :
  (XLSX.r (XLSX.s range) <? XLSX.r (XLSX.e range)) = false ->
  Express.dataRows range = [].
Proof.
  intros H%Nat.ltb_ge. unfold Express.dataRows.
  now replace (XLSX.r (XLSX.e range) - XLSX.r (XLSX.s range)) with 0 by lia.
Qed.

Lemma dataRows_cons (range : XLSX.range) :
  (XLSX.r (XLSX.s range) <? XLSX.r (XLSX.e range)) = true ->
  exists rows, Express.dataRows range = (XLSX.r (XLSX.s range) + 1) :: rows.
Proof.
  intros H%Nat.ltb_lt. unfold Express.dataRows.
  destruct (XLSX.r (XLSX.e range) - XLSX.r (XLSX.s range)) as [|n] eqn:E; [lia|].
  simpl. eauto.
Qed.

End ThrowFacts.

(** X2. A header label that is a number makes the normalisation throw as
    soon as the range has a data row; the exception is the [TypeError] of
    calling [startsWith] on a number.  When every header label is a text,
    or the range has no data row, the normalisation returns the headers and
    the admitted records, sorted. *)
Theorem normalize_throws_on_numeric_header :
  forall (worksheet : XLSX.worksheet) (range : XLSX.range) (clock : nat -> string),
    let headers := Express.extractHeaders worksheet range in
    ((exists x, Js.VNum x ∈ headers) ->
     XLSX.r (XLSX.s range) < XLSX.r (XLSX.e range) ->
     Express.normalize worksheet range clock
     = Js.Thrown (Js.TypeError "header.startsWith is not a function"))
    /\ ((forall h, h ∈ headers -> exists t, h = Js.VStr t)
        \/ XLSX.r (XLSX.e range) <= XLSX.r (XLSX.s range) ->
        Express.normalize worksheet range clock
        = Js.Returned
            (headers,
             Js.sort Express.byRowNumber
               (Rows.admittedInOrder worksheet range clock))).
Proof.
  intros worksheet range clock headers. subst headers. split.
  - intros [x Hx] Hrows%Nat.ltb_lt.
    destruct (column_of_header _ _ _ Hx) as (col & Hcol & Hh).
    destruct (dataRows_cons range Hrows) as [rows Erows].
    unfold Express.normalize. rewrite Erows. simpl.
    unfold Express.processRow at 1, Express.buildRow.
    rewrite (forEach_processColumn_numeric _ _ _ _ _ _ col x Hcol Hh).
    + reflexivity.
    + eapply extractHeaders_truthy, list_elem_of_lookup_2, Hh.
  - intros [Htext | Hrows%Nat.ltb_ge].
    + destruct (forEach_processRow_returns worksheet
                  (Express.extractHeaders worksheet range) range clock
                  (Express.dataRows range) [] Htext) as [out Hout].
      assert (Hn : Express.normalize worksheet range clock
                   = Js.Returned (Express.extractHeaders worksheet range,
                                  Js.sort Express.byRowNumber out)).
      { unfold Express.normalize. now rewrite Hout. }
      rewrite Hn. apply normalize_returned in Hn as (_ & -> & _). reflexivity.
    + unfold Express.normalize, Rows.admittedInOrder.
      now rewrite (dataRows_nil range Hrows).
Qed.

Lemma normalize_throws_on_numeric_header_witness :
  Express.normalize Cases.yearHeader (Cases.range 1 2) Sample.clock
  = Js.Thrown (Js.TypeError "header.startsWith is not a function").
Proof.
  apply (proj1 (normalize_throws_on_numeric_header Cases.yearHeader
                  (Cases.range 1 2) Sample.clock)).
  - exists (JsNumber.ofZ 2024). vm_compute.
    do 2 apply list_elem_of_further. apply list_elem_of_here.
  - simpl. lia.
Defined.

Example numeric_header_throws :
  Express.normalize Cases.yearHeader (Cases.range 1 2) Sample.clock
  = Js.Thrown (Js.TypeError "header.startsWith is not a function")
  /\ Express.normalize Cases.yearHeader (Cases.range 0 2) Sample.clock
     = Js.Returned
         ([Js.VStr "S.No"; Js.VStr "Job Details"; Js.VNum (JsNumber.ofZ 2024)], []).
Proof. split; reflexivity. Qed.

(** ** Which column a field comes from *)

Section SourceFacts.

Import Js.

Lemma canonical_not_subkey (name other suffix : string) :
  name ∈ ["S.No"; "Job Details"; "Comments"] ->
  suffix = "_status" \/ suffix = "_color" \/ suffix = "_type" ->
  name <> other +:+ suffix.
Proof.
  intros Hname Hsuffix Heq.
  assert (Hlen : String.length name = String.length other + String.length suffix).
  { rewrite Heq. clear. induction other; simpl; [reflexivity|now f_equal]. }
  assert (Hend : forall a b c : string, a +:+ c = b +:+ c -> a = b).
  { clear. intros a b c. revert b.
    assert (Hl : forall x y : string,
               String.length (x +:+ y) = String.length x + String.length y).
    { intros x y. induction x; simpl; [reflexivity|now f_equal]. }
    induction a as [|ch a IH]; intros [|ch' b] H; simpl in H.
    - reflexivity.
    - apply (f_equal String.length) in H. simpl in H. rewrite Hl in H. lia.
    - apply (f_equal String.length) in H. simpl in H. rewrite Hl in H. lia.
    - injection H as -> H. f_equal. now apply IH. }
  repeat (apply elem_of_cons in Hname as [->|Hname]);
    [| | |now apply elem_of_nil in Hname];
    destruct Hsuffix as [->| [->| ->]]; simpl in Hlen;
    repeat (destruct other as [|? other]; simpl in Hlen; try lia);
    discriminate Heq.
Qed.

Lemma canonical_not_proto (name : string) :
  name ∈ ["S.No"; "Job Details"; "Comments"] -> name <> "__proto__".
Proof.
  intros Hname ->.
  repeat (apply elem_of_cons in Hname as [?|Hname]; [discriminate|]).
  now apply elem_of_nil in Hname.
Qed.

Lemma arrayIncludes_canonical (name : string) :
  JsString.arrayIncludes ["S.No"; "Job Details"; "Comments"] name = true
  <-> name ∈ ["S.No"; "Job Details"; "Comments"].
Proof. rewrite arrayIncludes_spec. symmetry. apply list_elem_of_In. Qed.

(** A canonical field after a cell has been stored. *)
Lemma storeCell_canonical (rowData : gmap string value) (header name : string)
  (cellValue : value) :
  name ∈ ["S.No"; "Job Details"; "Comments"] ->
  Express.storeCell rowData header cellValue !! name
  = if String.eqb (Express.cleanHeader header) name
    then Some (or cellValue (VStr ""))
    else rowData !! name.
Proof.
  intros Hname. unfold Express.storeCell.
  destruct (String.eqb_spec (Express.cleanHeader header) name) as [->|Hne].
  - apply arrayIncludes_canonical in Hname as Hinc. rewrite Hinc. simpl.
    apply set_lookup_same. now apply canonical_not_proto.
  - destruct (negb _).
    + rewrite !set_lookup_other; [reflexivity|exact Hne|..];
        intros Heq; symmetry in Heq; revert Heq;
        apply canonical_not_subkey; auto.
    + now apply set_lookup_other.
Qed.

Lemma processColumn_canonical (worksheet : XLSX.worksheet) (headers : list value)
  (range : XLSX.range) (row col : nat) (rowData rowData' : gmap string value)
  (name : string) :
  name ∈ ["S.No"; "Job Details"; "Comments"] ->
  Express.processColumn worksheet headers range row rowData col = Returned rowData' ->
  rowData' !! name
  = if match headers !! (col - XLSX.c (XLSX.s range)) with
       | Some (VStr header) =>
           negb (String.eqb header "")
           && negb (JsString.startsWith header "Column")
           && String.eqb (Express.cleanHeader header) name
       | _ => false
       end
    then Some (Fields.stored worksheet row col)
    else rowData !! name.
Proof.
  intros Hname. unfold Express.processColumn.
  destruct (headers !! _) as [[h|x]|]; simpl.
  - destruct (String.eqb h ""); simpl; [now intros [= <-]|].
    destruct (JsString.startsWith h "Column"); simpl; intros [= <-]; [reflexivity|].
    now apply storeCell_canonical.
  - destruct (JsNumber.truthy x); simpl; [discriminate|now intros [= <-]].
  - now intros [= <-].
Qed.

Lemma forEach_processColumn_canonical (worksheet : XLSX.worksheet)
  (headers : list value) (range : XLSX.range) (row : nat) (cols : list nat)
  (rowData rowData' : gmap string value) (name : string) :
  name ∈ ["S.No"; "Job Details"; "Comments"] ->
  forEach (Express.processColumn worksheet headers range row) cols rowData
  = Returned rowData' ->
  rowData' !! name
  = match
      last (List.filter
              (fun col =>
                 match headers !! (col - XLSX.c (XLSX.s range)) with
                 | Some (VStr header) =>
                     negb (String.eqb header "")
                     && negb (JsString.startsWith header "Column")
                     && String.eqb (Express.cleanHeader header) name
                 | _ => false
                 end) cols)
    with
    | Some col => Some (Fields.stored worksheet row col)
    | None => rowData !! name
    end.
Proof.
  intros Hname. revert rowData.
  induction cols as [|col cols IH]; intros rowData; simpl.
  - now intros [= <-].
  - destruct (Express.processColumn worksheet headers range row rowData col)
      as [mid|] eqn:E; simpl; [|discriminate].
    intros H. rewrite (IH _ H).
    rewrite (processColumn_canonical _ _ _ _ _ _ _ _ Hname E).
    set (test := fun c : nat => match headers !! (c - XLSX.c (XLSX.s range)) with
                                | Some (VStr header) => _
                                | _ => false
                                end).
    change (match headers !! (col - XLSX.c (XLSX.s range)) with
            | Some (VStr header) => _
            | _ => false
            end) with (test col).
    destruct (test col); simpl.
    + destruct (List.filter test cols) as [|c l]; simpl; [reflexivity|].
      rewrite last_cons. now destruct (last l).
    + reflexivity.
Qed.

Lemma buildRow_canonical (worksheet : XLSX.worksheet) (headers : list value)
  (range : XLSX.range) (row : nat) (rowData : gmap string value) (name : string) :
  name ∈ ["S.No"; "Job Details"; "Comments"] ->
  Express.buildRow worksheet headers range row = Returned rowData ->
  rowData !! name
  = Fields.stored worksheet row <$> last (Fields.storedUnder headers range name).
Proof.
  intros Hname H. unfold Express.buildRow in H.
  rewrite (forEach_processColumn_canonical _ _ _ _ _ _ _ _ Hname H).
  unfold Fields.storedUnder. rewrite lookup_empty.
  now destruct (last _).
Qed.

Lemma candidate_without_key (worksheet : XLSX.worksheet) (headers : list value)
  (range : XLSX.range) (clock : nat -> string) (row : nat) :
  Fields.storedUnder headers range "S.No" = []
  \/ Fields.storedUnder headers range "Job Details" = [] ->
  Rows.candidate worksheet headers range clock row = [].
Proof.
  intros Hno. unfold Rows.candidate.
  destruct (Express.buildRow worksheet headers range row) as [rowData|] eqn:E;
    [|reflexivity].
  assert (Hs := buildRow_canonical worksheet headers range row rowData "S.No"
                  (list_elem_of_here _ _) E).
  assert (Hj := buildRow_canonical worksheet headers range row rowData "Job Details"
                  (list_elem_of_further _ _ _ (list_elem_of_here _ _)) E).
  destruct Hno as [Hno|Hno]; rewrite Hno in *; simpl in *.
  - now rewrite Hs.
  - rewrite Hj. now destruct (rowData !! "S.No").
Qed.

End SourceFacts.

(** X3. When several columns have headers that map to the same canonical
    name ([S.No], [Job Details] or [Comments]), the field of the record holds
    the cell of the last such column of the range; with no such column the
    field is absent. *)
Theorem canonical_field_from_last_column :
  forall (worksheet : XLSX.worksheet) (headers : list Js.value)
    (range : XLSX.range) (row : nat) (rowData : gmap string Js.value)
    (name : string),
    name ∈ ["S.No"; "Job Details"; "Comments"] ->
    Express.buildRow worksheet headers range row = Js.Returned rowData ->
    rowData !! name
    = Fields.stored worksheet row <$> last (Fields.storedUnder headers range name).
Proof.
  intros worksheet headers range row rowData name Hname H.
  now apply buildRow_canonical.
Qed.

Lemma canonical_field_from_last_column_witness :
  Cases.twoSerialsRecord !! "S.No"
  = Fields.stored Cases.twoSerials 1
    <$> last (Fields.storedUnder
                (Express.extractHeaders Cases.twoSerials (Cases.range 1 2))
                (Cases.range 1 2) "S.No").
Proof.
  apply (canonical_field_from_last_column Cases.twoSerials
           (Express.extractHeaders Cases.twoSerials (Cases.range 1 2))
           (Cases.range 1 2) 1).
  - apply list_elem_of_here.
  - reflexivity.
Defined.

Example second_serial_column_wins :
  Fields.storedUnder (Express.extractHeaders Cases.twoSerials (Cases.range 1 2))
    (Cases.range 1 2) "S.No" = [0; 2]
  /\ Cases.twoSerialsRecord !! "S.No" = Some (Js.VStr "3").
Proof. split; reflexivity. Qed.

(** X4. A sheet in which no header maps to [S.No], or none to
    [Job Details], yields no record at all: whenever the normalisation
    returns, its list of records is empty; and it does return, with the
    headers and the empty list, when every header label is a text. *)
Theorem no_key_column_no_records :
  forall (worksheet : XLSX.worksheet) (range : XLSX.range) (clock : nat -> string),
    let headers := Express.extractHeaders worksheet range in
    Fields.storedUnder headers range "S.No" = []
    \/ Fields.storedUnder headers range "Job Details" = [] ->
    (forall (headers' : list Js.value) (out : list (gmap string Js.value)),
        Express.normalize worksheet range clock = Js.Returned (headers', out) ->
        out = [])
    /\ ((forall h, h ∈ headers -> exists t, h = Js.VStr t) ->
        Express.normalize worksheet range clock = Js.Returned (headers, [])).
Proof.
  intros worksheet range clock headers Hno. subst headers.
  assert (Hempty :
    forall (headers' : list Js.value) (out : list (gmap string Js.value)),
      Express.normalize worksheet range clock = Js.Returned (headers', out) ->
      out = []).
  { intros headers' out Hnorm.
    apply normalize_returned in Hnorm as (-> & -> & _).
    unfold Rows.admittedInOrder.
    assert (Hnil : Express.dataRows range
                   ≫= Rows.candidate worksheet
                        (Express.extractHeaders worksheet range) range clock = []).
    { induction (Express.dataRows range) as [|row rows IH]; [reflexivity|].
      now rewrite bind_cons, (candidate_without_key _ _ _ _ _ Hno), IH. }
    now rewrite Hnil. }
  split; [exact Hempty|].
  intros Htext.
  destruct (forEach_processRow_returns worksheet
              (Express.extractHeaders worksheet range) range clock
              (Express.dataRows range) [] Htext) as [out Hout].
  assert (Hn : Express.normalize worksheet range clock
               = Js.Returned (Express.extractHeaders worksheet range,
                              Js.sort Express.byRowNumber out)).
  { unfold Express.normalize. now rewrite Hout. }
  rewrite Hn. now rewrite (Hempty _ _ Hn).
Qed.

Lemma no_key_column_no_records_witness :
  Express.normalize Cases.noJob (Cases.range 1 1) Sample.clock
  = Js.Returned (Express.extractHeaders Cases.noJob (Cases.range 1 1), []).
Proof.
  apply (proj2 (no_key_column_no_records Cases.noJob (Cases.range 1 1)
                  Sample.clock (or_intror eq_refl))).
  intros h Hh. vm_compute in Hh.
  repeat (apply elem_of_cons in Hh as [->|Hh]; [eexists; reflexivity|]).
  now apply not_elem_of_nil in Hh.
Defined.

(** ** What a record holds *)

Section RecordFacts.

Import Js.

(** A number that the cell formatting leaves a number lies outside the unit
    interval. *)
Lemma resolved_number_outside (worksheet : XLSX.worksheet) (row col : nat)
  (x : JsNumber.number) :
  Express.getFormattedCellValue worksheet row col = VNum x ->
  JsNumber.geb x (JsNumber.ofZ 0) && JsNumber.ltb x (JsNumber.ofZ 1) = false.
Proof.
  unfold Express.getFormattedCellValue.
  destruct (worksheet row col) as [cell|]; [|discriminate].
  assert (Hraw : match XLSX.v cell with
                 | Some (VNum y) =>
                     if JsNumber.geb y (JsNumber.ofZ 0) && JsNumber.ltb y (JsNumber.ofZ 1)
                     then Express.convertExcelTime (VNum y)
                     else VNum y
                 | Some (VStr t) => VStr t
                 | None => VStr ""
                 end = VNum x ->
                 JsNumber.geb x (JsNumber.ofZ 0) && JsNumber.ltb x (JsNumber.ofZ 1)
                 = false).
  { destruct (XLSX.v cell) as [[t|y]|]; try discriminate.
    destruct (JsNumber.geb y (JsNumber.ofZ 0) && JsNumber.ltb y (JsNumber.ofZ 1))
      eqn:E; [discriminate|]. now intros [= <-]. }
  destruct (XLSX.w cell) as [t|]; [|exact Hraw].
  destruct (truthy (VStr t)); [discriminate|exact Hraw].
Qed.

Lemma plain_stored (worksheet : XLSX.worksheet) (row col : nat) :
  Fields.plain (or (Express.getFormattedCellValue worksheet row col) (VStr "")).
Proof.
  unfold Fields.plain, or. intros x.
  destruct (truthy (Express.getFormattedCellValue worksheet row col)) eqn:E;
    [|discriminate].
  intros Hx. rewrite Hx in E. split; [exact E|].
  now apply (resolved_number_outside worksheet row col).
Qed.

Lemma set_plain (o : gmap string value) (key : string) (b : value) :
  (forall k a, o !! k = Some a -> Fields.plain a) -> Fields.plain b ->
  forall k a, set o key b !! k = Some a -> Fields.plain a.
Proof.
  intros Ho Hb k a. unfold set.
  destruct (String.eqb key "__proto__"); [apply Ho|].
  destruct (decide (key = k)) as [->|Hne].
  - rewrite lookup_insert_eq. now intros [= <-].
  - rewrite lookup_insert_ne by exact Hne. apply Ho.
Qed.

Lemma storeCell_plain (worksheet : XLSX.worksheet) (row col : nat)
  (rowData : gmap string value) (header : string) :
  (forall k a, rowData !! k = Some a -> Fields.plain a) ->
  forall k a,
    Express.storeCell rowData header
      (Express.getFormattedCellValue worksheet row col) !! k = Some a ->
    Fields.plain a.
Proof.
  intros Hinv. unfold Express.storeCell.
  assert (Hstr : forall t, Fields.plain (VStr t)) by (intros t x [=]).
  pose proof (plain_stored worksheet row col) as Hcell.
  destruct (negb _).
  - apply set_plain; [|apply Hstr]. apply set_plain; [|apply Hstr].
    apply set_plain; [|apply Hstr]. now apply set_plain.
  - now apply set_plain.
Qed.

Lemma buildRow_plain (worksheet : XLSX.worksheet) (headers : list value)
  (range : XLSX.range) (row : nat) (rowData : gmap string value) :
  Express.buildRow worksheet headers range row = Returned rowData ->
  forall k a, rowData !! k = Some a -> Fields.plain a.
Proof.
  unfold Express.buildRow.
  assert (H0 : forall k a, (∅ : gmap string value) !! k = Some a -> Fields.plain a).
  { intros k a. now rewrite lookup_empty. }
  revert H0. generalize (∅ : gmap string value).
  induction (Express.columns range) as [|col cols IH]; intros rd Hrd; simpl.
  - now intros [= <-].
  - destruct (Express.processColumn worksheet headers range row rd col)
      as [mid|] eqn:E; simpl; [|discriminate].
    apply IH. unfold Express.processColumn in E.
    destruct (negb _); [now injection E as <-|].
    destruct (headers !! _) as [[h|x]|]; try discriminate.
    destruct (JsString.startsWith h "Column"); injection E as <-; [exact Hrd|].
    now apply storeCell_plain.
Qed.

Lemma addMetadata_lookup (rowData : gmap string value) (sNo : option value)
  (now : string) :
  let record := Express.addMetadata rowData sNo now in
  record !! "id" = Some (VStr ("row-" +:+ toStringOpt sNo))
  /\ record !! "rowNumber" = Some (VNum (toNumberOpt sNo))
  /\ record !! "uploadDate" = Some (VStr now)
  /\ forall key, key <> "id" -> key <> "rowNumber" -> key <> "uploadDate" ->
       record !! key = rowData !! key.
Proof.
  unfold Express.addMetadata. repeat split.
  - rewrite !set_lookup_other by discriminate. now apply set_lookup_same.
  - rewrite set_lookup_other by discriminate. now apply set_lookup_same.
  - now apply set_lookup_same.
  - intros key H1 H2 H3. rewrite !set_lookup_other by congruence. reflexivity.
Qed.

Lemma trim_nonempty (t : string) : JsString.trim t <> "" -> t <> "".
Proof. intros H ->. now apply H. Qed.

(** The fields of a record of the output. *)
Lemma output_record_fields (worksheet : XLSX.worksheet) (range : XLSX.range)
  (clock : nat -> string) (headers : list value)
  (out : list (gmap string value)) (record : gmap string value) :
  Express.normalize worksheet range clock = Returned (headers, out) ->
  record ∈ out ->
  exists (row : nat) (sNo jobDetails : value),
    row ∈ Express.dataRows range
    /\ record !! "S.No" = Some sNo
    /\ truthy sNo = true
    /\ record !! "Job Details" = Some jobDetails
    /\ truthy jobDetails = true
    /\ record !! "id" = Some (VStr ("row-" +:+ toString sNo))
    /\ record !! "rowNumber" = Some (VNum (toNumber sNo))
    /\ JsNumber.isNaN (toNumber sNo) = false
    /\ record !! "uploadDate" = Some (VStr (clock row)).
Proof.
  intros Hnorm Hin.
  apply (output_membership _ _ _ _ _ Hnorm) in Hin
    as (row & rowData & Hrow & Hbuild & Hadm & ->).
  destruct Hadm as (sNo & job & Hs & Hne & Hnan & Hj & Hjob).
  pose proof (buildRow_kept _ _ _ _ _ Hbuild) as Hkept.
  destruct (addMetadata_lookup rowData (rowData !! "S.No") (clock row))
    as (Hid & Hnum & Hdate & Hother).
  exists row, sNo, job. rewrite !Hother by discriminate.
  rewrite Hid, Hnum, Hdate, Hs. simpl.
  repeat split; auto.
  - destruct sNo as [t|x]; simpl.
    + destruct (String.eqb_spec t ""); [subst; contradiction|reflexivity].
    + now apply (Hkept _ _ Hs).
  - destruct job as [t|x]; simpl.
    + apply trim_nonempty in Hjob. now destruct (String.eqb_spec t "").
    + now apply (Hkept _ _ Hj).
Qed.

End RecordFacts.

(** X5. Under a column key a record never holds a number of the unit
    interval, nor zero, nor NaN: a raw number from 0 up to 1 is kept as its
    clock text, and a falsy value as the empty text. *)
Theorem record_numbers_outside_unit_interval :
  forall (worksheet : XLSX.worksheet) (headers : list Js.value)
    (range : XLSX.range) (row : nat) (rowData : gmap string Js.value)
    (key : string) (x : JsNumber.number),
    Express.buildRow worksheet headers range row = Js.Returned rowData ->
    rowData !! key = Some (Js.VNum x) ->
    JsNumber.isNaN x = false
    /\ JsNumber.isZero x = false
    /\ JsNumber.geb x (JsNumber.ofZ 0) && JsNumber.ltb x (JsNumber.ofZ 1) = false.
Proof.
  intros worksheet headers range row rowData key x Hbuild Hx.
  destruct (buildRow_plain _ _ _ _ _ Hbuild key _ Hx x eq_refl) as [Ht Hout].
  unfold JsNumber.truthy in Ht. apply negb_true_iff, orb_false_iff in Ht as [Hz Hn].
  auto.
Qed.

Lemma record_numbers_outside_unit_interval_witness :
  JsNumber.isNaN (JsNumber.ofZ 42) = false
  /\ JsNumber.isZero (JsNumber.ofZ 42) = false
  /\ JsNumber.geb (JsNumber.ofZ 42) (JsNumber.ofZ 0)
     && JsNumber.ltb (JsNumber.ofZ 42) (JsNumber.ofZ 1) = false.
Proof.
  apply (record_numbers_outside_unit_interval Sample.sheet
           (Express.extractHeaders Sample.sheet Sample.range) Sample.range 6
           (Sample.record 6) "Job Details").
  - reflexivity.
  - reflexivity.
Defined.

(** X6. Every record of the output carries the metadata of its row, derived
    from its [S.No] field alone: [id] is [row-] followed by the text of
    [S.No], [rowNumber] is [Number(S.No)] and is not NaN, [uploadDate] is the
    time read for that row; a column of the sheet named [id], [rowNumber] or
    [uploadDate] is overwritten.  Its [S.No] and [Job Details] are truthy. *)
Theorem output_records_carry_metadata :
  forall (worksheet : XLSX.worksheet) (range : XLSX.range) (clock : nat -> string)
    (headers : list Js.value) (out : list (gmap string Js.value)),
    Express.normalize worksheet range clock = Js.Returned (headers, out) ->
    Forall
      (fun record : gmap string Js.value =>
         exists (row : nat) (sNo jobDetails : Js.value),
           row ∈ Express.dataRows range
           /\ record !! "S.No" = Some sNo
           /\ Js.truthy sNo = true
           /\ record !! "Job Details" = Some jobDetails
           /\ Js.truthy jobDetails = true
           /\ record !! "id" = Some (Js.VStr ("row-" +:+ Js.toString sNo))
           /\ record !! "rowNumber" = Some (Js.VNum (Js.toNumber sNo))
           /\ JsNumber.isNaN (Js.toNumber sNo) = false
           /\ record !! "uploadDate" = Some (Js.VStr (clock row)))
      out.
Proof.
  intros worksheet range clock headers out Hnorm.
  apply Forall_forall. intros record.
  apply (output_record_fields _ _ _ _ _ _ Hnorm).
Qed.

Lemma output_records_carry_metadata_witness :
  Forall
    (fun record : gmap string Js.value =>
       exists (row : nat) (sNo jobDetails : Js.value),
         row ∈ Express.dataRows Sample.range
         /\ record !! "S.No" = Some sNo
         /\ Js.truthy sNo = true
         /\ record !! "Job Details" = Some jobDetails
         /\ Js.truthy jobDetails = true
         /\ record !! "id" = Some (Js.VStr ("row-" +:+ Js.toString sNo))
         /\ record !! "rowNumber" = Some (Js.VNum (Js.toNumber sNo))
         /\ JsNumber.isNaN (Js.toNumber sNo) = false
         /\ record !! "uploadDate" = Some (Js.VStr (Sample.clock row)))
    Cases.response.
Proof.
  apply (output_records_carry_metadata Sample.sheet Sample.range Sample.clock
           (Express.extractHeaders Sample.sheet Sample.range) Cases.response).
  reflexivity.
Defined.

(** ** Classification up to case and padding *)

Section ClassifyFacts.

Import Js JsString.

Lemma getStatusInfo_ext (a b : value) :
  truthy a = truthy b ->
  trim (toUpperCase (toString a)) = trim (toUpperCase (toString b)) ->
  Express.getStatusInfo a = Express.getStatusInfo b.
Proof. intros Ht Hs. unfold Express.getStatusInfo. now rewrite Ht, Hs. Qed.

Lemma append_nonempty (a t b : string) : t <> "" -> a +:+ t +:+ b <> "".
Proof.
  intros Ht H. apply append_eq_empty in H as [_ H].
  apply append_eq_empty in H as [H _]. contradiction.
Qed.

Lemma truthy_text (t : string) : t <> "" -> truthy (VStr t) = true.
Proof. intros H. simpl. now destruct (String.eqb_spec t ""). Qed.

Lemma status_normalised (a : value) :
  truthy a = true ->
  status (Express.getStatusInfo a) = trim (toUpperCase (toString a)).
Proof.
  intros Ht. unfold Express.getStatusInfo. rewrite Ht. simpl negb. cbv iota zeta.
  set (S := trim (toUpperCase (toString a))).
  repeat match goal with
         | |- context [if ?b then _ else _] => destruct b eqn:?
         end; try reflexivity.
  simpl. symmetry. now apply String.eqb_eq.
Qed.

End ClassifyFacts.

(** X7. The classification of a text ignores letter case and white space
    around it: a text that is not blank gets the same bundle when it is
    written with other letters of the same upper case and padded with white
    space of JavaScript on either side. *)
Theorem classification_ignores_case_and_padding :
  forall before after s t : string,
    JsString.isBlank before = true ->
    JsString.isBlank after = true ->
    JsString.isBlank s = false ->
    JsString.wellFormed t = true ->
    JsString.toUpperCase t = JsString.toUpperCase s ->
    Express.getStatusInfo (Js.VStr (before +:+ t +:+ after))
    = Express.getStatusInfo (Js.VStr s).
Proof.
  intros before after s t Hb Ha Hs Hwf Ht.
  assert (Hs0 : s <> "") by (intros ->; discriminate).
  assert (Ht0 : t <> "").
  { intros ->. symmetry in Ht. now apply toUpperCase_empty in Ht. }
  apply getStatusInfo_ext.
  - rewrite !truthy_text; auto using append_nonempty.
  - simpl Js.toString. rewrite (toUpperCase_padded _ _ _ Hb Ha Hwf).
    rewrite (trim_padded _ _ _ Hb Ha).
    + now rewrite Ht.
    + rewrite chars_toUpperCase. now apply full_upper.
Qed.

Lemma classification_ignores_case_and_padding_witness :
  Express.getStatusInfo
    (Js.VStr (JsString.encode 0xA0 +:+ "pENDING" +:+ "  "))
  = Express.getStatusInfo (Js.VStr "Pending").
Proof.
  apply (classification_ignores_case_and_padding
           (JsString.encode 0xA0) "  " "Pending" "pENDING");
    reflexivity.
Defined.

(** X8. A text of white space only, one character or more, is not treated
    as empty: it is classified [info] with an empty status text, where the
    empty text is classified [NA]. *)
Theorem blank_text_classified_info :
  forall s : string,
    s <> "" ->
    JsString.isBlank s = true ->
    Express.getStatusInfo (Js.VStr s)
    = {| status := ""; color := "#0070C0"; type := "info" |}
    /\ Express.getStatusInfo (Js.VStr "")
       = {| status := "NA"; color := "#d9d9d9"; type := "default" |}.
Proof.
  intros s Hs Hb. split; [|reflexivity].
  unfold Express.getStatusInfo. rewrite (truthy_text s Hs). simpl Js.toString.
  rewrite (toUpperCase_blank s Hb), (trim_blank s Hb). reflexivity.
Qed.

Lemma blank_text_classified_info_witness :
  Express.getStatusInfo (Js.VStr "  ")
  = {| status := ""; color := "#0070C0"; type := "info" |}
  /\ Express.getStatusInfo (Js.VStr "")
     = {| status := "NA"; color := "#d9d9d9"; type := "default" |}.
Proof.
  apply (blank_text_classified_info "  "); [discriminate|reflexivity].
Defined.

(** X9. Classifying the status text of a bundle gives the bundle again,
    unless that text is empty: the classification is idempotent on what it
    produces. *)
Theorem classification_idempotent :
  forall value : Js.value,
    status (Express.getStatusInfo value) <> "" ->
    Express.getStatusInfo (Js.VStr (status (Express.getStatusInfo value)))
    = Express.getStatusInfo value.
Proof.
  intros value Hne. destruct (Js.truthy value) eqn:Ht.
  - rewrite (status_normalised value Ht) in *.
    apply getStatusInfo_ext.
    + now rewrite truthy_text.
    + apply normalised_idem.
  - unfold Express.getStatusInfo. rewrite Ht. reflexivity.
Qed.

Lemma classification_idempotent_witness :
  Express.getStatusInfo
    (Js.VStr (status (Express.getStatusInfo (Js.VStr " active "))))
  = Express.getStatusInfo (Js.VStr " active ").
Proof.
  apply (classification_idempotent (Js.VStr " active ")). vm_compute. discriminate.
Defined.

(** ** Clock texts and their classification *)

Section ClockFacts.

Import Js.

Local Open Scope Z_scope.

Lemma clock_status_table :
  forallb
    (fun k : nat =>
       let text := Spec.clockText (Z.of_nat k) in
       let info := Express.getStatusInfo (VStr text) in
       String.eqb (status info) text
       && String.eqb (color info)
            (if String.eqb text "00:00" then "#d9d9d9" else "#0070C0")
       && String.eqb (type info)
            (if String.eqb text "00:00" then "default" else "processing")
       && JsString.includes text ":")
    (seq 0 1441) = true.
Proof. vm_compute. reflexivity. Qed.

Lemma clock_status (n : Z) :
  0 <= n <= 1440 ->
  let text := Spec.clockText n in
  Express.getStatusInfo (VStr text)
  = {| status := text;
       color := if String.eqb text "00:00" then "#d9d9d9" else "#0070C0";
       type := if String.eqb text "00:00" then "default" else "processing" |}
  /\ JsString.includes text ":" = true.
Proof.
  intros Hn. pose proof clock_status_table as Htab.
  rewrite forallb_forall in Htab.
  specialize (Htab (Z.to_nat n)).
  rewrite Z2Nat.id in Htab by lia.
  assert (Hin : In (Z.to_nat n) (seq 0 1441)) by (apply in_seq; lia).
  apply Htab in Hin. cbv zeta in Hin.
  apply andb_true_iff in Hin as [Hin Hcolon].
  apply andb_true_iff in Hin as [Hin Htype].
  apply andb_true_iff in Hin as [Hstatus Hcolor].
  apply String.eqb_eq in Hstatus, Hcolor, Htype.
  cbv zeta. split; [|exact Hcolon].
  clear Htab.
  destruct (Express.getStatusInfo (VStr (Spec.clockText n))) as [st co ty].
  cbn [status color type] in *. now subst.
Qed.

Lemma time_cell_resolved (worksheet : XLSX.worksheet) (row col : nat)
  (cell : XLSX.cell) (x : JsNumber.number) :
  worksheet row col = Some cell ->
  XLSX.w cell = None \/ XLSX.w cell = Some "" ->
  XLSX.v cell = Some (VNum x) ->
  JsNumber.geb x (JsNumber.ofZ 0) = true ->
  JsNumber.ltb x (JsNumber.ofZ 1) = true ->
  Express.getFormattedCellValue worksheet row col = Express.convertExcelTime (VNum x).
Proof.
  intros Hcell Hw Hv Hge Hlt. unfold Express.getFormattedCellValue.
  rewrite Hcell, Hv, Hge, Hlt. now destruct Hw as [-> | ->].
Qed.

End ClockFacts.

(** X10. A cell without formatted text whose raw number lies in the unit
    interval is always classified as a time: its value is a clock text, its
    status is that text, and its type is [processing], or [default] for
    [00:00]. *)
Theorem time_fraction_cells_classified_as_time :
  forall (worksheet : XLSX.worksheet) (row col : nat) (cell : XLSX.cell)
    (x : JsNumber.number),
    worksheet row col = Some cell ->
    XLSX.w cell = None \/ XLSX.w cell = Some "" ->
    XLSX.v cell = Some (Js.VNum x) ->
    valid_binary JsNumber.prec JsNumber.emax x = true ->
    JsNumber.geb x (JsNumber.ofZ 0) = true ->
    JsNumber.ltb x (JsNumber.ofZ 1) = true ->
    exists text : string,
      Express.getFormattedCellValue worksheet row col = Js.VStr text
      /\ Express.getStatusInfo (Js.VStr text)
         = {| status := text;
              color := if String.eqb text "00:00" then "#d9d9d9" else "#0070C0";
              type := if String.eqb text "00:00" then "default" else "processing" |}.
Proof.
  intros worksheet row col cell x Hcell Hw Hv Hvalid Hge Hlt.
  destruct (convertExcelTime_clock x Hvalid Hge Hlt) as (n & Hn & _ & Htext).
  exists (Spec.clockText n). split.
  - now rewrite (time_cell_resolved _ _ _ _ _ Hcell Hw Hv Hge Hlt).
  - now apply clock_status.
Qed.

Lemma time_fraction_cells_classified_as_time_witness :
  exists text : string,
    Express.getFormattedCellValue Sample.sheet 1 4 = Js.VStr text
    /\ Express.getStatusInfo (Js.VStr text)
       = {| status := text;
            color := if String.eqb text "00:00" then "#d9d9d9" else "#0070C0";
            type := if String.eqb text "00:00" then "default" else "processing" |}.
Proof.
  apply (time_fraction_cells_classified_as_time Sample.sheet 1 4
           {| XLSX.w := None; XLSX.v := Some (Js.VNum Sample.half) |} Sample.half).
  - reflexivity.
  - left. reflexivity.
  - reflexivity.
  - reflexivity.
  - reflexivity.
  - reflexivity.
Defined.

(** ** The handlers as a whole *)

Section HandlerFacts.

Import Js.

Lemma unlinkSync_cases (files : gset string) (p : string) :
  (p ∈ files /\ Http.unlinkSync files p = Returned (files ∖ {[p]}))
  \/ ((p ∉ files)
      /\ Http.unlinkSync files p = Thrown (Http.noSuchFile "unlink" p)).
Proof.
  unfold Http.unlinkSync. destruct (decide (p ∈ files)) as [Hin|Hout].
  - left. now rewrite bool_decide_eq_true_2.
  - right. now rewrite bool_decide_eq_false_2.
Qed.

Lemma elem_of_removed (files : gset string) (p q : string) :
  q ∈ files ∖ {[p]} <-> q ∈ files /\ q <> p.
Proof. rewrite elem_of_difference, elem_of_singleton. reflexivity. Qed.

Lemma difference_absent (files : gset string) (p : string) :
  p ∉ files -> files ∖ {[p]} = files.
Proof.
  intros H. apply set_eq. intros q. rewrite elem_of_removed.
  split; [now intros [? _]|]. intros Hq. split; [exact Hq|]. now intros ->.
Qed.


(** The Express route, case by case. *)
Lemma express_handler_cases (file : Http.upload) (clock : nat -> string)
  (now : string) (files : gset string) :
  (exists worksheet range headers out,
      Http.decoded file = Returned (worksheet, range)
      /\ Express.normalize worksheet range clock = Returned (headers, out)
      /\ Http.path file ∈ files
      /\ Express.handler (Some file) clock now files
         = (files ∖ {[Http.path file]},
            {| Http.statusCode := 200;
               Http.payload :=
                 Http.Success out (length out) (Http.originalname file) now |}))
  \/ (exists e,
        (Http.decoded file = Thrown e
         \/ (exists worksheet range,
               Http.decoded file = Returned (worksheet, range)
               /\ (Express.normalize worksheet range clock = Thrown e
                   \/ (exists result,
                         Express.normalize worksheet range clock = Returned result
                         /\ (Http.path file ∉ files)
                         /\ e = Http.noSuchFile "unlink" (Http.path file)))))
        /\ Express.handler (Some file) clock now files
           = (files ∖ {[Http.path file]},
              {| Http.statusCode := 500;
                 Http.payload :=
                   Http.Failure "Failed to process Excel file"
                     (Some (Http.message e)) |})).
Proof.
  unfold Express.handler, Express.tryBlock.
  assert (Hclean :
    (if Http.existsSync files (Http.path file)
     then match Http.unlinkSync files (Http.path file) with
          | Returned files' => files'
          | Thrown _ => files
          end
     else files) = files ∖ {[Http.path file]}).
  { unfold Http.existsSync.
    destruct (unlinkSync_cases files (Http.path file)) as [[Hin ->]|[Hout ->]].
    - now rewrite bool_decide_eq_true_2.
    - rewrite bool_decide_eq_false_2 by exact Hout.
      symmetry. now apply difference_absent. }
  destruct (Http.decoded file) as [[worksheet range]|e] eqn:Ed.
  - destruct (Express.normalize worksheet range clock) as [[headers out]|e] eqn:En.
    + destruct (unlinkSync_cases files (Http.path file)) as [[Hin ->]|[Hout ->]].
      * left. exists worksheet, range, headers, out. auto.
      * right. exists (Http.noSuchFile "unlink" (Http.path file)). split.
        -- right. exists worksheet, range. split; [reflexivity|]. right. eauto.
        -- now rewrite Hclean.
    + right. exists e. split; [right; eauto|]. now rewrite Hclean.
  - right. exists e. split; [now left|]. now rewrite Hclean.
Qed.

Lemma candidate_length (worksheet : XLSX.worksheet) (headers : list value)
  (range : XLSX.range) (clock : nat -> string) (row : nat) :
  length (Rows.candidate worksheet headers range clock row) <= 1.
Proof.
  unfold Rows.candidate.
  destruct (Express.buildRow worksheet headers range row); [|simpl; lia].
  destruct (Express.admitted _ _); simpl; lia.
Qed.

Lemma admittedInOrder_length (worksheet : XLSX.worksheet) (range : XLSX.range)
  (clock : nat -> string) :
  length (Rows.admittedInOrder worksheet range clock)
  <= XLSX.r (XLSX.e range) - XLSX.r (XLSX.s range).
Proof.
  unfold Rows.admittedInOrder.
  replace (XLSX.r (XLSX.e range) - XLSX.r (XLSX.s range))
    with (length (Express.dataRows range))
    by (unfold Express.dataRows; apply length_seq).
  induction (Express.dataRows range) as [|row rows IH]; [simpl; lia|].
  rewrite bind_cons, length_app. simpl.
  pose proof (candidate_length worksheet
                (Express.extractHeaders worksheet range) range clock row).
  lia.
Qed.

Lemma output_length (worksheet : XLSX.worksheet) (range : XLSX.range)
  (clock : nat -> string) (headers : list value)
  (out : list (gmap string value)) :
  Express.normalize worksheet range clock = Returned (headers, out) ->
  length out <= XLSX.r (XLSX.e range) - XLSX.r (XLSX.s range).
Proof.
  intros (_ & -> & _)%normalize_returned.
  rewrite <- (Permutation_length (sort_perm Express.byRowNumber _)).
  apply admittedInOrder_length.
Qed.

(** The serverless handler on a [POST] whose form was parsed. *)
Lemma serverless_handler_post (file : option Http.upload) (clock : nat -> string)
  (now : string) (files : gset string) :
  Serverless.handler
    {| Serverless.method := "POST"; Serverless.parsed := Returned file |}
    clock now files
  = match Serverless.tryBlock
            {| Serverless.method := "POST"; Serverless.parsed := Returned file |}
            clock now files with
    | (files', Returned res) => (files', res)
    | (files', Thrown error) =>
        (files', {| Http.statusCode := 500;
                    Http.payload := Http.Failure "Failed to process Excel file"
                                      (Some (Http.message error)) |})
    end.
Proof. reflexivity. Qed.

End HandlerFacts.

(** X11. The Express route answers 200 exactly when the file decodes, the
    normalisation returns and the stored file is still there to be removed;
    the body then carries the sorted records, their count as [totalRows] (at
    most the number of data rows of the range) and the original file name.
    If the file has vanished the answer is 500 although the rows were
    computed, and the details are the message of the failed [unlink]. *)
Theorem express_route_success :
  forall (file : Http.upload) (clock : nat -> string) (now : string)
    (files : gset string),
    let result := Express.handler (Some file) clock now files in
    (Http.statusCode (snd result) = 200
     <-> exists worksheet range headers out,
           Http.decoded file = Js.Returned (worksheet, range)
           /\ Express.normalize worksheet range clock = Js.Returned (headers, out)
           /\ Http.path file ∈ files)
    /\ (forall worksheet range headers out,
          Http.decoded file = Js.Returned (worksheet, range) ->
          Express.normalize worksheet range clock = Js.Returned (headers, out) ->
          (Http.path file ∈ files ->
           result = (files ∖ {[Http.path file]},
                     {| Http.statusCode := 200;
                        Http.payload :=
                          Http.Success out (length out)
                            (Http.originalname file) now |})
           /\ length out <= XLSX.r (XLSX.e range) - XLSX.r (XLSX.s range))
          /\ (Http.path file ∉ files ->
              result = (files,
                        {| Http.statusCode := 500;
                           Http.payload :=
                             Http.Failure "Failed to process Excel file"
                               (Some
                                  ("ENOENT: no such file or directory, unlink '"
                                   +:+ Http.path file +:+ "'")) |}))).
Proof.
  intros file clock now files result. subst result. split.
  - destruct (express_handler_cases file clock now files)
      as [(ws & rg & hs & out & Hd & Hn & Hin & ->)
         |(e & Hwhy & ->)]; simpl.
    + split; [intros _; eauto 10|reflexivity].
    + split; [discriminate|].
      intros (ws & rg & hs & out & Hd & Hn & Hin).
      destruct Hwhy as [Hd'|(ws' & rg' & Hd' & [Hn'|(res & Hn' & Hout & _)])];
        rewrite Hd in Hd'; try discriminate;
        injection Hd' as <- <-; [congruence|contradiction].
  - intros ws rg hs out Hd Hn. split.
    + intros Hin. split; [|now apply (output_length ws rg clock hs)].
      unfold Express.handler, Express.tryBlock. rewrite Hd, Hn.
      destruct (unlinkSync_cases files (Http.path file)) as [[_ ->]|[Hout _]];
        [reflexivity|contradiction].
    + intros Hout. unfold Express.handler, Express.tryBlock. rewrite Hd, Hn.
      destruct (unlinkSync_cases files (Http.path file)) as [[Hin _]|[_ ->]];
        [contradiction|].
      unfold Http.existsSync. now rewrite bool_decide_eq_false_2.
Qed.

Lemma express_route_success_witness :
  Express.handler (Some Cases.report) Sample.clock "2024-01-01T00:00:09.000Z"
    {[ "/tmp/upload_2.csv" ]}
  = ({[ "/tmp/upload_2.csv" ]} ∖ {[ "/tmp/upload_2.csv" ]},
     {| Http.statusCode := 200;
        Http.payload :=
          Http.Success Cases.response (length Cases.response) "report.csv"
            "2024-01-01T00:00:09.000Z" |})
  /\ length Cases.response <= 6 - 0.
Proof.
  apply (proj1 (proj2 (express_route_success Cases.report Sample.clock
                         "2024-01-01T00:00:09.000Z" {[ "/tmp/upload_2.csv" ]})
                  Sample.sheet Sample.range
                  (Express.extractHeaders Sample.sheet Sample.range)
                  Cases.response eq_refl eq_refl)).
  apply elem_of_singleton. reflexivity.
Defined.

(** X12. Of the files on disk when a handler starts, the upload just stored
    among them, no handler removes any but that upload. *)
Theorem handlers_remove_only_the_upload :
  (forall (file : option Http.upload) (clock : nat -> string) (now : string)
     (files : gset string) (p : string),
      p ∈ files ->
      p ∉ fst (Express.handler file clock now files) ->
      exists f, file = Some f /\ p = Http.path f)
  /\ (forall (req : Serverless.request) (clock : nat -> string) (now : string)
        (files : gset string) (p : string),
         p ∈ files ->
         p ∉ fst (Serverless.handler req clock now files) ->
         exists f,
           Serverless.parsed req = Js.Returned (Some f) /\ p = Http.path f).
Proof.
  split.
  - intros [file|] clock now files p.
    + assert (Hleft : fst (Express.handler (Some file) clock now files)
                      = files ∖ {[Http.path file]}).
      { destruct (express_handler_cases file clock now files)
          as [(ws & rg & hs & out & _ & _ & _ & ->)|(e & _ & ->)]; reflexivity. }
      rewrite Hleft, elem_of_removed.
      intros Hin Hout. exists file. split; [reflexivity|].
      destruct (decide (p = Http.path file)); [assumption|]. exfalso. auto.
    + simpl. contradiction.
  - intros [method parsed] clock now files p.
    unfold Serverless.handler. simpl Serverless.method.
    destruct (String.eqb method "OPTIONS"); [simpl; contradiction|].
    destruct (negb (String.eqb method "POST")); [simpl; contradiction|].
    unfold Serverless.tryBlock. simpl Serverless.parsed.
    destruct parsed as [[file|]|e]; [|simpl; contradiction..].
    assert (Hgoal : forall result : gset string * Http.response,
               fst result = files \/ fst result = files ∖ {[Http.path file]} ->
               p ∈ files -> p ∉ fst result ->
               exists f, Js.Returned (Some file) = Js.Returned (Some f)
                         /\ p = Http.path f).
    { intros result [-> | ->]; [contradiction|].
      rewrite elem_of_removed. intros Hin Hout. exists file.
      split; [reflexivity|].
      destruct (decide (p = Http.path file)); [assumption|]. exfalso. auto. }
    apply Hgoal.
    destruct (negb _).
    + destruct (unlinkSync_cases files (Http.path file)) as [[_ ->]|[_ ->]]; auto.
    + destruct (Http.decoded file) as [[ws rg]|e]; [|auto].
      destruct (Serverless.normalize ws rg clock) as [[hs out]|e]; [|auto].
      destruct (unlinkSync_cases files (Http.path file)) as [[_ ->]|[_ ->]]; auto.
Qed.



(** ** Errors of the upload middleware *)

(** X14. The error-handling middleware answers 400 only to the size-limit
    error of the upload middleware.  The error with which [fileFilter] refuses
    a type is answered 500, [Internal server error], where the serverless
    handler answers the same refusal 400 and removes the file. *)
Theorem type_refusal_answered_differently :
  (forall error : Server.failure,
      Http.statusCode (Server.errorMiddleware error) = 400
      <-> exists message, error = Server.MulterError "LIMIT_FILE_SIZE" message)
  /\ (forall mimetype : string,
         JsString.arrayIncludes Server.allowedMimes mimetype = false ->
         (exists e,
             Server.fileFilter mimetype = Js.Thrown e
             /\ Server.errorMiddleware (Server.Other e)
                = {| Http.statusCode := 500;
                     Http.payload :=
                       Http.Failure "Internal server error"
                         (Some "Invalid file type. Only Excel and CSV files are allowed.") |})
         /\ forall (file : Http.upload) (clock : nat -> string) (now : string)
              (files : gset string),
              Http.mimetype file = mimetype ->
              Http.path file ∈ files ->
              Serverless.handler
                {| Serverless.method := "POST";
                   Serverless.parsed := Js.Returned (Some file) |} clock now files
              = (files ∖ {[Http.path file]},
                 {| Http.statusCode := 400;
                    Http.payload :=
                      Http.Failure
                        "Invalid file type. Only Excel and CSV files are allowed."
                        None |})).
Proof.
  split.
  - intros [code message|e]; simpl.
    + destruct (String.eqb_spec code "LIMIT_FILE_SIZE") as [->|Hne]; simpl.
      * split; [eauto|reflexivity].
      * split; [discriminate|]. intros [m [= ? ?]]. contradiction.
    + split; [discriminate|]. intros [m [=]].
  - intros mimetype Hmime. split.
    + eexists. unfold Server.fileFilter. rewrite Hmime. split; reflexivity.
    + intros file clock now files <- Hin.
      rewrite serverless_handler_post. unfold Serverless.tryBlock.
      simpl Serverless.parsed. cbv beta iota.
      change Http.allowedMimes with Server.allowedMimes. rewrite Hmime.
      simpl negb. cbv iota.
      destruct (unlinkSync_cases files (Http.path file)) as [[_ ->]|[Hout _]];
        [reflexivity|contradiction].
Qed.

Lemma type_refusal_answered_differently_witness :
  Serverless.handler
    {| Serverless.method := "POST";
       Serverless.parsed := Js.Returned (Some Cases.picture) |}
    Sample.clock "2024-01-01T00:00:09.000Z" {[ "/tmp/upload_3.png" ]}
  = ({[ "/tmp/upload_3.png" ]} ∖ {[ "/tmp/upload_3.png" ]},
     {| Http.statusCode := 400;
        Http.payload :=
          Http.Failure "Invalid file type. Only Excel and CSV files are allowed."
            None |}).
Proof.
  apply (proj2 (proj2 type_refusal_answered_differently "image/png" eq_refl)
           Cases.picture).
  - reflexivity.
  - apply elem_of_singleton. reflexivity.
Defined.

(** ** The grid's own ordering *)

Section GridOrder.

Import Js.

Local Open Scope Z_scope.

Lemma rowNumber_or_zero (row : Client.ExcelRow) :
  Client.numbered row = true ->
  let x := toNumber (orOpt (row !! "rowNumber") (VNum (JsNumber.ofZ 0))) in
  JsNumber.inRange x /\ JsNumber.isNaN x = false.
Proof.
  unfold Client.numbered. intros Hrow.
  destruct (row !! "rowNumber") as [[t|x]|]; simpl; [discriminate| |].
  - unfold or. simpl. destruct (JsNumber.truthy x) eqn:Ht; simpl.
    + split.
      * destruct x as [| | |sx m e]; try exact I. simpl.
        apply andb_true_iff in Hrow as [Hrow He2].
        apply andb_true_iff in Hrow as [Hm He1].
        apply Z.ltb_lt in Hm. apply Z.leb_le in He1, He2. auto.
      * unfold JsNumber.truthy in Ht. now apply negb_true_iff, orb_false_iff in Ht.
    + split; [first [exact I|apply ofZ_inRange]|reflexivity].
  - split; [first [exact I|apply ofZ_inRange]|reflexivity].
Qed.

Lemma client_byRowNumber_orderKey (a b : Client.ExcelRow) :
  Client.numbered a = true -> Client.numbered b = true ->
  sortOrder (Client.byRowNumber a b)
  = Z.compare (Client.orderKey a) (Client.orderKey b).
Proof.
  intros [Ha Hna]%rowNumber_or_zero [Hb Hnb]%rowNumber_or_zero.
  unfold Client.byRowNumber, Client.orderKey. now apply sub_sortOrder.
Qed.

End GridOrder.

Section SortedFacts.

Local Open Scope Z_scope.

Import Js.

Context {A : Type}.
Variable cmp : A -> A -> JsNumber.number.
Variable key : A -> Z.
Variable good : A -> Prop.
Hypothesis cmp_key :
  forall a b, good a -> good b -> sortOrder (cmp a b) = Z.compare (key a) (key b).

(** Sorting a sorted array leaves it as it is. *)
Lemma sort_sorted_fixed (l : list A) :
  Forall good l ->
  StronglySorted (fun x y => key x <= key y) l ->
  sort cmp l = l.
Proof.
  induction l as [|a l IH]; intros Hgood Hsorted; [reflexivity|].
  apply Forall_cons in Hgood as [Ha Hl].
  apply StronglySorted_inv in Hsorted as [Hsorted Hle].
  simpl. rewrite (IH Hl Hsorted).
  destruct l as [|b l']; [reflexivity|]. simpl.
  apply Forall_cons in Hl as [Hb _]. apply List.Forall_cons_iff in Hle as [Hab _].
  rewrite (cmp_key a b Ha Hb).
  destruct (Z.compare_spec (key a) (key b)); [reflexivity|reflexivity|lia].
Qed.

End SortedFacts.

Section GridRows.

Import Js.

Local Open Scope Z_scope.

Lemma filter_all {A : Type} (f : A -> bool) (l : list A) :
  Forall (fun a => f a = true) l -> List.filter f l = l.
Proof.
  induction l as [|a l IH]; intros H; [reflexivity|].
  apply Forall_cons in H as [Ha Hl]. simpl. now rewrite Ha, IH.
Qed.

Lemma filter_Forall {A : Type} (P : A -> Prop) (f : A -> bool) (l : list A) :
  Forall P l -> Forall P (List.filter f l).
Proof.
  induction l as [|a l IH]; intros H; [constructor|].
  apply Forall_cons in H as [Ha Hl]. simpl.
  destruct (f a); [constructor|]; auto.
Qed.

Lemma filter_holds {A : Type} (f : A -> bool) (l : list A) :
  Forall (fun a => f a = true) (List.filter f l).
Proof.
  induction l as [|a l IH]; [constructor|]. simpl.
  destruct (f a) eqn:E; [constructor|]; auto.
Qed.

Lemma forallb_holds {A : Type} (f : A -> bool) (l : list A) :
  forallb f l = true -> Forall (fun a => f a = true) l.
Proof.
  rewrite forallb_forall, Forall_forall. intros H a Ha.
  apply H. now apply list_elem_of_In.
Qed.

Lemma cleanData_eq (data : list Client.ExcelRow) :
  Client.cleanData data = sort Client.byRowNumber (List.filter Client.shown data).
Proof. now destruct data. Qed.

Lemma cleanData_sorted (data : list Client.ExcelRow) :
  Forall (fun row => Client.numbered row = true) data ->
  StronglySorted (fun a b => Client.orderKey a <= Client.orderKey b)
    (Client.cleanData data).
Proof.
  intros H. rewrite cleanData_eq.
  apply (sort_sorted Client.byRowNumber Client.orderKey
           (fun row => Client.numbered row = true) client_byRowNumber_orderKey).
  now apply filter_Forall.
Qed.

Lemma cleanData_good (data : list Client.ExcelRow) :
  Forall (fun row => Client.numbered row = true) data ->
  Forall (fun row => Client.numbered row = true) (Client.cleanData data)
  /\ Forall (fun row => Client.shown row = true) (Client.cleanData data).
Proof.
  intros H. rewrite cleanData_eq. split.
  - apply (sort_good Client.byRowNumber (fun row => Client.numbered row = true)).
    now apply filter_Forall.
  - eapply Permutation_Forall; [apply sort_perm|]. apply filter_holds.
Qed.

Lemma cleanData_fixed (data : list Client.ExcelRow) :
  Forall (fun row => Client.numbered row = true) data ->
  Forall (fun row => Client.shown row = true) data ->
  StronglySorted (fun a b => Client.orderKey a <= Client.orderKey b) data ->
  Client.cleanData data = data.
Proof.
  intros Hnum Hshown Hsorted. rewrite cleanData_eq, (filter_all _ _ Hshown).
  now apply (sort_sorted_fixed Client.byRowNumber Client.orderKey
               (fun row => Client.numbered row = true)
               client_byRowNumber_orderKey).
Qed.

End GridRows.

(** X15. The rows the grid shows are the rows of the response with a truthy
    [S.No] and a truthy [Job Details], in ascending order of row number (a
    missing, zero or NaN row number counting as 0), rows of equal row number
    in the order of the response. *)
Theorem grid_rows_filtered_and_sorted :
  forall data : list Client.ExcelRow,
    forallb Client.numbered data = true ->
    let rows := Client.cleanData data in
    (forall row, row ∈ rows <-> row ∈ data /\ Client.shown row = true)
    /\ StronglySorted (fun a b => (Client.orderKey a <= Client.orderKey b)%Z) rows
    /\ forall k : Z,
         List.filter (fun a => (Client.orderKey a =? k)%Z) rows
         = List.filter (fun a => (Client.orderKey a =? k)%Z)
             (List.filter Client.shown data).
Proof.
  intros data Hnum%forallb_holds rows. subst rows. split; [|split].
  - intros row. rewrite cleanData_eq.
    rewrite <- (sort_perm Client.byRowNumber (List.filter Client.shown data)).
    now rewrite !list_elem_of_In, filter_In.
  - now apply cleanData_sorted.
  - intros k. rewrite cleanData_eq.
    apply (sort_filter Client.byRowNumber Client.orderKey
             (fun row => Client.numbered row = true) client_byRowNumber_orderKey).
    now apply filter_Forall.
Qed.

Lemma grid_rows_filtered_and_sorted_witness :
  let rows := Client.cleanData Cases.response in
  (forall row, row ∈ rows <-> row ∈ Cases.response /\ Client.shown row = true)
  /\ StronglySorted (fun a b => (Client.orderKey a <= Client.orderKey b)%Z) rows
  /\ forall k : Z,
       List.filter (fun a => (Client.orderKey a =? k)%Z) rows
       = List.filter (fun a => (Client.orderKey a =? k)%Z)
           (List.filter Client.shown Cases.response).
Proof.
  apply (grid_rows_filtered_and_sorted Cases.response).
  vm_compute. reflexivity.
Defined.

(** X16. Cleaning is idempotent, and it leaves a response unchanged whose
    rows all have a truthy [S.No] and [Job Details] and come in ascending
    order of row number, which is how the server sends them. *)
Theorem grid_cleaning_idempotent :
  forall data : list Client.ExcelRow,
    forallb Client.numbered data = true ->
    Client.cleanData (Client.cleanData data) = Client.cleanData data
    /\ (forallb Client.shown data = true ->
        StronglySorted (fun a b => (Client.orderKey a <= Client.orderKey b)%Z) data ->
        Client.cleanData data = data).
Proof.
  intros data Hnum%forallb_holds. split.
  - destruct (cleanData_good data Hnum) as [Hgood Hshown].
    apply cleanData_fixed; auto using cleanData_sorted.
  - intros Hshown%forallb_holds. now apply cleanData_fixed.
Qed.

Lemma grid_cleaning_idempotent_witness :
  Client.cleanData (Client.cleanData Cases.response) = Client.cleanData Cases.response
  /\ (forallb Client.shown Cases.response = true ->
      StronglySorted (fun a b => (Client.orderKey a <= Client.orderKey b)%Z)
        Cases.response ->
      Client.cleanData Cases.response = Cases.response).
Proof.
  apply (grid_cleaning_idempotent Cases.response).
  vm_compute. reflexivity.
Defined.

(** ** The columns of the grid *)

Section GridColumns.

Import Js.

Lemma fold_left_push (test : string -> bool) (l acc : list string) :
  fold_left (fun acc key => if test key then acc ++ [key] else acc) l acc
  = acc ++ List.filter test l.
Proof.
  revert acc. induction l as [|key l IH]; intros acc; simpl.
  - now rewrite app_nil_r.
  - rewrite IH. destruct (test key); [|reflexivity].
    now rewrite <- app_assoc.
Qed.

Lemma orderedKeys_eq (allKeys : list string) :
  Client.orderedKeys allKeys
  = (if JsString.arrayIncludes allKeys "S.No" then ["S.No"] else [])
    ++ (if JsString.arrayIncludes allKeys "Job Details" then ["Job Details"] else [])
    ++ List.filter
         (fun key =>
            negb (JsString.arrayIncludes ["S.No"; "Job Details"; "Comments"] key))
         allKeys
    ++ (if JsString.arrayIncludes allKeys "Comments" then ["Comments"] else []).
Proof.
  unfold Client.orderedKeys. cbv zeta. rewrite fold_left_push.
  destruct (JsString.arrayIncludes allKeys "S.No"),
    (JsString.arrayIncludes allKeys "Job Details"),
    (JsString.arrayIncludes allKeys "Comments");
    simpl; rewrite ?app_nil_r; reflexivity.
Qed.

Lemma arrayIncludes_elem_of (l : list string) (s : string) :
  JsString.arrayIncludes l s = true <-> s ∈ l.
Proof. rewrite arrayIncludes_spec. symmetry. apply list_elem_of_In. Qed.

Lemma elem_of_if (b : bool) (x key : string) :
  key ∈ (if b then [x] else []) <-> b = true /\ key = x.
Proof.
  destruct b.
  - rewrite list_elem_of_singleton. tauto.
  - split; [intros H; now apply elem_of_nil in H|now intros [? _]].
Qed.

Lemma elem_of_filter_bool (f : string -> bool) (l : list string) (key : string) :
  key ∈ List.filter f l <-> key ∈ l /\ f key = true.
Proof. now rewrite !list_elem_of_In, filter_In. Qed.

Lemma elem_of_orderedKeys (allKeys : list string) (key : string) :
  key ∈ Client.orderedKeys allKeys <-> key ∈ allKeys.
Proof.
  rewrite orderedKeys_eq, !elem_of_app, !elem_of_if, elem_of_filter_bool,
    !arrayIncludes_elem_of.
  split.
  - intros [[H ->]|[[H ->]|[[H _]|[H ->]]]]; exact H.
  - intros H.
    destruct (JsString.arrayIncludes ["S.No"; "Job Details"; "Comments"] key) eqn:E.
    + apply arrayIncludes_elem_of in E.
      repeat (apply elem_of_cons in E as [->|E]); [auto..|].
      now apply elem_of_nil in E.
    + right. right. left. split; [exact H|reflexivity].
Qed.

Lemma NoDup_filter_bool (f : string -> bool) (l : list string) :
  NoDup l -> NoDup (List.filter f l).
Proof.
  induction 1 as [|key l Hnot Hl IH]; simpl; [constructor|].
  destruct (f key); [|exact IH]. constructor; [|exact IH].
  rewrite elem_of_filter_bool. now intros [? _].
Qed.

Lemma NoDup_if (b : bool) (x : string) : NoDup (if b then [x] else []).
Proof. destruct b; [apply NoDup_singleton|constructor]. Qed.

Lemma NoDup_orderedKeys (allKeys : list string) :
  NoDup allKeys -> NoDup (Client.orderedKeys allKeys).
Proof.
  intros Hnd. rewrite orderedKeys_eq.
  assert (Hcanon : forall key,
             key ∈ List.filter
               (fun key =>
                  negb (JsString.arrayIncludes ["S.No"; "Job Details"; "Comments"] key))
               allKeys ->
             key <> "S.No" /\ key <> "Job Details" /\ key <> "Comments").
  { intros key [_ H]%elem_of_filter_bool. apply negb_true_iff in H.
    repeat split; intros ->; discriminate H. }
  repeat (apply NoDup_app; split; [| split]);
    try apply NoDup_if; try (now apply NoDup_filter_bool).
  - intros key [_ ->]%elem_of_if. rewrite !elem_of_app, !elem_of_if.
    intros [[_ [=]]|[H|[_ [=]]]]. now destruct (Hcanon _ H) as (? & _).
  - intros key [_ ->]%elem_of_if. rewrite !elem_of_app, !elem_of_if.
    intros [H|[_ [=]]]. now destruct (Hcanon _ H) as (_ & ? & _).
  - intros key H [_ ->]%elem_of_if. now destruct (Hcanon _ H) as (_ & _ & ?).
Qed.

Lemma elem_of_allKeys (keys : list string) (key : string) :
  key ∈ Client.allKeys keys
  <-> key ∈ keys
      /\ (key ∉ ["id"; "uploadDate"; "rowNumber"])
      /\ ~ Spec.Contains key "_status"
      /\ ~ Spec.Contains key "_color"
      /\ ~ Spec.Contains key "_type".
Proof.
  unfold Client.allKeys. rewrite elem_of_filter_bool.
  rewrite <- !includes_false, <- (arrayIncludes_elem_of ["id"; "uploadDate"; "rowNumber"]).
  destruct (JsString.arrayIncludes ["id"; "uploadDate"; "rowNumber"] key);
    [split; [now intros [_ [=]]|intros (_ & H & _); now contradiction H]|].
  destruct (JsString.includes key "_status"); simpl;
    [split; [now intros [_ [=]]|now intros (_ & _ & [=] & _)]|].
  destruct (JsString.includes key "_color"); simpl;
    [split; [now intros [_ [=]]|now intros (_ & _ & _ & [=] & _)]|].
  destruct (JsString.includes key "_type"); simpl;
    [split; [now intros [_ [=]]|now intros (_ & _ & _ & _ & [=])]|].
  split; [intros [H _]|intros [H _]]; repeat split; auto; discriminate.
Qed.

Lemma last_app_singleton (l : list string) (x : string) : last (l ++ [x]) = Some x.
Proof. apply last_snoc. Qed.

End GridColumns.

(** X17. The grid draws one column for every key of the first row that is
    not a metadata key and does not contain [_status], [_color] or [_type]:
    each such key once, [S.No] first, [Job Details] right after it,
    [Comments] last, the others between them in the order of the row.  A
    column whose own name contains one of the three suffixes is never
    drawn. *)
Theorem grid_columns_order :
  forall keys : list string,
    NoDup keys ->
    let drawn := Client.columnKeys keys in
    (forall key : string,
        key ∈ drawn
        <-> key ∈ keys
            /\ (key ∉ ["id"; "uploadDate"; "rowNumber"])
            /\ ~ Spec.Contains key "_status"
            /\ ~ Spec.Contains key "_color"
            /\ ~ Spec.Contains key "_type")
    /\ NoDup drawn
    /\ ("S.No" ∈ drawn -> head drawn = Some "S.No")
    /\ ("Job Details" ∈ drawn ->
        drawn !! (if decide ("S.No" ∈ drawn) then 1 else 0) = Some "Job Details")
    /\ ("Comments" ∈ drawn -> last drawn = Some "Comments")
    /\ List.filter
         (fun key =>
            negb (JsString.arrayIncludes ["S.No"; "Job Details"; "Comments"] key))
         drawn
       = List.filter
           (fun key =>
              negb (JsString.arrayIncludes ["S.No"; "Job Details"; "Comments"] key))
           (Client.allKeys keys).
Proof.
  intros keys Hnd drawn. subst drawn. unfold Client.columnKeys.
  assert (Hall : NoDup (Client.allKeys keys)) by now apply NoDup_filter_bool.
  split; [|split; [|split; [|split; [|split]]]].
  - intros key. rewrite elem_of_orderedKeys. apply elem_of_allKeys.
  - now apply NoDup_orderedKeys.
  - rewrite elem_of_orderedKeys, <- arrayIncludes_elem_of, orderedKeys_eq.
    now intros ->.
  - intros Hjob. destruct (decide _) as [Hs|Hs];
      rewrite elem_of_orderedKeys, <- arrayIncludes_elem_of in Hs, Hjob;
      rewrite orderedKeys_eq, Hjob.
    + now rewrite Hs.
    + apply not_true_is_false in Hs. now rewrite Hs.
  - rewrite elem_of_orderedKeys, <- arrayIncludes_elem_of, orderedKeys_eq.
    intros ->. rewrite !app_assoc. apply last_app_singleton.
  - rewrite orderedKeys_eq, !List.filter_app.
    set (others := fun key => negb _).
    assert (Hif : forall (b : bool) (x : string),
               others x = false -> List.filter others (if b then [x] else []) = []).
    { intros [] x Hx; simpl; [now rewrite Hx|reflexivity]. }
    rewrite !Hif by reflexivity. simpl. rewrite app_nil_r.
    apply filter_all, filter_holds.
Qed.

Lemma grid_columns_order_witness :
  Client.columnKeys Cases.keys = ["S.No"; "Job Details"; "Status"; "Comments"]
  /\ NoDup (Client.columnKeys Cases.keys).
Proof.
  split; [reflexivity|].
  apply (grid_columns_order Cases.keys).
  apply (bool_decide_unpack _). vm_compute. exact I.
Defined.

(** ** How the grid draws a status cell *)

Section GridCells.

Import Js JsString.

Lemma includes_cons (c : ascii) (s p : string) :
  includes s p = true -> includes (String c s) p = true.
Proof. intros H. simpl. rewrite H. apply orb_true_r. Qed.

Lemma isTimeText_colon (s : string) :
  Spec.isTimeText s = true -> includes s ":" = true.
Proof.
  unfold Spec.isTimeText, Spec.chars.
  destruct s as [|h [|k [|m1 [|m2 [|m3 [|m4 s]]]]]]; simpl; try discriminate.
  - intros H. do 2 apply andb_true_iff in H as [H _].
    apply andb_true_iff in H as [_ ->%Ascii.eqb_eq]. now rewrite orb_true_r.
  - intros H. do 2 apply andb_true_iff in H as [H _].
    apply andb_true_iff in H as [_ ->%Ascii.eqb_eq]. now rewrite !orb_true_r.
Qed.

(** A value whose normalised text is a time text has a colon in its text. *)
Lemma time_value_colon (a : value) :
  Regex.test Regex.timePattern (trim (toUpperCase (toString a))) = true ->
  includes (toString a) ":" = true.
Proof.
  rewrite timePattern_spec. intros H%isTimeText_colon%includes_trim.
  now apply includes_toUpperCase_colon.
Qed.

Lemma getStatusInfo_time (a : value) :
  type (Express.getStatusInfo a) = "processing"
  \/ status (Express.getStatusInfo a) = "00:00" ->
  truthy a = true
  /\ Regex.test Regex.timePattern (trim (toUpperCase (toString a))) = true.
Proof.
  unfold Express.getStatusInfo. destruct (truthy a); simpl negb; cbv iota;
    [|now intros [[=]|[=]]].
  cbv zeta. set (S := trim (toUpperCase (toString a))).
  intros H. split; [reflexivity|].
  destruct (arrayIncludes ["ACTIVE"; "PASS"; "ENABLED"; "UNSUSPENDED"] S) eqn:E1.
  { apply arrayIncludes_spec in E1. simpl in H, E1.
    destruct H as [[=]|H]. rewrite H in E1.
    repeat (destruct E1 as [[=]|E1]). contradiction. }
  destruct (arrayIncludes ["OFF"; "FAILED"; "INACTIVE"; "SUSPENDED"] S) eqn:E2.
  { apply arrayIncludes_spec in E2. simpl in H, E2.
    destruct H as [[=]|H]. rewrite H in E2.
    repeat (destruct E2 as [[=]|E2]). contradiction. }
  destruct (arrayIncludes ["PENDING"] S) eqn:E3.
  { apply arrayIncludes_spec in E3. simpl in H, E3.
    destruct H as [[=]|H]. rewrite H in E3.
    repeat (destruct E3 as [[=]|E3]). contradiction. }
  destruct (Regex.test Regex.timePattern S) eqn:E4; [reflexivity|].
  destruct (Regex.test Regex.datePattern S) eqn:E5.
  { simpl in H. destruct H as [[=]|H]. rewrite H in E4. discriminate E4. }
  destruct (String.eqb S "NA") eqn:E6; simpl in H.
  - now destruct H as [[=]|[=]].
  - destruct H as [[=]|H]. rewrite H in E4. discriminate E4.
Qed.

Lemma getStatusInfo_types (a : value) :
  type (Express.getStatusInfo a)
  ∈ ["default"; "success"; "error"; "warning"; "processing"; "purple"; "info"].
Proof.
  unfold Express.getStatusInfo.
  repeat match goal with
         | |- context [if ?b then _ else _] => destruct b
         end; simpl;
    repeat (first [apply list_elem_of_here | apply list_elem_of_further]).
Qed.

End GridCells.

(** X18. A cell that the server classifies as a time (type [processing],
    or status [00:00]) is drawn by the grid as text alone, never with the
    coloured dot: its text has a colon.  The type [time] that the grid also
    tests for is none of the seven types the server assigns. *)
Theorem time_cells_drawn_without_dot :
  (forall value : Js.value,
      type (Express.getStatusInfo value)
      ∈ ["default"; "success"; "error"; "warning"; "processing"; "purple"; "info"]
      /\ Client.isTime (Js.VStr (type (Express.getStatusInfo value))) = false)
  /\ (forall (value : Js.value) (record : Client.ExcelRow) (columnKey : string),
         type (Express.getStatusInfo value) = "processing"
         \/ status (Express.getStatusInfo value) = "00:00" ->
         Client.renderStatusCell (Some value) record columnKey
         = Client.TextOnly value).
Proof.
  split.
  - intros value. pose proof (getStatusInfo_types value) as H.
    split; [exact H|].
    repeat (apply elem_of_cons in H as [->|H]); try reflexivity.
    now apply elem_of_nil in H.
  - intros value record columnKey [Ht Htime]%getStatusInfo_time.
    apply time_value_colon in Htime.
    unfold Client.renderStatusCell. rewrite Ht, Htime, orb_true_r.
    simpl. unfold Js.or. now rewrite Ht.
Qed.

Lemma time_cells_drawn_without_dot_witness :
  Client.renderStatusCell (Some (Js.VStr "12:30")) ∅ "Start"
  = Client.TextOnly (Js.VStr "12:30").
Proof.
  apply (proj2 time_cells_drawn_without_dot (Js.VStr "12:30") ∅ "Start").
  left. reflexivity.
Defined.

(** X19. On two records of the output the sorter of the grid's [S.No]
    column returns what the comparator of the server's ordering returns:
    sorting the grid by [S.No] orders the rows as the response does. *)
Theorem serial_sorter_agrees_with_row_order :
  forall (worksheet : XLSX.worksheet) (range : XLSX.range) (clock : nat -> string)
    (headers : list Js.value) (out : list (gmap string Js.value)),
    Express.normalize worksheet range clock = Js.Returned (headers, out) ->
    Forall
      (fun a : gmap string Js.value =>
         Forall
           (fun b : gmap string Js.value =>
              Client.sorter "S.No" a b = Express.byRowNumber a b
              /\ Client.sorter "S.No" a b = Client.byRowNumber a b)
           out)
      out.
Proof.
  intros worksheet range clock headers out Hnorm.
  apply Forall_forall. intros a Ha. apply Forall_forall. intros b Hb.
  destruct (output_record_fields _ _ _ _ _ _ Hnorm Ha)
    as (_ & sNoA & _ & _ & HsA & _ & _ & _ & _ & HnA & _).
  destruct (output_record_fields _ _ _ _ _ _ Hnorm Hb)
    as (_ & sNoB & _ & _ & HsB & _ & _ & _ & _ & HnB & _).
  unfold Client.sorter, Client.byRowNumber, Express.byRowNumber.
  unfold Client.ExcelRow in *.
  rewrite HsA, HnA, HsB, HnB. split; reflexivity.
Qed.

Lemma serial_sorter_agrees_with_row_order_witness :
  Forall
    (fun a : gmap string Js.value =>
       Forall
         (fun b : gmap string Js.value =>
            Client.sorter "S.No" a b = Express.byRowNumber a b
            /\ Client.sorter "S.No" a b = Client.byRowNumber a b)
         Cases.response)
    Cases.response.
Proof.
  apply (serial_sorter_agrees_with_row_order Sample.sheet Sample.range Sample.clock
           (Express.extractHeaders Sample.sheet Sample.range) Cases.response).
  reflexivity.
Defined.

(** ** Only the cells of the range are read *)

Section LocalityFacts.

Import Js.

Lemma forEach_ext {A S : Type} (body1 body2 : S -> A -> outcome S) (l : list A) :
  (forall a, a ∈ l -> forall st, body1 st a = body2 st a) ->
  forall st, forEach body1 l st = forEach body2 l st.
Proof.
  induction l as [|a l IH]; intros Hext st; [reflexivity|].
  simpl. rewrite (Hext a (list_elem_of_here _ _)).
  destruct (body2 st a); [|reflexivity]. simpl.
  apply IH. intros b Hb. apply Hext. now apply list_elem_of_further.
Qed.

Lemma getFormattedCellValue_ext (w1 w2 : XLSX.worksheet) (row col : nat) :
  w1 row col = w2 row col ->
  Express.getFormattedCellValue w1 row col = Express.getFormattedCellValue w2 row col.
Proof. intros H. unfold Express.getFormattedCellValue. now rewrite H. Qed.

Lemma extractHeaders_ext (w1 w2 : XLSX.worksheet) (range : XLSX.range) :
  (forall col, col ∈ Express.columns range ->
     w1 (XLSX.r (XLSX.s range)) col = w2 (XLSX.r (XLSX.s range)) col) ->
  Express.extractHeaders w1 range = Express.extractHeaders w2 range.
Proof.
  intros Hext. unfold Express.extractHeaders.
  apply list_fmap_ext. intros i col Hcol%list_elem_of_lookup_2.
  now rewrite (getFormattedCellValue_ext w1 w2 _ _ (Hext col Hcol)).
Qed.

Lemma buildRow_ext (w1 w2 : XLSX.worksheet) (headers : list value)
  (range : XLSX.range) (row : nat) :
  (forall col, col ∈ Express.columns range -> w1 row col = w2 row col) ->
  Express.buildRow w1 headers range row = Express.buildRow w2 headers range row.
Proof.
  intros Hext. unfold Express.buildRow. apply forEach_ext.
  intros col Hcol rowData. unfold Express.processColumn.
  now rewrite (getFormattedCellValue_ext w1 w2 _ _ (Hext col Hcol)).
Qed.

End LocalityFacts.

(** X20. The normalisation reads no cell outside the range: two worksheets
    that agree on the header row and on the data rows, within the columns of
    the range, give the same result. *)
Theorem normalize_reads_only_the_range :
  forall (w1 w2 : XLSX.worksheet) (range : XLSX.range) (clock : nat -> string),
    (forall row col : nat,
        row = XLSX.r (XLSX.s range)
        \/ XLSX.r (XLSX.s range) < row <= XLSX.r (XLSX.e range) ->
        XLSX.c (XLSX.s range) <= col <= XLSX.c (XLSX.e range) ->
        w1 row col = w2 row col) ->
    Express.normalize w1 range clock = Express.normalize w2 range clock.
Proof.
  intros w1 w2 range clock Hext. unfold Express.normalize.
  assert (Hheaders : Express.extractHeaders w1 range = Express.extractHeaders w2 range).
  { apply extractHeaders_ext. intros col Hcol%elem_of_columns.
    apply Hext; [now left|exact Hcol]. }
  rewrite Hheaders.
  rewrite (forEach_ext
             (Express.processRow w1 (Express.extractHeaders w2 range) range clock)
             (Express.processRow w2 (Express.extractHeaders w2 range) range clock));
    [reflexivity|].
  intros row Hrow%elem_of_dataRows acc. unfold Express.processRow.
  rewrite (buildRow_ext w1 w2); [reflexivity|].
  intros col Hcol%elem_of_columns. apply Hext; [now right|exact Hcol].
Qed.

Lemma normalize_reads_only_the_range_witness :
  Express.normalize Sample.sheet Sample.range Sample.clock
  = Express.normalize Cases.annotated Sample.range Sample.clock.
Proof.
  apply (normalize_reads_only_the_range Sample.sheet Cases.annotated Sample.range
           Sample.clock).
  intros row col Hrow Hcol. unfold Cases.annotated. simpl in Hrow.
  destruct (Nat.eqb_spec row 9); [lia|reflexivity].
Defined.

(** X21. The serverless handler sends rows exactly when the method is
    [POST], the form was parsed and holds a file of an allowed type, the file
    decodes, the normalisation returns and the file is there to be removed.
    A request of any other method is answered at once, 200 without a body
    for [OPTIONS] and 405 otherwise, whatever the form holds. *)
Theorem serverless_handler_success :
  forall (req : Serverless.request) (clock : nat -> string) (now : string)
    (files : gset string),
    let result := Serverless.handler req clock now files in
    ((exists data totalRows fileName uploadDate,
         Http.payload (snd result)
         = Http.Success data totalRows fileName uploadDate)
     <-> Serverless.method req = "POST"
         /\ exists file worksheet range headers out,
              Serverless.parsed req = Js.Returned (Some file)
              /\ JsString.arrayIncludes Http.allowedMimes (Http.mimetype file) = true
              /\ Http.decoded file = Js.Returned (worksheet, range)
              /\ Serverless.normalize worksheet range clock
                 = Js.Returned (headers, out)
              /\ Http.path file ∈ files)
    /\ (Serverless.method req <> "POST" ->
        result
        = (files,
           if String.eqb (Serverless.method req) "OPTIONS"
           then {| Http.statusCode := 200; Http.payload := Http.Empty |}
           else {| Http.statusCode := 405;
                   Http.payload := Http.Failure "Method not allowed" None |})).
Proof.
  intros [method parsed] clock now files result. subst result.
  unfold Serverless.handler. simpl Serverless.method. simpl Serverless.parsed.
  destruct (String.eqb_spec method "OPTIONS") as [->|Hopt].
  { simpl. split; [|reflexivity].
    split; [intros (? & ? & ? & ? & [=])|intros [[=] _]]. }
  destruct (String.eqb_spec method "POST") as [->|Hpost]; simpl negb; cbv iota.
  2:{ simpl. split; [|reflexivity].
      split; [intros (? & ? & ? & ? & [=])|intros [? _]; contradiction]. }
  split; [|intros H; now contradiction H].
  unfold Serverless.tryBlock. simpl Serverless.parsed.
  destruct parsed as [[file|]|e]; simpl.
  - destruct (JsString.arrayIncludes Http.allowedMimes (Http.mimetype file))
      eqn:Hmime; simpl.
    + destruct (Http.decoded file) as [[ws rg]|e] eqn:Hd; simpl.
      * destruct (Serverless.normalize ws rg clock) as [[hs out]|e] eqn:Hn; simpl.
        -- destruct (unlinkSync_cases files (Http.path file))
             as [[Hin ->]|[Hout ->]]; simpl.
           ++ split; [intros _|eauto].
              split; [reflexivity|]. exists file, ws, rg, hs, out. auto.
           ++ split; [intros (? & ? & ? & ? & [=])|].
              intros (_ & f & ? & ? & ? & ? & [= <-] & _ & _ & _ & Hin).
              contradiction.
        -- split; [intros (? & ? & ? & ? & [=])|].
           intros (_ & f & ws' & rg' & ? & ? & [= <-] & _ & Hd' & Hn' & _).
           rewrite Hd in Hd'. injection Hd' as <- <-.
           rewrite Hn in Hn'. discriminate.
      * split; [intros (? & ? & ? & ? & [=])|].
        intros (_ & f & ? & ? & ? & ? & [= <-] & _ & Hd' & _).
        rewrite Hd in Hd'. discriminate.
    + destruct (unlinkSync_cases files (Http.path file)) as [[_ ->]|[_ ->]]; simpl;
        (split; [intros (? & ? & ? & ? & [=])|]);
        intros (_ & f & ? & ? & ? & ? & [= <-] & Hm & _); congruence.
  - split; [intros (? & ? & ? & ? & [=])|].
    intros (_ & f & ? & ? & ? & ? & [=] & _).
  - split; [intros (? & ? & ? & ? & [=])|].
    intros (_ & f & ? & ? & ? & ? & [=] & _).
Qed.

Lemma serverless_handler_success_witness :
  Serverless.handler
    {| Serverless.method := "GET";
       Serverless.parsed := Js.Returned (Some Cases.report) |}
    Sample.clock "2024-01-01T00:00:09.000Z" {[ "/tmp/upload_2.csv" ]}
  = ({[ "/tmp/upload_2.csv" ]},
     {| Http.statusCode := 405;
        Http.payload := Http.Failure "Method not allowed" None |}).
Proof.
  apply (proj2 (serverless_handler_success
                  {| Serverless.method := "GET";
                     Serverless.parsed := Js.Returned (Some Cases.report) |}
                  Sample.clock "2024-01-01T00:00:09.000Z"
                  {[ "/tmp/upload_2.csv" ]})).
  discriminate.
Defined.

(** ** The grid on the server's own rows *)

Section GridOnOutput.

Import Js.

Local Open Scope Z_scope.

Lemma finished_numbered (record : gmap string value) :
  Rows.finished record ->
  Client.numbered record = true
  /\ Client.orderKey record = Rows.sortKey record.
Proof.
  intros (x & Hx & Hr & Hn).
  unfold Client.numbered, Client.orderKey, Rows.sortKey, Rows.rowIndex.
  unfold Client.ExcelRow in *. rewrite Hx. simpl. split.
  - destruct x as [| | |sx m e]; try reflexivity. simpl in Hr.
    destruct Hr as [Hm [He1 He2]].
    apply Z.ltb_lt in Hm. apply Z.leb_le in He1, He2. now rewrite Hm, He1, He2.
  - unfold or. simpl. destruct (JsNumber.truthy x) eqn:E; [reflexivity|].
    destruct x as [| | |sx m e]; try discriminate; reflexivity.
Qed.

Lemma byRowNumber_orderKey (a b : gmap string value) :
  Rows.finished a -> Rows.finished b ->
  sortOrder (Express.byRowNumber a b)
  = Z.compare (Client.orderKey a) (Client.orderKey b).
Proof.
  intros Ha Hb. rewrite (byRowNumber_sortKey a b Ha Hb).
  destruct (finished_numbered a Ha) as [_ ->].
  now destruct (finished_numbered b Hb) as [_ ->].
Qed.

Lemma output_shown (worksheet : XLSX.worksheet) (range : XLSX.range)
  (clock : nat -> string) (headers : list value)
  (out : list (gmap string value)) :
  Express.normalize worksheet range clock = Returned (headers, out) ->
  Forall (fun record => Client.shown record = true) out.
Proof.
  intros Hnorm. apply Forall_forall. intros record Hin.
  destruct (output_record_fields _ _ _ _ _ _ Hnorm Hin)
    as (_ & sNo & job & _ & Hs & Hts & Hj & Htj & _).
  unfold Client.shown. unfold Client.ExcelRow in *. rewrite Hs, Hj. simpl.
  now rewrite Hts, Htj.
Qed.

End GridOnOutput.

(** X22. Applied to the records as the route computes them, the grid's
    cleaning changes nothing: every record passes its filter, and its sort
    finds them in order. *)
Theorem grid_keeps_server_rows :
  forall (worksheet : XLSX.worksheet) (range : XLSX.range) (clock : nat -> string)
    (headers : list Js.value) (out : list (gmap string Js.value)),
    XLSX.wfSheet worksheet range = true ->
    Express.normalize worksheet range clock = Js.Returned (headers, out) ->
    Client.cleanData out = out.
Proof.
  intros worksheet range clock headers out Hwf Hnorm.
  pose proof (output_shown _ _ _ _ _ Hnorm) as Hshown.
  apply normalize_returned in Hnorm as (_ & -> & _).
  pose proof (admittedInOrder_finished worksheet range clock Hwf) as Hfin.
  assert (Hout : Forall Rows.finished
                   (Js.sort Express.byRowNumber
                      (Rows.admittedInOrder worksheet range clock)))
    by now apply (sort_good Express.byRowNumber Rows.finished).
  apply cleanData_fixed.
  - eapply Forall_impl; [exact Hout|]. intros record Hrec.
    now destruct (finished_numbered record Hrec).
  - exact Hshown.
  - now apply (sort_sorted Express.byRowNumber Client.orderKey Rows.finished
                 byRowNumber_orderKey).
Qed.

Lemma grid_keeps_server_rows_witness :
  Client.cleanData Cases.response = Cases.response.
Proof.
  apply (grid_keeps_server_rows Sample.sheet Sample.range Sample.clock
           (Express.extractHeaders Sample.sheet Sample.range) Cases.response).
  - reflexivity.
  - reflexivity.
Defined.
